(** * Business-adaptability classifiers: a shallow embedding

    The development follows three Python modules of the repository,
    [industry_classifier.py], [business_size_analyzer.py] and
    [role_recognizer.py].

    Conventions of the embedding.
    - A Python [str] is a [string] of ASCII characters; [str.lower] and the
      regular-expression class [\w] are the ASCII ones (bytes above 127 are
      neither letters nor word characters here).
    - A Python [dict] is an association list in insertion order
      ([PyDict.dict]); [PyDict.set] overwrites in place or appends, which is
      what assignment to a subscript does.
    - Python numbers (ints and floats) are rationals [Q]. Counts, and the
      scores that are sums of counts and of halves of counts, are exact in
      Python's floats (IEEE 754 doubles). Where the code divides and rounds,
      in the confidence percentages [(x / total) * 100] and in
      [round(x, 2)], each operation gives the double nearest to its exact
      result ([Num.to_double]). The weights of the role and size scores
      ([0.5 + len(keyword) / 20], [0.4], [0.2]) and the sums made of them are
      kept exact.
    - A call that can raise returns a [py_result]. *)

From Stdlib Require Import List String Ascii Bool Arith PeanoNat ZArith QArith Qround Qpower
  Lia Lqa.
Import ListNotations.

Local Open Scope string_scope.
Local Open Scope list_scope.

(** ** Exceptions *)

Inductive py_error : Type :=
| KeyError (key : string)
| NameError (name : string)
| ValueError
| IllTyped.

Inductive py_result (A : Type) : Type :=
| Ok (a : A)
| Raise (e : py_error).

Arguments Ok {A} a.
Arguments Raise {A} e.

Definition bind {A B : Type} (m : py_result A) (f : A -> py_result B) : py_result B :=
  match m with
  | Ok a => f a
  | Raise e => Raise e
  end.

Notation "x <- m ;; k" := (bind m (fun x => k))
  (at level 61, m at next level, right associativity).

(** ** Strings *)

Module Str.

Definition in_range (lo hi : nat) (c : ascii) : bool :=
  (lo <=? nat_of_ascii c)%nat && (nat_of_ascii c <=? hi)%nat.

Definition is_upper (c : ascii) : bool := in_range 65 90 c.

(** [\w] : letters, digits and the underscore. *)
Definition is_word_char (c : ascii) : bool :=
  in_range 48 57 c || in_range 65 90 c || in_range 97 122 c
  || (nat_of_ascii c =? 95)%nat.

Definition lower_char (c : ascii) : ascii :=
  if is_upper c then ascii_of_nat (nat_of_ascii c + 32) else c.

(** [str.lower()] *)
Fixpoint lower (s : string) : string :=
  match s with
  | EmptyString => EmptyString
  | String c s' => String (lower_char c) (lower s')
  end.

(** [sep.join(parts)] *)
Fixpoint join (sep : string) (parts : list string) : string :=
  match parts with
  | [] => ""
  | [p] => p
  | p :: rest => (p ++ sep ++ join sep rest)%string
  end.

(** Truth value of a string: the empty string is false. *)
Definition truthy (s : string) : bool :=
  match s with
  | EmptyString => false
  | String _ _ => true
  end.

End Str.

(** ** The pattern [\b + re.escape(keyword) + \b] and [re.findall]

    [re.escape] makes the keyword a literal, so the pattern matches at an
    offset when a word boundary holds there, the keyword's characters follow,
    and a word boundary holds after them. *)

Module Regex.

Definition is_word (c : option ascii) : bool :=
  match c with
  | Some a => Str.is_word_char a
  | None => false
  end.

(** [\b] between the character before an offset and the character at it;
    [None] is the outside of the text. *)
Definition word_boundary (prev next : option ascii) : bool :=
  xorb (is_word prev) (is_word next).

Fixpoint is_prefix (k t : list ascii) : bool :=
  match k, t with
  | [], _ => true
  | _ :: _, [] => false
  | a :: k', b :: t' => Ascii.eqb a b && is_prefix k' t'
  end.

(** The character that precedes the offset reached after reading [k]. *)
Definition last_before (prev : option ascii) (k : list ascii) : option ascii :=
  match k with
  | [] => prev
  | _ :: _ => Some (last k zero)
  end.

Definition match_here (prev : option ascii) (k t : list ascii) : bool :=
  word_boundary prev (hd_error t)
  && is_prefix k t
  && word_boundary (last_before prev k) (hd_error (skipn (List.length k) t)).

(** The left-to-right scan of [re.findall]: after a match the search resumes
    behind it ([skip] counts the characters of the match still to pass); an
    empty match lets the search move one character on. The result lists the
    offsets of the matches. *)
Fixpoint scan (k : list ascii) (prev : option ascii) (skip pos : nat)
         (t : list ascii) : list nat :=
  match t with
  | [] =>
      match skip with
      | O => if match_here prev k [] then [pos] else []
      | S _ => []
      end
  | c :: t' =>
      match skip with
      | S s => scan k (Some c) s (S pos) t'
      | O =>
          if match_here prev k t
          then pos :: scan k (Some c) (pred (List.length k)) (S pos) t'
          else scan k (Some c) 0 (S pos) t'
      end
  end.

(** The last character of a text, if any. *)
Definition last_opt (p : list ascii) : option ascii :=
  match p with
  | [] => None
  | _ :: _ => Some (last p zero)
  end.

(** The character in front of an offset. *)
Definition char_before (t : list ascii) (i : nat) : option ascii :=
  match i with
  | O => None
  | S j => nth_error t j
  end.

Definition findall (keyword text : string) : list nat :=
  scan (list_ascii_of_string keyword) None 0 0 (list_ascii_of_string text).

(** [len(re.findall(r'\b' + re.escape(keyword) + r'\b', text))] *)
Definition count (keyword text : string) : nat :=
  List.length (findall keyword text).

End Regex.


(** ** Python dictionaries *)

Module PyDict.

Section Dict.
Context {V : Type}.

Definition dict : Type := list (string * V).

(** [d.get(k)] *)
Fixpoint get (k : string) (d : dict) : option V :=
  match d with
  | [] => None
  | (k', v) :: d' => if String.eqb k k' then Some v else get k d'
  end.

(** [k in d] *)
Definition mem (k : string) (d : dict) : bool :=
  match get k d with
  | Some _ => true
  | None => false
  end.

(** [d[k]] *)
Definition lookup (k : string) (d : dict) : py_result V :=
  match get k d with
  | Some v => Ok v
  | None => Raise (KeyError k)
  end.

(** [d[k] = v] : an existing key keeps its place, a new one goes last. *)
Fixpoint set (k : string) (v : V) (d : dict) : dict :=
  match d with
  | [] => [(k, v)]
  | (k', v') :: d' =>
      if String.eqb k k' then (k', v) :: d' else (k', v') :: set k v d'
  end.

(** [d.update(other)] *)
Definition update (d other : dict) : dict :=
  fold_left (fun acc kv => set (fst kv) (snd kv) acc) other d.

Definition keys (d : dict) : list string := map fst d.
Definition values (d : dict) : list V := map snd d.

End Dict.

Arguments dict V : clear implicits.

End PyDict.

Import PyDict.

(** ** Numbers *)

Module Num.

Local Open Scope Q_scope.

Definition Qltb (x y : Q) : bool := negb (Qle_bool y x).

Definition of_nat (n : nat) : Q := inject_Z (Z.of_nat n).

(** [sum(xs)] *)
Definition sum (xs : list Q) : Q := fold_left Qplus xs 0.

(** [any(xs)] : some number is not zero. *)
Definition any (xs : list Q) : bool := existsb (fun x => negb (Qeq_bool x 0)) xs.

(** Nearest integer, ties to the even one. *)
Definition round_half_even (x : Q) : Z :=
  let f := Qfloor x in
  match Qcompare (x - inject_Z f) (1 # 2) with
  | Lt => f
  | Gt => (f + 1)%Z
  | Eq => if Z.even f then f else (f + 1)%Z
  end.

(** The floor of the binary logarithm of a positive number. *)
Definition exponent (x : Q) : Z :=
  let k := (Z.log2 (Qnum x) - Z.log2 (Zpos (Qden x)))%Z in
  if Qltb x (2 ^ k) then (k - 1)%Z else k.

(** The double nearest to a positive number, ties to the even significand:
    53 significant bits, and no bit below [2 ^ -1074]. Overflow is not
    modelled: the numbers rounded here are quotients of scores and
    percentages. *)
Definition nearest (x : Q) : Q :=
  let e := Z.max (exponent x - 52) (-1074) in
  inject_Z (round_half_even (x / 2 ^ e)) * 2 ^ e.

(** The double nearest to a number: what a float operation returns for the
    exact result [x]. *)
Definition to_double (x : Q) : Q :=
  match Qcompare x 0 with
  | Eq => 0
  | Gt => nearest (Qred x)
  | Lt => - nearest (Qred (- x))
  end.

(** [round(x, 2)] of a float: the exact value of [x] is rounded to the
    nearest hundredth, ties to even, and the float nearest to that decimal
    is returned. *)
Definition round2 (x : Q) : Q :=
  to_double (inject_Z (round_half_even (x * 100)) / 100).

(** [d.get(k)] as the key function of [max]; the keys passed are those of
    [d], so the default is never used. *)
Definition value_of (d : dict Q) (k : string) : Q :=
  match get k d with
  | Some v => v
  | None => 0
  end.

Fixpoint max_from (f : string -> Q) (best : string) (ks : list string) : string :=
  match ks with
  | [] => best
  | k :: ks' => if Qltb (f best) (f k) then max_from f k ks' else max_from f best ks'
  end.

(** [max(d, key=d.get)] : the first key, in iteration order, whose value is
    the greatest; [ValueError] on an empty dictionary. *)
Definition max_key (d : dict Q) : py_result string :=
  match keys d with
  | [] => Raise ValueError
  | k :: ks => Ok (max_from (value_of d) k ks)
  end.

(** [(x / total) * 100 if total > 0 else 0] : a float division, then a
    float multiplication. *)
Definition percentage (x total : Q) : Q :=
  if Qltb 0 total then to_double (to_double (x / total) * 100) else 0.

(** Scores that are not negative, and scores that are positive. *)
Definition nonneg_values (d : dict Q) : Prop := Forall (fun x => 0 <= x) (values d).

Definition positive_values (d : dict Q) : Prop := Forall (fun x => 0 < x) (values d).

End Num.

(** Traversal of a list with a fallible function, left to right. *)
Fixpoint mapM {A B : Type} (f : A -> py_result B) (l : list A) : py_result (list B) :=
  match l with
  | [] => Ok []
  | a :: l' =>
      b <- f a ;;
      bs <- mapM f l' ;;
      Ok (b :: bs)
  end.

(** ** industry_classifier.py *)

Module Industry.

Local Open Scope Q_scope.

Record sub_industry : Type := {
  sub_name : string;
  sub_keywords : list string
}.

Record industry : Type := {
  name : string;
  description : string;
  keywords : list string;
  sub_industries : dict sub_industry
}.

(** [self.industry_data["industries"]] *)
Definition industry_data : Type := dict industry.

Record confidence_entry : Type := {
  id : string;
  entry_name : string;
  confidence : Q
}.

Record sub_match : Type := {
  sub_match_name : string;
  sub_match_score : Q
}.

Record industry_match : Type := {
  match_name : string;
  match_score : Q;
  match_sub_industries : dict sub_match
}.

Record classification : Type := {
  primary_industry : confidence_entry;
  sub_industry_result : confidence_entry;
  all_matches : dict industry_match
}.

(** The corpus: the lowered description, followed by the lowered additional
    keywords when there are any. *)
Definition corpus (business_description : string)
           (additional_keywords : option (list string)) : string :=
  let description_lower := Str.lower business_description in
  match additional_keywords with
  | None | Some [] => description_lower
  | Some kws =>
      (description_lower ++ " " ++ Str.join " " (map Str.lower kws))%string
  end.

(** The loop over an industry's own keywords: each occurrence adds 1. *)
Definition score_keywords (text : string) (kws : list string) (score : Q) : Q :=
  fold_left
    (fun s keyword =>
       let count := Regex.count keyword text in
       if (0 <? count)%nat then s + Num.of_nat count else s)
    kws score.

(** The loop over one sub-industry's keywords: each occurrence adds 1 to the
    sub-industry and one half to the parent industry. *)
Definition score_sub_keywords (text : string) (kws : list string)
           (st : Q * Q) : Q * Q :=
  fold_left
    (fun st keyword =>
       let count := Regex.count keyword text in
       if (0 <? count)%nat
       then (fst st + Num.of_nat count * (1 # 2), snd st + Num.of_nat count)
       else st)
    kws st.

(** One iteration of the loop over the industries. The iteration's two
    entries, [industry_scores[industry_id]] and
    [sub_industry_scores[industry_id]], are held in locals here; the source
    creates them at the start of the iteration and updates them in place, and
    assigns no other key meanwhile. *)
Definition score_industry (text : string) (info : industry) : Q * dict Q :=
  let score := score_keywords text (keywords info) 0 in
  fold_left
    (fun st sub =>
       let '(sub_id, sub_info) := sub in
       let '(score', sub_score) :=
         score_sub_keywords text (sub_keywords sub_info) (fst st, 0) in
       (score', set sub_id sub_score (snd st)))
    (sub_industries info) (score, []).

(** [industry_scores] and [sub_industry_scores] after the loop. *)
Definition score_all (data : industry_data) (text : string)
  : dict Q * dict (dict Q) :=
  fold_left
    (fun st entry =>
       let '(industry_id, info) := entry in
       let '(score, sub_scores) := score_industry text info in
       (set industry_id score (fst st), set industry_id sub_scores (snd st)))
    data ([], []).

Definition empty_entry : confidence_entry :=
  {| id := ""; entry_name := ""; confidence := 0 |}.

Definition _get_top_sub_industry (data : industry_data) (industry_id : string)
           (sub_industry_scores : dict (dict Q)) : py_result confidence_entry :=
  let sub_scores :=
    match get industry_id sub_industry_scores with
    | Some d => d
    | None => []
    end in
  match sub_scores with
  | [] => Ok empty_entry
  | _ :: _ =>
      if negb (Num.any (values sub_scores)) then Ok empty_entry
      else
        top_sub_id <- Num.max_key sub_scores ;;
        let total_sub_score := Num.sum (values sub_scores) in
        let top_sub_confidence :=
          Num.percentage (Num.value_of sub_scores top_sub_id) total_sub_score in
        info <- lookup industry_id data ;;
        sub_info <- lookup top_sub_id (sub_industries info) ;;
        Ok {| id := top_sub_id;
              entry_name := sub_name sub_info;
              confidence := Num.round2 top_sub_confidence |}
  end.

(** The [all_matches] comprehension. *)
Definition sub_matches (info : industry) (sub_scores : dict Q)
  : py_result (dict sub_match) :=
  mapM
    (fun kv =>
       sub_info <- lookup (fst kv) (sub_industries info) ;;
       Ok (fst kv, {| sub_match_name := sub_name sub_info;
                      sub_match_score := snd kv |}))
    (filter (fun kv => Num.Qltb 0 (snd kv)) sub_scores).

Definition matches (data : industry_data) (industry_scores : dict Q)
           (sub_industry_scores : dict (dict Q))
  : py_result (dict industry_match) :=
  mapM
    (fun kv =>
       info <- lookup (fst kv) data ;;
       sub_scores <- lookup (fst kv) sub_industry_scores ;;
       subs <- sub_matches info sub_scores ;;
       Ok (fst kv, {| match_name := name info;
                      match_score := snd kv;
                      match_sub_industries := subs |}))
    (filter (fun kv => Num.Qltb 0 (snd kv)) industry_scores).

Definition classify_industry (data : industry_data)
           (business_description : string)
           (additional_keywords : option (list string))
  : py_result classification :=
  let description_lower := corpus business_description additional_keywords in
  let '(industry_scores, sub_industry_scores) := score_all data description_lower in
  top <-
    (if negb (Num.any (values industry_scores))
     then Ok ("technology", 0)
     else
       top_industry_id <- Num.max_key industry_scores ;;
       let total_score := Num.sum (values industry_scores) in
       Ok (top_industry_id,
           Num.percentage (Num.value_of industry_scores top_industry_id) total_score)) ;;
  let '(top_industry_id, top_industry_confidence) := top in
  top_sub_industry <- _get_top_sub_industry data top_industry_id sub_industry_scores ;;
  top_info <- lookup top_industry_id data ;;
  all <- matches data industry_scores sub_industry_scores ;;
  Ok {| primary_industry :=
          {| id := top_industry_id;
             entry_name := name top_info;
             confidence := Num.round2 top_industry_confidence |};
        sub_industry_result := top_sub_industry;
        all_matches := all |}.

(** [get_industry_information] *)
Definition get_industry_information (data : industry_data) (industry_id : string)
  : py_result industry :=
  if mem industry_id data then lookup industry_id data
  else lookup "technology" data.

End Industry.

(** ** business_size_analyzer.py *)

Module Size.

Local Open Scope Q_scope.

(** [{"min": ..., "max": ...}], [None] for an absent bound. *)
Record range_info : Type := range {
  min_val : option Q;
  max_val : option Q
}.

(** Size label -> range, for one metric. *)
Definition thresholds : Type := dict range_info.

Record characteristics : Type := {
  description : string;
  challenges : list string;
  opportunities : list string
}.

Record size_data : Type := {
  general_thresholds : dict thresholds;
  industry_specific_thresholds : dict (dict thresholds);
  size_characteristics : dict characteristics
}.

(** An entry of [confidence_scores]. *)
Record metric_score : Type := {
  size : string;
  weight : Q
}.

(** An entry of [metrics_analysis]. *)
Record metric_analysis : Type := {
  value : Q;
  category : string;
  analysis_weight : Q
}.

Record analysis : Type := {
  size_category : string;
  confidence : Q;
  result_description : string;
  result_challenges : list string;
  result_opportunities : list string;
  metrics_analysis : dict metric_analysis
}.

Fixpoint _categorize_metric (v : Q) (th : thresholds) : string :=
  match th with
  | [] => "medium"
  | (size_label, range_info) :: rest =>
      match min_val range_info, max_val range_info with
      | Some lo, Some hi =>
          if Qle_bool lo v && Qle_bool v hi then size_label
          else _categorize_metric v rest
      | Some lo, None =>
          if Qle_bool lo v then size_label else _categorize_metric v rest
      | None, Some hi =>
          if Qle_bool v hi then size_label else _categorize_metric v rest
      | None, None => _categorize_metric v rest
      end
  end.

(** The locals that the three metric blocks update: [size_categories],
    [confidence_scores], and [value], the loop variable of the additional
    metrics, which is unbound until that loop runs. *)
Record locals : Type := {
  size_categories : list string;
  confidence_scores : dict metric_score;
  loop_value : option Q
}.

Definition initial : locals :=
  {| size_categories := []; confidence_scores := []; loop_value := None |}.

(** Categorise one metric and record it when the label is not empty. *)
Definition evaluate (metric_name : string) (w : Q) (v : Q)
           (th : thresholds) (st : locals) : locals :=
  let metric_size := _categorize_metric v th in
  if Str.truthy metric_size
  then {| size_categories := size_categories st ++ [metric_size];
          confidence_scores :=
            set metric_name {| size := metric_size; weight := w |}
                (confidence_scores st);
          loop_value := loop_value st |}
  else st.

Definition evaluate_primary (metric_name : string) (v : option Q)
           (ths : dict thresholds) (st : locals) : locals :=
  match v, get metric_name ths with
  | Some x, Some th => evaluate metric_name (4 # 10) x th st
  | _, _ => st
  end.

Definition evaluate_additional (additional_metrics : option (dict Q))
           (ths : dict thresholds) (st : locals) : locals :=
  match additional_metrics with
  | None => st
  | Some metrics =>
      fold_left
        (fun st kv =>
           let st' := {| size_categories := size_categories st;
                         confidence_scores := confidence_scores st;
                         loop_value := Some (snd kv) |} in
           match get (fst kv) ths with
           | Some th => evaluate (fst kv) (2 # 10) (snd kv) th st'
           | None => st'
           end)
        metrics st
  end.

(** Industry-specific thresholds when the industry has them, the general
    ones for employees and revenue otherwise. *)
Definition select_thresholds (data : size_data) (industry : string)
  : py_result (dict thresholds) :=
  if mem industry (industry_specific_thresholds data)
  then lookup industry (industry_specific_thresholds data)
  else
    e <- lookup "employees" (general_thresholds data) ;;
    r <- lookup "revenue" (general_thresholds data) ;;
    Ok [("employees", e); ("revenue", r)].

Definition evaluate_metrics (ths : dict thresholds)
           (employees_count annual_revenue : option Q)
           (additional_metrics : option (dict Q)) : locals :=
  evaluate_additional additional_metrics ths
    (evaluate_primary "revenue" annual_revenue ths
       (evaluate_primary "employees" employees_count ths initial)).

(** [size_counts[size] = size_counts.get(size, 0) + 1] over the categories. *)
Definition count_sizes (categories : list string) : dict Q :=
  fold_left
    (fun counts s =>
       set s (match get s counts with Some n => n | None => 0 end + 1) counts)
    categories [].

(** No recorded weight is negative. *)
Definition weights_ok (st : locals) : Prop :=
  Forall (fun kv => 0 <= weight (snd kv)) (confidence_scores st).

(** The weighted share of the metrics that agree with [final_size]. *)
Definition weighted_confidence (final_size : string)
           (scores : dict metric_score) : Q :=
  let '(weighted, total_weight) :=
    fold_left
      (fun acc kv =>
         let info := snd kv in
         ((if String.eqb (size info) final_size
           then fst acc + weight info else fst acc),
          snd acc + weight info))
      scores (0, 0) in
  Num.percentage weighted total_weight.

(** [final_size] and [final_confidence]. *)
Definition decide (st : locals) : py_result (string * Q) :=
  match size_categories st with
  | [] => Ok ("medium", 0)
  | _ :: _ =>
      final_size <- Num.max_key (count_sizes (size_categories st)) ;;
      match confidence_scores st with
      | [] => Ok (final_size, 0)
      | _ :: _ => Ok (final_size, weighted_confidence final_size (confidence_scores st))
      end
  end.

(** The [metrics_analysis] comprehension: every entry reads [value]. *)
Definition analyse_metrics (st : locals) : py_result (dict metric_analysis) :=
  mapM
    (fun kv =>
       match loop_value st with
       | Some v =>
           Ok (fst kv, {| value := v;
                          category := size (snd kv);
                          analysis_weight := weight (snd kv) |})
       | None => Raise (NameError "value")
       end)
    (confidence_scores st).

Definition analyze_business_size (data : size_data) (industry : string)
           (employees_count annual_revenue : option Q)
           (additional_metrics : option (dict Q)) : py_result analysis :=
  let industry := Str.lower industry in
  ths <- select_thresholds data industry ;;
  let st := evaluate_metrics ths employees_count annual_revenue additional_metrics in
  final <- decide st ;;
  let '(final_size, final_confidence) := final in
  medium <- lookup "medium" (size_characteristics data) ;;
  let chars :=
    match get final_size (size_characteristics data) with
    | Some c => c
    | None => medium
    end in
  metrics <- analyse_metrics st ;;
  Ok {| size_category := final_size;
        confidence := Num.round2 final_confidence;
        result_description := description chars;
        result_challenges := challenges chars;
        result_opportunities := opportunities chars;
        metrics_analysis := metrics |}.

(** [get_size_information] *)
Definition get_size_information (data : size_data) (size_category : string)
  : py_result characteristics :=
  let size_category := Str.lower size_category in
  if mem size_category (size_characteristics data)
  then lookup size_category (size_characteristics data)
  else lookup "medium" (size_characteristics data).

End Size.

(** ** role_recognizer.py *)

Module Role.

Local Open Scope Q_scope.

Record role : Type := {
  name : string;
  description : string;
  keywords : list string;
  interests : list string;
  communication_preferences : option (dict string)
}.

Record strategy : Type := {
  content_focus : list string;
  presentation_style : list string;
  language_patterns : list string
}.

Record role_data : Type := {
  organizational_roles : dict role;
  functional_roles : dict role;
  industry_specific_roles : dict (dict role);
  communication_strategies : dict strategy
}.

Record role_result : Type := {
  id : string;
  result_name : string;
  result_description : string;
  confidence : Q
}.

Record role_match : Type := {
  match_name : string;
  match_score : Q
}.

Record recognition : Type := {
  organizational_role : role_result;
  functional_role : role_result;
  industry_specific_role : option role_result;
  communication_strategy : strategy;
  all_organizational_roles : dict role_match;
  all_functional_roles : dict role_match;
  all_industry_specific_roles : option (dict role_match)
}.

(** [0.5 + len(keyword) / 20] *)
Definition keyword_weight (keyword : string) : Q :=
  (1 # 2) + Num.of_nat (String.length keyword) / 20.

Definition _calculate_role_score (text : string) (kws : list string) : Q :=
  fold_left
    (fun score keyword =>
       let count := Regex.count (Str.lower keyword) text in
       if (0 <? count)%nat
       then score + Num.of_nat count * keyword_weight keyword
       else score)
    kws 0.

(** One scoring loop: the roles with a positive score, in taxonomy order. *)
Definition score_roles (text : string) (roles : dict role) : dict Q :=
  fold_left
    (fun scores entry =>
       let score := _calculate_role_score text (keywords (snd entry)) in
       if Num.Qltb 0 score then set (fst entry) score scores else scores)
    roles [].

Definition empty_result : role_result :=
  {| id := ""; result_name := ""; result_description := ""; confidence := 0 |}.

Definition _get_highest_scoring_role (role_scores : dict Q) (roles : dict role)
           (default_role : option string) : py_result role_result :=
  match role_scores with
  | [] =>
      match default_role with
      | Some d =>
          if Str.truthy d && mem d roles
          then
            info <- lookup d roles ;;
            Ok {| id := d;
                  result_name := name info;
                  result_description := description info;
                  confidence := 0 |}
          else Ok empty_result
      | None => Ok empty_result
      end
  | _ :: _ =>
      top_role_id <- Num.max_key role_scores ;;
      let total_score := Num.sum (values role_scores) in
      let conf := Num.percentage (Num.value_of role_scores top_role_id) total_score in
      info <- lookup top_role_id roles ;;
      Ok {| id := top_role_id;
            result_name := name info;
            result_description := description info;
            confidence := Num.round2 conf |}
  end.

(** An [all_matches] comprehension. *)
Definition role_matches (roles : dict role) (scores : dict Q)
  : py_result (dict role_match) :=
  mapM
    (fun kv =>
       info <- lookup (fst kv) roles ;;
       Ok (fst kv, {| match_name := name info; match_score := snd kv |}))
    scores.

(** The roles registered for the industry, when an industry is given and
    has a set of its own. *)
Definition industry_roles (data : role_data) (industry : option string)
  : option (dict role) :=
  match industry with
  | Some i =>
      if Str.truthy i then get (Str.lower i) (industry_specific_roles data)
      else None
  | None => None
  end.

Definition recognize_role (data : role_data) (job_title : string)
           (additional_info industry : option string) : py_result recognition :=
  let job_title_lower := Str.lower job_title in
  let additional_info_lower :=
    match additional_info with
    | Some info => if Str.truthy info then Str.lower info else ""
    | None => ""
    end in
  let combined_text := (job_title_lower ++ " " ++ additional_info_lower)%string in
  let organizational_role_scores :=
    score_roles combined_text (organizational_roles data) in
  let functional_role_scores :=
    score_roles combined_text (functional_roles data) in
  let industry_role_scores :=
    match industry_roles data industry with
    | Some roles => score_roles combined_text roles
    | None => []
    end in
  primary_org_role <-
    _get_highest_scoring_role organizational_role_scores
      (organizational_roles data) (Some "manager") ;;
  primary_func_role <-
    _get_highest_scoring_role functional_role_scores
      (functional_roles data) (Some "technology") ;;
  primary_industry_role <-
    match industry_roles data industry, industry_role_scores with
    | Some roles, _ :: _ =>
        r <- _get_highest_scoring_role industry_role_scores roles None ;;
        Ok (Some r)
    | _, _ => Ok None
    end ;;
  manager <- lookup "manager" (communication_strategies data) ;;
  let communication :=
    match get (id primary_org_role) (communication_strategies data) with
    | Some s => s
    | None => manager
    end in
  all_org <- role_matches (organizational_roles data) organizational_role_scores ;;
  all_func <- role_matches (functional_roles data) functional_role_scores ;;
  all_industry <-
    match industry_roles data industry, industry_role_scores with
    | Some roles, _ :: _ =>
        m <- role_matches roles industry_role_scores ;;
        Ok (Some m)
    | _, _ => Ok None
    end ;;
  Ok {| organizational_role := primary_org_role;
        functional_role := primary_func_role;
        industry_specific_role := primary_industry_role;
        communication_strategy := communication;
        all_organizational_roles := all_org;
        all_functional_roles := all_func;
        all_industry_specific_roles := all_industry |}.

(** What [get_role_information] returns: a role record, or the empty
    dictionary. *)
Inductive role_lookup : Type :=
| Found (r : role)
| EmptyDict.

Definition get_role_information (data : role_data) (role_type role_id : string)
           (industry : option string) : role_lookup :=
  match (if String.eqb role_type "organizational"
         then get role_id (organizational_roles data) else None) with
  | Some r => Found r
  | None =>
      match (if String.eqb role_type "functional"
             then get role_id (functional_roles data) else None) with
      | Some r => Found r
      | None =>
          if String.eqb role_type "industry_specific"
          then
            match industry with
            | Some i =>
                if Str.truthy i
                then
                  match get i (industry_specific_roles data) with
                  | Some roles =>
                      match get role_id roles with
                      | Some r => Found r
                      | None => EmptyDict
                      end
                  | None => EmptyDict
                  end
                else EmptyDict
            | None => EmptyDict
            end
          else EmptyDict
      end
  end.

(** [get_communication_strategy] *)
Definition get_communication_strategy (data : role_data)
           (organizational_role : string) : py_result strategy :=
  if mem organizational_role (communication_strategies data)
  then lookup organizational_role (communication_strategies data)
  else lookup "manager" (communication_strategies data).

End Role.

(** ** The taxonomy documents and the update operations

    The update operations work on the JSON document itself, whatever its
    keys, so they are modelled on JSON values. [IllTyped] marks a document
    that does not have the shape the code expects; what Python does with
    such a document is outside the model. The update document is a separate
    object from the stored data. *)

Module Json.

Set Warnings "-register-all".

Inductive json : Type :=
| JNull
| JNum (q : Q)
| JStr (s : string)
| JList (l : list json)
| JDict (d : list (string * json)).

Definition document : Type := dict json.

(** Python's [==] on JSON values; dictionaries compare without regard to
    the order of their keys. *)
Fixpoint eqb (a b : json) {struct a} : bool :=
  match a, b with
  | JNull, JNull => true
  | JNum x, JNum y => Qeq_bool x y
  | JStr x, JStr y => String.eqb x y
  | JList xs, JList ys =>
      (fix all2 (xs ys : list json) {struct xs} : bool :=
         match xs, ys with
         | [], [] => true
         | x :: xs', y :: ys' => eqb x y && all2 xs' ys'
         | _, _ => false
         end) xs ys
  | JDict xs, JDict ys =>
      (List.length xs =? List.length ys)%nat
      && (fix all (xs : list (string * json)) {struct xs} : bool :=
            match xs with
            | [] => true
            | (k, v) :: xs' =>
                match get k ys with
                | Some v' => eqb v v'
                | None => false
                end && all xs'
            end) xs
  | _, _ => false
  end.

(** [x in l] for a list. *)
Definition contains (l : list json) (x : json) : bool :=
  existsb (fun y => eqb y x) l.

Definition as_dict (j : json) : py_result document :=
  match j with
  | JDict d => Ok d
  | _ => Raise IllTyped
  end.

Definition as_list (j : json) : py_result (list json) :=
  match j with
  | JList l => Ok l
  | _ => Raise IllTyped
  end.

(** A loop whose body can raise. *)
Fixpoint foldM {A B : Type} (f : A -> B -> py_result A) (l : list B) (a : A)
  : py_result A :=
  match l with
  | [] => Ok a
  | b :: l' => a' <- f a b ;; foldM f l' a'
  end.

(** *** [update_industry_data] *)

(** The loop over the supplied sub-industries of an existing industry. *)
Definition merge_sub_industries (existing new_subs : document)
  : py_result document :=
  foldM
    (fun subs kv =>
       let '(sub_id, sub_info) := kv in
       match get sub_id subs with
       | Some old =>
           old_fields <- as_dict old ;;
           new_fields <- as_dict sub_info ;;
           Ok (set sub_id (JDict (update old_fields new_fields)) subs)
       | None => Ok (set sub_id sub_info subs)
       end)
    new_subs existing.

(** The loop over the supplied fields of an existing industry. *)
Definition merge_industry (existing industry_info : document)
  : py_result document :=
  foldM
    (fun ex kv =>
       let '(key, value) := kv in
       if String.eqb key "sub_industries" && mem "sub_industries" ex
       then
         subs_j <- lookup "sub_industries" ex ;;
         subs <- as_dict subs_j ;;
         new_subs <- as_dict value ;;
         merged <- merge_sub_industries subs new_subs ;;
         Ok (set "sub_industries" (JDict merged) ex)
       else if String.eqb key "keywords" && mem "keywords" ex
       then
         old_j <- lookup "keywords" ex ;;
         old <- as_list old_j ;;
         new <- as_list value ;;
         Ok (set "keywords"
                 (JList (old ++ filter (fun kw => negb (contains old kw)) new))
                 ex)
       else Ok (set key value ex))
    industry_info existing.

Definition update_industry_data (industry_data new_data : document)
  : py_result document :=
  match get "industries" new_data with
  | None => Ok industry_data
  | Some new_industries =>
      new_industries <- as_dict new_industries ;;
      foldM
        (fun data kv =>
           let '(industry_id, industry_info) := kv in
           industries_j <- lookup "industries" data ;;
           industries <- as_dict industries_j ;;
           match get industry_id industries with
           | Some existing =>
               existing <- as_dict existing ;;
               info <- as_dict industry_info ;;
               merged <- merge_industry existing info ;;
               Ok (set "industries"
                       (JDict (set industry_id (JDict merged) industries)) data)
           | None =>
               Ok (set "industries"
                       (JDict (set industry_id industry_info industries)) data)
           end)
        new_industries industry_data
  end.

(** *** [update_size_data] and [update_role_data]

    The two methods have the same body. *)

Definition merge_category (existing category_data : json) : py_result json :=
  match category_data with
  | JDict entries =>
      foldM
        (fun cat kv =>
           let '(key, value) := kv in
           fields <- as_dict cat ;;
           match get key fields, value with
           | Some (JDict old), JDict new =>
               Ok (JDict (set key (JDict (update old new)) fields))
           | _, _ => Ok (JDict (set key value fields))
           end)
        entries existing
  | JList items =>
      old <- as_list existing ;;
      Ok (JList (old ++ items))
  | _ => Ok existing
  end.

Definition update_data (data new_data : document) : py_result document :=
  foldM
    (fun data kv =>
       let '(category, category_data) := kv in
       match get category data with
       | Some existing =>
           merged <- merge_category existing category_data ;;
           Ok (set category merged data)
       | None => Ok (set category category_data data)
       end)
    new_data data.

Definition update_size_data : document -> document -> py_result document :=
  update_data.

Definition update_role_data : document -> document -> py_result document :=
  update_data.

(** *** The typed taxonomies as documents *)

Definition of_strings (l : list string) : json := JList (map JStr l).

Definition of_dict {V : Type} (f : V -> json) (d : dict V) : json :=
  JDict (map (fun kv => (fst kv, f (snd kv))) d).

Definition of_sub_industry (s : Industry.sub_industry) : json :=
  JDict [("name", JStr (Industry.sub_name s));
         ("keywords", of_strings (Industry.sub_keywords s))].

Definition of_industry (i : Industry.industry) : json :=
  JDict [("name", JStr (Industry.name i));
         ("description", JStr (Industry.description i));
         ("keywords", of_strings (Industry.keywords i));
         ("sub_industries", of_dict of_sub_industry (Industry.sub_industries i))].

Definition of_industry_data (d : Industry.industry_data) : document :=
  [("industries", of_dict of_industry d)].

Definition of_role (r : Role.role) : json :=
  JDict ([("name", JStr (Role.name r));
          ("description", JStr (Role.description r));
          ("keywords", of_strings (Role.keywords r));
          ("interests", of_strings (Role.interests r))]
         ++ match Role.communication_preferences r with
            | Some p => [("communication_preferences", of_dict JStr p)]
            | None => []
            end).

Definition of_strategy (s : Role.strategy) : json :=
  JDict [("content_focus", of_strings (Role.content_focus s));
         ("presentation_style", of_strings (Role.presentation_style s));
         ("language_patterns", of_strings (Role.language_patterns s))].

Definition of_role_data (d : Role.role_data) : document :=
  [("organizational_roles", of_dict of_role (Role.organizational_roles d));
   ("functional_roles", of_dict of_role (Role.functional_roles d));
   ("industry_specific_roles",
    of_dict (of_dict of_role) (Role.industry_specific_roles d));
   ("communication_strategies",
    of_dict of_strategy (Role.communication_strategies d))].

Definition of_bound (b : option Q) : json :=
  match b with
  | Some q => JNum q
  | None => JNull
  end.

Definition of_range (r : Size.range_info) : json :=
  JDict [("min", of_bound (Size.min_val r)); ("max", of_bound (Size.max_val r))].

Definition of_characteristics (c : Size.characteristics) : json :=
  JDict [("description", JStr (Size.description c));
         ("challenges", of_strings (Size.challenges c));
         ("opportunities", of_strings (Size.opportunities c))].

Definition of_size_data (d : Size.size_data) : document :=
  [("general_thresholds",
    of_dict (of_dict of_range) (Size.general_thresholds d));
   ("industry_specific_thresholds",
    of_dict (of_dict (of_dict of_range)) (Size.industry_specific_thresholds d));
   ("size_characteristics",
    of_dict of_characteristics (Size.size_characteristics d))].

(** A list-valued field of an entry, two levels down a document. *)
Definition list_at (data : document) (category entry field : string)
  : option (list json) :=
  match get category data with
  | Some (JDict entries) =>
      match get entry entries with
      | Some (JDict fields) =>
          match get field fields with
          | Some (JList l) => Some l
          | _ => None
          end
      | _ => None
      end
  | _ => None
  end.

(** How many times a string occurs in a list. *)
Definition occurrences (s : string) (l : list json) : nat :=
  List.length (filter (fun j => eqb j (JStr s)) l).

End Json.

(** The taxonomy of [_create_default_industry_data]. *)
Definition default_industry_data : Industry.industry_data :=
  [
  ("retail",
   {| Industry.name := "Retail";
      Industry.description :=
        "Businesses that sell products directly to consumers.";
      Industry.keywords :=
        ["retail"; "store"; "shop"; "e-commerce"; "online store"; "merchant";
         "seller"; "sales"; "consumer goods"; "shopping"; "marketplace"];
      Industry.sub_industries := [
        ("apparel", {| Industry.sub_name := "Apparel and Fashion";
                 Industry.sub_keywords :=
                   ["clothing"; "fashion"; "apparel"; "shoes"; "accessories"; "jewelry";
                    "wearables"] |});
        ("electronics", {| Industry.sub_name := "Electronics and Appliances";
                 Industry.sub_keywords :=
                   ["electronics"; "appliances"; "gadgets"; "devices"; "computers";
                    "phones"] |});
        ("grocery", {| Industry.sub_name := "Grocery and Food Retail";
                 Industry.sub_keywords :=
                   ["grocery"; "supermarket"; "food"; "beverage"; "produce"; "market"] |});
        ("home_goods", {| Industry.sub_name := "Home Goods and Furniture";
                 Industry.sub_keywords :=
                   ["furniture"; "home goods"; "decor"; "housewares"; "home improvement"] |}) ] |});
  ("healthcare",
   {| Industry.name := "Healthcare";
      Industry.description :=
        "Organizations involved in providing medical services, products, or facilities.";
      Industry.keywords :=
        ["healthcare"; "medical"; "health"; "hospital"; "clinic"; "patient";
         "doctor"; "physician"; "care"; "wellness"; "treatment"];
      Industry.sub_industries := [
        ("providers", {| Industry.sub_name := "Healthcare Providers";
                 Industry.sub_keywords :=
                   ["hospital"; "clinic"; "doctor"; "physician"; "nurse";
                    "medical practice"] |});
        ("pharma", {| Industry.sub_name := "Pharmaceuticals";
                 Industry.sub_keywords :=
                   ["pharmaceutical"; "pharma"; "drug"; "medication"; "medicine";
                    "biotech"] |});
        ("devices", {| Industry.sub_name := "Medical Devices";
                 Industry.sub_keywords :=
                   ["medical device"; "equipment"; "diagnostic"; "implant"; "prosthetic"] |});
        ("insurance", {| Industry.sub_name := "Health Insurance";
                 Industry.sub_keywords :=
                   ["health insurance"; "payer"; "coverage"; "benefits"; "claims"] |}) ] |});
  ("finance",
   {| Industry.name := "Finance";
      Industry.description :=
        "Businesses that manage money, investments, and financial services.";
      Industry.keywords :=
        ["finance"; "banking"; "investment"; "financial"; "bank"; "insurance";
         "wealth"; "money"; "capital"; "loan"; "credit"; "asset"];
      Industry.sub_industries := [
        ("banking", {| Industry.sub_name := "Banking";
                 Industry.sub_keywords :=
                   ["bank"; "banking"; "savings"; "checking"; "deposit"; "loan";
                    "credit"] |});
        ("investment", {| Industry.sub_name := "Investment and Wealth Management";
                 Industry.sub_keywords :=
                   ["investment"; "wealth"; "asset"; "portfolio"; "fund"; "stock";
                    "bond"] |});
        ("insurance", {| Industry.sub_name := "Insurance";
                 Industry.sub_keywords :=
                   ["insurance"; "insurer"; "policy"; "risk"; "underwriting"; "claim"] |});
        ("fintech", {| Industry.sub_name := "Financial Technology";
                 Industry.sub_keywords :=
                   ["fintech"; "payment"; "digital banking"; "blockchain";
                    "cryptocurrency"] |}) ] |});
  ("manufacturing",
   {| Industry.name := "Manufacturing";
      Industry.description :=
        "Businesses that produce goods through processing, fabrication, or assembly.";
      Industry.keywords :=
        ["manufacturing"; "factory"; "production"; "assembly"; "fabrication";
         "industrial"; "machinery"; "processing"; "materials"; "goods"];
      Industry.sub_industries := [
        ("automotive", {| Industry.sub_name := "Automotive Manufacturing";
                 Industry.sub_keywords :=
                   ["automotive"; "vehicle"; "car"; "auto parts"; "automobile"] |});
        ("electronics", {| Industry.sub_name := "Electronics Manufacturing";
                 Industry.sub_keywords :=
                   ["electronics"; "semiconductor"; "circuit"; "component"; "device"] |});
        ("consumer_goods", {| Industry.sub_name := "Consumer Goods Manufacturing";
                 Industry.sub_keywords :=
                   ["consumer goods"; "product"; "packaged goods"; "household"] |});
        ("industrial", {| Industry.sub_name := "Industrial Manufacturing";
                 Industry.sub_keywords :=
                   ["industrial"; "machinery"; "equipment"; "heavy"; "tool"] |}) ] |});
  ("technology",
   {| Industry.name := "Technology";
      Industry.description :=
        "Businesses that develop or provide technology products and services.";
      Industry.keywords :=
        ["technology"; "software"; "IT"; "tech"; "digital"; "computer";
         "internet"; "web"; "app"; "cloud"; "data"; "platform"];
      Industry.sub_industries := [
        ("software", {| Industry.sub_name := "Software Development";
                 Industry.sub_keywords :=
                   ["software"; "application"; "app"; "development"; "programming";
                    "SaaS"] |});
        ("hardware", {| Industry.sub_name := "Hardware and Devices";
                 Industry.sub_keywords :=
                   ["hardware"; "device"; "computer"; "server"; "equipment"] |});
        ("services", {| Industry.sub_name := "IT Services";
                 Industry.sub_keywords :=
                   ["IT service"; "consulting"; "support"; "managed service";
                    "outsourcing"] |});
        ("internet", {| Industry.sub_name := "Internet and Digital Media";
                 Industry.sub_keywords :=
                   ["internet"; "web"; "digital media"; "online"; "platform";
                    "social media"] |}) ] |});
  ("education",
   {| Industry.name := "Education";
      Industry.description :=
        "Organizations that provide educational services and resources.";
      Industry.keywords :=
        ["education"; "school"; "university"; "college"; "academic";
         "learning"; "teaching"; "student"; "course"; "training";
         "educational"];
      Industry.sub_industries := [
        ("k12", {| Industry.sub_name := "K-12 Education";
                 Industry.sub_keywords :=
                   ["school"; "K-12"; "elementary"; "secondary"; "high school"] |});
        ("higher_ed", {| Industry.sub_name := "Higher Education";
                 Industry.sub_keywords :=
                   ["university"; "college"; "higher education"; "campus"; "degree"] |});
        ("edtech", {| Industry.sub_name := "Educational Technology";
                 Industry.sub_keywords :=
                   ["edtech"; "e-learning"; "online learning"; "educational software"] |});
        ("training", {| Industry.sub_name := "Professional Training";
                 Industry.sub_keywords :=
                   ["training"; "professional development"; "certification"; "skill"] |}) ] |});
  ("hospitality",
   {| Industry.name := "Hospitality and Tourism";
      Industry.description :=
        "Businesses that provide accommodation, food, and travel services.";
      Industry.keywords :=
        ["hospitality"; "hotel"; "restaurant"; "tourism"; "travel";
         "accommodation"; "lodging"; "food service"; "catering"; "leisure";
         "guest"];
      Industry.sub_industries := [
        ("accommodation", {| Industry.sub_name := "Accommodation";
                 Industry.sub_keywords :=
                   ["hotel"; "motel"; "resort"; "lodging"; "inn"; "accommodation"] |});
        ("food_service", {| Industry.sub_name := "Food Service";
                 Industry.sub_keywords :=
                   ["restaurant"; "cafe"; "catering"; "food service"; "dining"] |});
        ("travel", {| Industry.sub_name := "Travel and Tourism";
                 Industry.sub_keywords :=
                   ["travel"; "tourism"; "tour"; "vacation"; "destination"] |});
        ("entertainment", {| Industry.sub_name := "Entertainment and Recreation";
                 Industry.sub_keywords :=
                   ["entertainment"; "recreation"; "attraction"; "event"; "leisure"] |}) ] |});
  ("professional_services",
   {| Industry.name := "Professional Services";
      Industry.description :=
        "Businesses that provide specialized professional services.";
      Industry.keywords :=
        ["professional services"; "consulting"; "legal"; "accounting";
         "advisory"; "service firm"; "professional"; "expert"; "consultant";
         "advisor"];
      Industry.sub_industries := [
        ("legal", {| Industry.sub_name := "Legal Services";
                 Industry.sub_keywords :=
                   ["legal"; "law firm"; "attorney"; "lawyer"; "counsel"] |});
        ("accounting", {| Industry.sub_name := "Accounting and Tax";
                 Industry.sub_keywords :=
                   ["accounting"; "accountant"; "tax"; "audit"; "bookkeeping"] |});
        ("consulting", {| Industry.sub_name := "Management Consulting";
                 Industry.sub_keywords :=
                   ["consulting"; "consultant"; "advisory"; "strategy"; "management"] |});
        ("marketing", {| Industry.sub_name := "Marketing and Advertising";
                 Industry.sub_keywords :=
                   ["marketing"; "advertising"; "agency"; "PR"; "media"; "branding"] |}) ] |})
  ].

(** The data of [_create_default_size_data]. *)
Definition default_size_data : Size.size_data :=
  {| Size.general_thresholds := [
      ("employees",
       [("micro", Size.range (Some 1%Q) (Some 10%Q));
        ("small", Size.range (Some 11%Q) (Some 50%Q));
        ("medium", Size.range (Some 51%Q) (Some 250%Q));
        ("large", Size.range (Some 251%Q) (Some 1000%Q));
        ("enterprise", Size.range (Some 1001%Q) None)]);
      ("revenue",
       [("micro", Size.range (Some 0%Q) (Some 1000000%Q));
        ("small", Size.range (Some 1000001%Q) (Some 10000000%Q));
        ("medium", Size.range (Some 10000001%Q) (Some 50000000%Q));
        ("large", Size.range (Some 50000001%Q) (Some 1000000000%Q));
        ("enterprise", Size.range (Some 1000000001%Q) None)]) ];
     Size.industry_specific_thresholds := [
      ("retail", [
         ("employees",
          [("small", Size.range (Some 1%Q) (Some 50%Q));
           ("medium", Size.range (Some 51%Q) (Some 200%Q));
           ("enterprise", Size.range (Some 201%Q) None)]);
         ("revenue",
          [("small", Size.range (Some 0%Q) (Some 5000000%Q));
           ("medium", Size.range (Some 5000001%Q) (Some 50000000%Q));
           ("enterprise", Size.range (Some 50000001%Q) None)]);
         ("locations",
          [("small", Size.range (Some 1%Q) (Some 3%Q));
           ("medium", Size.range (Some 4%Q) (Some 20%Q));
           ("enterprise", Size.range (Some 21%Q) None)]) ]);
      ("healthcare", [
         ("employees",
          [("small", Size.range (Some 1%Q) (Some 100%Q));
           ("medium", Size.range (Some 101%Q) (Some 500%Q));
           ("enterprise", Size.range (Some 501%Q) None)]);
         ("revenue",
          [("small", Size.range (Some 0%Q) (Some 10000000%Q));
           ("medium", Size.range (Some 10000001%Q) (Some 100000000%Q));
           ("enterprise", Size.range (Some 100000001%Q) None)]);
         ("beds",
          [("small", Size.range (Some 1%Q) (Some 100%Q));
           ("medium", Size.range (Some 101%Q) (Some 500%Q));
           ("enterprise", Size.range (Some 501%Q) None)]) ]);
      ("finance", [
         ("employees",
          [("small", Size.range (Some 1%Q) (Some 100%Q));
           ("medium", Size.range (Some 101%Q) (Some 1000%Q));
           ("enterprise", Size.range (Some 1001%Q) None)]);
         ("revenue",
          [("small", Size.range (Some 0%Q) (Some 20000000%Q));
           ("medium", Size.range (Some 20000001%Q) (Some 500000000%Q));
           ("enterprise", Size.range (Some 500000001%Q) None)]);
         ("assets_under_management",
          [("small", Size.range (Some 0%Q) (Some 100000000%Q));
           ("medium", Size.range (Some 100000001%Q) (Some 1000000000%Q));
           ("enterprise", Size.range (Some 1000000001%Q) None)]) ]);
      ("manufacturing", [
         ("employees",
          [("small", Size.range (Some 1%Q) (Some 100%Q));
           ("medium", Size.range (Some 101%Q) (Some 500%Q));
           ("enterprise", Size.range (Some 501%Q) None)]);
         ("revenue",
          [("small", Size.range (Some 0%Q) (Some 20000000%Q));
           ("medium", Size.range (Some 20000001%Q) (Some 100000000%Q));
           ("enterprise", Size.range (Some 100000001%Q) None)]);
         ("production_volume",
          [("small", Size.range (Some 0%Q) (Some 1000000%Q));
           ("medium", Size.range (Some 1000001%Q) (Some 10000000%Q));
           ("enterprise", Size.range (Some 10000001%Q) None)]) ]);
      ("technology", [
         ("employees",
          [("small", Size.range (Some 1%Q) (Some 50%Q));
           ("medium", Size.range (Some 51%Q) (Some 250%Q));
           ("enterprise", Size.range (Some 251%Q) None)]);
         ("revenue",
          [("small", Size.range (Some 0%Q) (Some 10000000%Q));
           ("medium", Size.range (Some 10000001%Q) (Some 100000000%Q));
           ("enterprise", Size.range (Some 100000001%Q) None)]);
         ("users",
          [("small", Size.range (Some 0%Q) (Some 10000%Q));
           ("medium", Size.range (Some 10001%Q) (Some 1000000%Q));
           ("enterprise", Size.range (Some 1000001%Q) None)]) ]) ];
     Size.size_characteristics := [
      ("small",
       {| Size.description :=
            "Small businesses typically have limited resources, simpler organizational structures, and more direct decision-making processes.";
          Size.challenges :=
            ["Limited budget and resources";
             "Wearing multiple hats (employees perform multiple roles)";
             "Difficulty competing with larger businesses";
             "Limited access to capital";
             "Less formal processes and documentation"];
          Size.opportunities :=
            ["Agility and quick decision-making";
             "Personal customer relationships"; "Niche market focus";
             "Flexibility to adapt quickly"; "Less bureaucracy"] |});
      ("medium",
       {| Size.description :=
            "Medium-sized businesses have more resources than small businesses but still maintain some flexibility. They typically have more formal structures and specialized roles.";
          Size.challenges :=
            ["Growing pains during scaling";
             "Balancing formality with flexibility";
             "Developing middle management";
             "Standardizing processes across the organization";
             "Competing with both small and large businesses"];
          Size.opportunities :=
            ["Established market presence";
             "More resources for growth and innovation";
             "Ability to serve larger clients"; "More specialized expertise";
             "Better economies of scale than small businesses"] |});
      ("enterprise",
       {| Size.description :=
            "Enterprise businesses are large organizations with complex structures, formal processes, and significant resources. They typically operate at scale across multiple locations or markets.";
          Size.challenges :=
            ["Organizational complexity"; "Slower decision-making processes";
             "Maintaining innovation and agility"; "Managing large workforces";
             "Coordinating across departments and regions"];
          Size.opportunities :=
            ["Significant resources for investment";
             "Strong market position and brand recognition"; "Economies of scale";
             "Ability to influence industry standards";
             "Global reach and capabilities"] |}) ] |}.

(** The data of [_create_default_role_data]. *)
Definition default_role_data : Role.role_data :=
  {| Role.organizational_roles := [
      ("executive",
       {| Role.name := "Executive";
          Role.description :=
            "Senior leadership responsible for strategic decisions and overall direction.";
          Role.keywords :=
            ["CEO"; "CFO"; "CTO"; "CIO"; "COO"; "CMO"; "CHRO"; "executive";
             "chief"; "president"; "vice president"; "VP"; "director"; "head";
             "founder"; "owner"; "partner"; "board member"; "chairman";
             "chairwoman"];
          Role.interests :=
            ["strategic planning"; "business growth"; "market positioning";
             "competitive advantage"; "financial performance";
             "organizational development"; "risk management";
             "innovation strategy"; "leadership"];
          Role.communication_preferences :=
            Some [("style",
               "concise, strategic, business-focused");
                  ("detail_level",
               "high-level with key details");
                  ("data_focus",
               "outcomes, ROI, strategic impact");
                  ("time_sensitivity",
               "highly time-sensitive, respect for limited availability")] |});
      ("manager",
       {| Role.name := "Manager";
          Role.description :=
            "Mid-level leadership responsible for team performance and operational execution.";
          Role.keywords :=
            ["manager"; "supervisor"; "team lead"; "project manager";
             "department head"; "coordinator"; "administrator"; "lead"; "senior";
             "principal"];
          Role.interests :=
            ["team productivity"; "process improvement"; "resource allocation";
             "performance metrics"; "project management"; "staff development";
             "operational efficiency"; "budget management"; "team collaboration"];
          Role.communication_preferences :=
            Some [("style",
               "practical, action-oriented, solution-focused");
                  ("detail_level",
               "balanced with actionable details");
                  ("data_focus",
               "performance metrics, efficiency gains, resource utilization");
                  ("time_sensitivity",
               "moderate, focused on operational timelines")] |});
      ("specialist",
       {| Role.name := "Specialist";
          Role.description :=
            "Individual contributor with specialized expertise in a specific domain.";
          Role.keywords :=
            ["specialist"; "expert"; "analyst"; "engineer"; "developer";
             "designer"; "consultant"; "technician"; "associate"; "professional";
             "advisor"; "representative"; "agent"; "coordinator"];
          Role.interests :=
            ["technical details"; "domain expertise"; "best practices";
             "tools and technologies"; "skill development"; "problem solving";
             "technical challenges"; "innovation"; "efficiency improvements";
             "professional development"];
          Role.communication_preferences :=
            Some [("style",
               "detailed, technical, evidence-based");
                  ("detail_level",
               "comprehensive with technical specifics");
                  ("data_focus",
               "technical metrics, detailed analysis, implementation specifics");
                  ("time_sensitivity",
               "variable, focused on task completion")] |}) ];
     Role.functional_roles := [
      ("technology",
       {| Role.name := "Technology";
          Role.description :=
            "Roles focused on technology development, implementation, and management.";
          Role.keywords :=
            ["developer"; "engineer"; "programmer"; "architect"; "administrator";
             "technician"; "analyst"; "IT"; "technical"; "software"; "hardware";
             "network"; "database"; "security"; "support"; "DevOps"; "QA"];
          Role.interests :=
            ["technology stack"; "development methodologies";
             "technical specifications"; "system architecture"; "code quality";
             "performance optimization"; "security considerations";
             "integration capabilities"; "scalability"];
          Role.communication_preferences :=
            None |});
      ("marketing",
       {| Role.name := "Marketing";
          Role.description :=
            "Roles focused on promoting products/services and building brand awareness.";
          Role.keywords :=
            ["marketing"; "brand"; "advertising"; "communications"; "PR";
             "public relations"; "content"; "social media"; "digital"; "campaign";
             "market research"; "SEO"; "growth"; "acquisition"; "engagement";
             "retention"; "conversion"];
          Role.interests :=
            ["customer acquisition"; "brand positioning"; "campaign performance";
             "market trends"; "customer engagement"; "content strategy";
             "conversion optimization"; "audience targeting";
             "marketing analytics"];
          Role.communication_preferences :=
            None |});
      ("sales",
       {| Role.name := "Sales";
          Role.description :=
            "Roles focused on selling products/services and managing customer relationships.";
          Role.keywords :=
            ["sales"; "account"; "business development"; "customer success";
             "relationship"; "revenue"; "deal"; "pipeline"; "forecast"; "quota";
             "prospect"; "lead"; "opportunity"; "client"; "customer"];
          Role.interests :=
            ["sales process"; "customer acquisition"; "deal closing";
             "revenue growth"; "customer relationships";
             "competitive positioning"; "value proposition"; "pricing strategy";
             "sales enablement"; "customer success"];
          Role.communication_preferences :=
            None |});
      ("finance",
       {| Role.name := "Finance";
          Role.description :=
            "Roles focused on financial management, analysis, and reporting.";
          Role.keywords :=
            ["finance"; "accounting"; "financial"; "budget"; "forecast";
             "analysis"; "controller"; "treasurer"; "auditor"; "tax";
             "investment"; "capital"; "revenue"; "expense"; "profit"; "loss";
             "cash flow"; "balance sheet"];
          Role.interests :=
            ["financial performance"; "cost management"; "budget planning";
             "financial reporting"; "risk assessment"; "investment analysis";
             "cash flow management"; "profitability analysis";
             "financial controls"];
          Role.communication_preferences :=
            None |});
      ("operations",
       {| Role.name := "Operations";
          Role.description :=
            "Roles focused on day-to-day business operations and process management.";
          Role.keywords :=
            ["operations"; "process"; "production"; "logistics"; "supply chain";
             "procurement"; "inventory"; "quality"; "facilities"; "manufacturing";
             "distribution"; "warehouse"; "fulfillment"; "service delivery"];
          Role.interests :=
            ["operational efficiency"; "process optimization"; "quality control";
             "resource utilization"; "supply chain management";
             "inventory management"; "service delivery"; "operational costs";
             "compliance"; "risk management"];
          Role.communication_preferences :=
            None |});
      ("human_resources",
       {| Role.name := "Human Resources";
          Role.description :=
            "Roles focused on people management, talent development, and organizational culture.";
          Role.keywords :=
            ["HR"; "human resources"; "people"; "talent"; "recruitment"; "hiring";
             "training"; "development"; "compensation"; "benefits"; "culture";
             "employee"; "workforce"; "staff"; "personnel"; "organizational"];
          Role.interests :=
            ["talent acquisition"; "employee development";
             "performance management"; "compensation strategy";
             "employee engagement"; "organizational culture";
             "workforce planning"; "compliance"; "employee experience";
             "retention"];
          Role.communication_preferences :=
            None |}) ];
     Role.industry_specific_roles := [
      ("healthcare", [
         ("clinical",
          {| Role.name := "Clinical";
             Role.description :=
               "Healthcare professionals directly involved in patient care.";
             Role.keywords :=
               ["doctor"; "physician"; "nurse"; "practitioner"; "therapist";
                "clinician"; "medical"; "clinical"; "patient care"; "treatment";
                "diagnosis"];
             Role.interests :=
               ["patient outcomes"; "clinical workflows"; "treatment protocols";
                "medical records"; "patient management"; "care coordination";
                "clinical decision support"; "evidence-based practice"];
             Role.communication_preferences :=
               None |});
         ("administrative",
          {| Role.name := "Healthcare Administration";
             Role.description :=
               "Professionals managing healthcare operations and compliance.";
             Role.keywords :=
               ["administrator"; "coordinator"; "director"; "manager"; "compliance";
                "billing"; "coding"; "records"; "regulatory"; "operations"];
             Role.interests :=
               ["regulatory compliance"; "operational efficiency";
                "patient satisfaction"; "healthcare costs"; "facility management";
                "staff coordination"; "healthcare policy"; "quality metrics";
                "accreditation"];
             Role.communication_preferences :=
               None |}) ]);
      ("finance", [
         ("investment",
          {| Role.name := "Investment Professional";
             Role.description :=
               "Professionals managing investments and financial assets.";
             Role.keywords :=
               ["investment"; "portfolio"; "asset"; "wealth"; "advisor"; "banker";
                "trader"; "analyst"; "fund"; "capital"; "securities"];
             Role.interests :=
               ["investment performance"; "market analysis"; "portfolio management";
                "risk assessment"; "asset allocation"; "client relationships";
                "financial planning"; "wealth management"; "market trends"];
             Role.communication_preferences :=
               None |});
         ("banking",
          {| Role.name := "Banking Professional";
             Role.description :=
               "Professionals working in banking and financial services.";
             Role.keywords :=
               ["banker"; "teller"; "loan"; "credit"; "branch"; "banking"; "account";
                "deposit"; "mortgage"; "financial services"];
             Role.interests :=
               ["customer service"; "account management"; "lending practices";
                "banking regulations"; "financial products"; "customer acquisition";
                "risk management"; "digital banking"; "branch operations"];
             Role.communication_preferences :=
               None |}) ]);
      ("retail", [
         ("merchandising",
          {| Role.name := "Merchandising Professional";
             Role.description :=
               "Professionals managing product selection, pricing, and presentation.";
             Role.keywords :=
               ["merchandiser"; "buyer"; "product"; "assortment"; "category";
                "pricing"; "promotion"; "inventory"; "retail"; "purchasing"];
             Role.interests :=
               ["product selection"; "inventory management"; "pricing strategy";
                "product placement"; "seasonal planning"; "vendor relationships";
                "sales performance"; "market trends"; "customer preferences"];
             Role.communication_preferences :=
               None |});
         ("store_operations",
          {| Role.name := "Store Operations Professional";
             Role.description :=
               "Professionals managing retail store operations and customer experience.";
             Role.keywords :=
               ["store"; "retail"; "shop"; "manager"; "associate"; "sales floor";
                "customer service"; "operations"; "cashier"; "floor"];
             Role.interests :=
               ["store performance"; "customer experience"; "staff management";
                "visual merchandising"; "loss prevention"; "sales targets";
                "operational efficiency"; "customer service"; "store layout"];
             Role.communication_preferences :=
               None |}) ]) ];
     Role.communication_strategies := [
      ("executive",
       {| Role.content_focus :=
            ["Strategic impact and business outcomes";
             "ROI and financial implications";
             "Competitive advantage and market positioning";
             "Risk assessment and mitigation";
             "High-level implementation considerations"];
          Role.presentation_style :=
            ["Begin with key conclusions and recommendations";
             "Use executive summaries with clear, actionable insights";
             "Include visual representations of data and trends";
             "Provide strategic context for recommendations";
             "Offer clear next steps and decision points"];
          Role.language_patterns :=
            ["Strategic, forward-looking terminology";
             "Business outcome-focused language"; "Confident, decisive phrasing";
             "Industry-specific executive terminology";
             "Concise, impactful statements"] |});
      ("manager",
       {| Role.content_focus :=
            ["Operational implementation details";
             "Team impact and resource requirements";
             "Performance metrics and measurement";
             "Process improvements and efficiency gains";
             "Timeline and milestone planning"];
          Role.presentation_style :=
            ["Balance strategic context with tactical details";
             "Include implementation roadmaps and timelines";
             "Provide team-level impact analysis";
             "Offer resource allocation recommendations";
             "Include change management considerations"];
          Role.language_patterns :=
            ["Action-oriented, practical terminology";
             "Team and resource-focused language";
             "Process and implementation phrasing";
             "Balanced technical and business terminology";
             "Clear direction and guidance statements"] |});
      ("specialist",
       {| Role.content_focus :=
            ["Technical details and specifications";
             "Implementation methodologies and best practices";
             "Tool-specific features and capabilities";
             "Technical challenges and solutions";
             "Detailed performance metrics and analysis"];
          Role.presentation_style :=
            ["Provide comprehensive technical details";
             "Include technical diagrams and specifications";
             "Reference industry standards and best practices";
             "Offer detailed implementation guidance";
             "Include technical comparisons and benchmarks"];
          Role.language_patterns :=
            ["Technically precise terminology";
             "Domain-specific jargon and acronyms";
             "Detailed, specific descriptions";
             "Evidence-based, analytical phrasing";
             "Implementation-focused language"] |}) ] |}.

(** ** Reference definitions

    These follow the words of the specification; the theorems compare them
    with the functions above. *)

Module Reference.

Local Open Scope Q_scope.

(** A range contains a value when the value respects each bound that is
    present; an absent bound leaves that side open. *)
Definition contains (r : Size.range_info) (v : Q) : bool :=
  match Size.min_val r with
  | Some lo => Qle_bool lo v
  | None => true
  end
  && match Size.max_val r with
     | Some hi => Qle_bool v hi
     | None => true
     end.

(** The label of the first range, in order, that contains the value, and
    "medium" when none does. *)
Fixpoint first_containing (v : Q) (th : Size.thresholds) : string :=
  match th with
  | [] => "medium"
  | (label, r) :: rest => if contains r v then label else first_containing v rest
  end.

(** A range with at least one bound. *)
Definition bounded (r : Size.range_info) : Prop :=
  Size.min_val r <> None \/ Size.max_val r <> None.

Definition has_bound (r : Size.range_info) : bool :=
  match Size.min_val r, Size.max_val r with
  | None, None => false
  | _, _ => true
  end.

(** All the ranges of a size taxonomy. *)
Definition ranges_of (data : Size.size_data) : list Size.range_info :=
  flat_map (fun m => values (snd m)) (Size.general_thresholds data)
  ++ flat_map (fun i => flat_map (fun m => values (snd m)) (snd i))
       (Size.industry_specific_thresholds data).

(** The number of evaluated metrics that received a label. *)
Definition votes (label : string) (labels : list string) : nat :=
  count_occ string_dec labels label.

(** [w] received the greatest number of votes, and it is the first label,
    in the order of evaluation, to have that many. *)
Definition majority_label (labels : list string) (w : string) : Prop :=
  (forall s, (votes s labels <= votes w labels)%nat)
  /\ exists l1 l2,
       labels = l1 ++ w :: l2
       /\ forall s, In s l1 -> (votes s labels < votes w labels)%nat.

(** The label a metric receives, when the threshold set covers the metric
    and the label is not empty. *)
Definition label_of (metric : string) (v : Q) (ths : dict Size.thresholds)
  : list string :=
  match get metric ths with
  | Some th =>
      let l := Size._categorize_metric v th in
      if Str.truthy l then [l] else []
  | None => []
  end.

(** The labels of the evaluated metrics: employees, then revenue, then the
    additional metrics in the order of their mapping. *)
Definition evaluated_labels (ths : dict Size.thresholds)
           (employees_count annual_revenue : option Q)
           (additional_metrics : option (dict Q)) : list string :=
  match employees_count with
  | Some x => label_of "employees" x ths
  | None => []
  end
  ++ match annual_revenue with
     | Some x => label_of "revenue" x ths
     | None => []
     end
  ++ match additional_metrics with
     | Some metrics => flat_map (fun kv => label_of (fst kv) (snd kv) ths) metrics
     | None => []
     end.

(** The contribution of one keyword to a role's score. *)
Definition contribution (text keyword : string) : Q :=
  Num.of_nat (Regex.count (Str.lower keyword) text)
  * ((1 # 2) + Num.of_nat (String.length keyword) / 20).

(** The occurrences of the keywords of a list in a text, each counted 1. *)
Definition keyword_hits (text : string) (kws : list string) : Q :=
  Num.sum (map (fun k => Num.of_nat (Regex.count k text)) kws).

(** An industry's score: its own keywords at full weight, the keywords of
    its sub-industries at half weight. *)
Definition industry_score (text : string) (info : Industry.industry) : Q :=
  keyword_hits text (Industry.keywords info)
  + (1 # 2)
    * Num.sum (map (fun sub => keyword_hits text (Industry.sub_keywords (snd sub)))
                   (Industry.sub_industries info)).

(** The two score dictionaries, entry by entry. *)
Definition industry_scores (data : Industry.industry_data) (text : string) : dict Q :=
  map (fun e => (fst e, fst (Industry.score_industry text (snd e)))) data.

Definition sub_industry_scores (data : Industry.industry_data) (text : string)
  : dict (dict Q) :=
  map (fun e => (fst e, snd (Industry.score_industry text (snd e)))) data.

(** A keyword of the industry, or of one of its sub-industries, occurs in
    the text. *)
Definition has_hit (text : string) (info : Industry.industry) : Prop :=
  exists keyword,
    (In keyword (Industry.keywords info)
     \/ exists sub, In sub (Industry.sub_industries info)
                    /\ In keyword (Industry.sub_keywords (snd sub)))
    /\ (0 < Regex.count keyword text)%nat.

(** *** The update operations, key by key

    What a taxonomy document holds after an update, read off one key at a
    time: [_after] relates the value before, the supplied value and the
    value after. *)

(** The keyword list of an industry after a keyword update: the supplied
    keywords that the list did not have are appended. *)
Definition merged_keywords (old new : list Json.json) : list Json.json :=
  old ++ filter (fun kw => negb (Json.contains old kw)) new.

(** A sub-industry after [update_industry_data]: left alone when it is not
    supplied, added when it is new, and otherwise updated one level deep,
    each supplied field replacing the field of that name. *)
Definition sub_industry_after (subs new_subs subs' : Json.document) (sub_id : string)
  : Prop :=
  match get sub_id new_subs with
  | None => get sub_id subs' = get sub_id subs
  | Some sub_info =>
      match get sub_id subs with
      | None => get sub_id subs' = Some sub_info
      | Some old =>
          exists old_fields new_fields,
            old = Json.JDict old_fields /\ sub_info = Json.JDict new_fields
            /\ get sub_id subs' = Some (Json.JDict (update old_fields new_fields))
      end
  end.

(** A field of an existing industry after [update_industry_data]: left
    alone when it is not supplied; the sub-industries are merged
    sub-industry by sub-industry, the keywords are extended, and any other
    field is replaced. *)
Definition industry_field_after (ex fields ex' : Json.document) (field : string)
  : Prop :=
  match get field fields with
  | None => get field ex' = get field ex
  | Some value =>
      match get field ex with
      | None => get field ex' = Some value
      | Some old =>
          if String.eqb field "sub_industries"
          then
            exists subs new_subs subs',
              old = Json.JDict subs /\ value = Json.JDict new_subs
              /\ get field ex' = Some (Json.JDict subs')
              /\ (NoDup (keys new_subs) ->
                  forall sub_id, sub_industry_after subs new_subs subs' sub_id)
          else if String.eqb field "keywords"
          then
            exists old_keywords new_keywords,
              old = Json.JList old_keywords /\ value = Json.JList new_keywords
              /\ get field ex'
                 = Some (Json.JList (merged_keywords old_keywords new_keywords))
          else get field ex' = Some value
      end
  end.

(** An industry after [update_industry_data]: left alone when it is not
    supplied, added when it is new, and otherwise merged field by field. *)
Definition industry_after (industries new_industries industries' : Json.document)
           (industry_id : string) : Prop :=
  match get industry_id new_industries with
  | None => get industry_id industries' = get industry_id industries
  | Some industry_info =>
      match get industry_id industries with
      | None => get industry_id industries' = Some industry_info
      | Some existing =>
          exists ex fields ex',
            existing = Json.JDict ex /\ industry_info = Json.JDict fields
            /\ get industry_id industries' = Some (Json.JDict ex')
            /\ (NoDup (keys fields) ->
                forall field, industry_field_after ex fields ex' field)
      end
  end.

(** An entry of a dictionary category after [update_size_data] or
    [update_role_data]: a supplied dictionary is merged into an existing
    dictionary one level deep; any other supplied value, a list included,
    replaces the entry. *)
Definition entry_after (fields entries fields' : Json.document) (key : string)
  : Prop :=
  get key fields'
  = match get key entries with
    | None => get key fields
    | Some value =>
        match get key fields, value with
        | Some (Json.JDict old), Json.JDict new => Some (Json.JDict (update old new))
        | _, _ => Some value
        end
    end.

(** A category after [update_size_data] or [update_role_data]: left alone
    when it is not supplied, added when it is new; a supplied dictionary is
    merged entry by entry, a supplied list is appended to the existing list,
    and any other supplied value is ignored. *)
Definition category_after (data new_data d : Json.document) (category : string)
  : Prop :=
  match get category new_data with
  | None => get category d = get category data
  | Some category_data =>
      match get category data with
      | None => get category d = Some category_data
      | Some existing =>
          match category_data with
          | Json.JDict [] => get category d = Some existing
          | Json.JDict entries =>
              exists fields fields',
                existing = Json.JDict fields
                /\ get category d = Some (Json.JDict fields')
                /\ (NoDup (keys entries) ->
                    forall key, entry_after fields entries fields' key)
          | Json.JList items =>
              exists old,
                existing = Json.JList old
                /\ get category d = Some (Json.JList (old ++ items))
          | _ => get category d = Some existing
          end
      end
  end.

(** *** Documents that an update accepts

    The update operations index and iterate what they find, so they return
    only when the stored values and the supplied ones have the shapes the
    loops expect. A Python dictionary has each key once; the supplied
    dictionaries are lists of entries here, so that is said with [NoDup]. *)

Definition sub_industry_fits (subs new_subs : Json.document) (sub_id : string)
  : Prop :=
  match get sub_id new_subs, get sub_id subs with
  | Some sub_info, Some old =>
      (exists old_fields, old = Json.JDict old_fields)
      /\ (exists new_fields, sub_info = Json.JDict new_fields)
  | _, _ => True
  end.

Definition industry_field_fits (ex fields : Json.document) (field : string) : Prop :=
  match get field fields, get field ex with
  | Some value, Some old =>
      if String.eqb field "sub_industries"
      then
        exists subs new_subs,
          old = Json.JDict subs /\ value = Json.JDict new_subs
          /\ NoDup (keys new_subs)
          /\ forall sub_id, sub_industry_fits subs new_subs sub_id
      else if String.eqb field "keywords"
      then
        (exists old_keywords, old = Json.JList old_keywords)
        /\ (exists new_keywords, value = Json.JList new_keywords)
      else True
  | _, _ => True
  end.

Definition industry_fits (industries new_industries : Json.document)
           (industry_id : string) : Prop :=
  match get industry_id new_industries, get industry_id industries with
  | Some industry_info, Some existing =>
      exists ex fields,
        existing = Json.JDict ex /\ industry_info = Json.JDict fields
        /\ NoDup (keys fields)
        /\ forall field, industry_field_fits ex fields field
  | _, _ => True
  end.

Definition category_fits (data new_data : Json.document) (category : string) : Prop :=
  match get category new_data, get category data with
  | Some (Json.JDict (_ :: _)), Some existing => exists fields, existing = Json.JDict fields
  | Some (Json.JList _), Some existing => exists old, existing = Json.JList old
  | _, _ => True
  end.

End Reference.

(** ** Further predicates

    Predicates on texts, threshold sets and taxonomies that the further
    properties are stated with. *)

Module Aux.

Local Open Scope Q_scope.

(** Every character of the string is an ASCII character. *)
Fixpoint is_ascii (s : string) : bool :=
  match s with
  | EmptyString => true
  | String c s' => (nat_of_ascii c <? 128)%nat && is_ascii s'
  end.

(** Some character of the string is an upper-case letter. *)
Fixpoint has_upper (s : string) : bool :=
  match s with
  | EmptyString => false
  | String c s' => Str.is_upper c || has_upper s'
  end.

(** The ranges of a threshold set come in increasing order and do not
    touch: each has a lower bound above the upper bound before it, an upper
    bound that is not below its lower bound, and only the last may be open
    above. [prev] is the upper bound before the first range, if any. *)
Fixpoint well_separated (prev : option Q) (th : Size.thresholds) : bool :=
  match th with
  | [] => true
  | (_, r) :: rest =>
      match Size.min_val r with
      | None => false
      | Some lo =>
          match prev with
          | Some p => Num.Qltb p lo
          | None => true
          end
          && match Size.max_val r with
             | Some hi => Qle_bool lo hi && well_separated (Some hi) rest
             | None => match rest with [] => true | _ :: _ => false end
             end
      end
  end.

(** All the threshold sets of a size taxonomy, metric by metric. *)
Definition threshold_sets (data : Size.size_data) : list Size.thresholds :=
  values (Size.general_thresholds data)
  ++ flat_map (fun i => values (snd i)) (Size.industry_specific_thresholds data).

(** No size label of the taxonomy has an upper-case letter. *)
Definition labels_lower (data : Size.size_data) : bool :=
  forallb (fun th => forallb (fun kv => negb (has_upper (fst kv))) th)
    (threshold_sets data).

(** A set of metric thresholds that [analyze_business_size] can select has
    thresholds for employees and revenue, and no empty label. *)
Definition primary_ready (ths : dict Size.thresholds) : bool :=
  mem "employees" ths && mem "revenue" ths
  && forallb (fun m => forallb (fun kv => Str.truthy (fst kv)) (snd m)) ths.

Definition size_data_ready (data : Size.size_data) : bool :=
  mem "employees" (Size.general_thresholds data)
  && mem "revenue" (Size.general_thresholds data)
  && mem "medium" (Size.size_characteristics data)
  && forallb (fun m => forallb (fun kv => Str.truthy (fst kv)) (snd m))
       (Size.general_thresholds data)
  && forallb (fun i => primary_ready (snd i)) (Size.industry_specific_thresholds data).


(** The corpus of [recognize_role]: the lowered job title, a space, and the
    lowered additional information when there is any. *)
Definition role_corpus (job_title : string) (additional_info : option string)
  : string :=
  (Str.lower job_title ++ " "
   ++ match additional_info with
      | Some info => if Str.truthy info then Str.lower info else ""
      | None => ""
      end)%string.

(** A sub-industry and its entry in the dictionary of sub-industry scores:
    the same key, and the occurrences of the sub-industry's keywords. *)
Definition sub_entry (text : string) (sub : string * Industry.sub_industry)
           (kv : string * Q) : Prop :=
  fst kv = fst sub
  /\ snd kv == Reference.keyword_hits text (Industry.sub_keywords (snd sub)).

(** An industry record after an update keeps what the record before it
    had: every field, the keyword list as a prefix of its keyword list, and
    every sub-industry. *)
Definition industry_kept (ex ex' : Json.document) : Prop :=
  (forall key, In key (keys ex) -> In key (keys ex'))
  /\ (forall old, get "keywords" ex = Some (Json.JList old) ->
        exists more, get "keywords" ex' = Some (Json.JList (old ++ more)))
  /\ (forall subs, get "sub_industries" ex = Some (Json.JDict subs) ->
        exists subs',
          get "sub_industries" ex' = Some (Json.JDict subs')
          /\ forall sid, In sid (keys subs) -> In sid (keys subs')).

(** The loops of the update operations assign to one key per supplied
    entry. [set_loop step] is the body of such a loop: the new value is
    computed from the key, the value the dictionary had for it, and the
    supplied value. *)
Definition set_loop {V W : Type} (step : string -> option V -> W -> py_result V)
           (cur : dict V) (kv : string * W) : py_result (dict V) :=
  v <- step (fst kv) (get (fst kv) cur) (snd kv) ;;
  Ok (set (fst kv) v cur).

(** The steps of the five loops. *)
Definition entry_step (key : string) (old : option Json.json) (value : Json.json)
  : py_result Json.json :=
  match old, value with
  | Some (Json.JDict o), Json.JDict n => Ok (Json.JDict (update o n))
  | _, _ => Ok value
  end.

Definition category_step (category : string) (old : option Json.json)
           (category_data : Json.json) : py_result Json.json :=
  match old with
  | Some existing => Json.merge_category existing category_data
  | None => Ok category_data
  end.

Definition sub_industry_step (sub_id : string) (old : option Json.json)
           (sub_info : Json.json) : py_result Json.json :=
  match old with
  | Some o =>
      old_fields <- Json.as_dict o ;;
      new_fields <- Json.as_dict sub_info ;;
      Ok (Json.JDict (update old_fields new_fields))
  | None => Ok sub_info
  end.

Definition field_step (key : string) (old : option Json.json) (value : Json.json)
  : py_result Json.json :=
  match old with
  | Some o =>
      if String.eqb key "sub_industries"
      then
        subs <- Json.as_dict o ;;
        new_subs <- Json.as_dict value ;;
        merged <- Json.merge_sub_industries subs new_subs ;;
        Ok (Json.JDict merged)
      else if String.eqb key "keywords"
      then
        old_keywords <- Json.as_list o ;;
        new_keywords <- Json.as_list value ;;
        Ok (Json.JList (Reference.merged_keywords old_keywords new_keywords))
      else Ok value
  | None => Ok value
  end.

Definition industry_step (industry_id : string) (old : option Json.json)
           (industry_info : Json.json) : py_result Json.json :=
  match old with
  | Some existing =>
      ex <- Json.as_dict existing ;;
      info <- Json.as_dict industry_info ;;
      merged <- Json.merge_industry ex info ;;
      Ok (Json.JDict merged)
  | None => Ok industry_info
  end.

End Aux.

(** ** business_context_adapter.py *)

Module Context.

Local Open Scope Q_scope.

(** The three components of a [BusinessContextAdapter], each with its
    data. *)
Record adapter : Type := {
  industry_classifier : Industry.industry_data;
  business_size_analyzer : Size.size_data;
  role_recognizer : Role.role_data
}.

(** The keys of [additional_info] that [analyze_business_context] reads;
    [None] for a key that the dictionary does not have. *)
Record additional_info : Type := {
  keywords : option (list string);
  role_info : option string;
  industry_metrics : option (dict Q)
}.

(** [additional_info.get(key, default) if additional_info else default] *)
Definition get_or {A : Type} (default : A) (key : additional_info -> option A)
           (info : option additional_info) : A :=
  match info with
  | Some i =>
      match key i with
      | Some v => v
      | None => default
      end
  | None => default
  end.

Record industry_context : Type := {
  id : string;
  name : string;
  confidence : Q;
  sub_industry : option Industry.confidence_entry
}.

Record size_context : Type := {
  category : string;
  size_confidence : Q;
  description : string;
  challenges : list string;
  opportunities : list string
}.

Record role_summary : Type := {
  role_id : string;
  role_name : string;
  role_confidence : Q
}.

Record role_context : Type := {
  organizational : role_summary;
  functional : role_summary;
  industry_specific : option Role.role_result;
  communication_strategy : Role.strategy
}.

(** [role_recognition["all_matches"]] *)
Record role_all_matches : Type := {
  organizational_roles : dict Role.role_match;
  functional_roles : dict Role.role_match;
  industry_specific_roles : option (dict Role.role_match)
}.

Record detailed : Type := {
  industry_matches : dict Industry.industry_match;
  size_metrics : dict Size.metric_analysis;
  role_matches : role_all_matches
}.

Record business_context : Type := {
  industry : industry_context;
  business_size : size_context;
  user_role : role_context;
  detailed_analysis : detailed
}.

Definition summary (r : Role.role_result) : role_summary :=
  {| role_id := Role.id r;
     role_name := Role.result_name r;
     role_confidence := Role.confidence r |}.

Definition analyze_business_context (self : adapter)
           (business_description job_title : string)
           (employees_count annual_revenue : option Q)
           (info : option additional_info) : py_result business_context :=
  let additional_keywords := get_or [] keywords info in
  let role_additional_info := get_or ""%string role_info info in
  let industry_specific_metrics := get_or [] industry_metrics info in
  industry_classification <-
    Industry.classify_industry (industry_classifier self) business_description
      (Some additional_keywords) ;;
  let industry_id := Industry.id (Industry.primary_industry industry_classification) in
  size_analysis <-
    Size.analyze_business_size (business_size_analyzer self) industry_id
      employees_count annual_revenue (Some industry_specific_metrics) ;;
  role_recognition <-
    Role.recognize_role (role_recognizer self) job_title
      (Some role_additional_info) (Some industry_id) ;;
  Ok {| industry :=
          {| id := Industry.id (Industry.primary_industry industry_classification);
             name := Industry.entry_name (Industry.primary_industry industry_classification);
             confidence :=
               Industry.confidence (Industry.primary_industry industry_classification);
             sub_industry :=
               if Str.truthy
                    (Industry.id (Industry.sub_industry_result industry_classification))
               then Some (Industry.sub_industry_result industry_classification)
               else None |};
        business_size :=
          {| category := Size.size_category size_analysis;
             size_confidence := Size.confidence size_analysis;
             description := Size.result_description size_analysis;
             challenges := Size.result_challenges size_analysis;
             opportunities := Size.result_opportunities size_analysis |};
        user_role :=
          {| organizational := summary (Role.organizational_role role_recognition);
             functional := summary (Role.functional_role role_recognition);
             industry_specific := Role.industry_specific_role role_recognition;
             communication_strategy := Role.communication_strategy role_recognition |};
        detailed_analysis :=
          {| industry_matches := Industry.all_matches industry_classification;
             size_metrics := Size.metrics_analysis size_analysis;
             role_matches :=
               {| organizational_roles :=
                    Role.all_organizational_roles role_recognition;
                  functional_roles := Role.all_functional_roles role_recognition;
                  industry_specific_roles :=
                    Role.all_industry_specific_roles role_recognition |} |} |}.

(** The adapter on the default data of its three components. *)
Definition default_adapter : adapter :=
  {| industry_classifier := default_industry_data;
     business_size_analyzer := default_size_data;
     role_recognizer := default_role_data |}.

End Context.

(** * Examples

    The models evaluated on the scenarios of the specification and of the
    repository's tests. *)

Example count_inside_longer_word : Regex.count "bank" "banking" = 0%nat.
Proof. reflexivity. Qed.

Example count_hyphenated : Regex.findall "e-commerce" "an e-commerce, e-commerce" = [3; 15]%nat.
Proof. reflexivity. Qed.

Example count_phrase :
  Regex.count "online store" "the online store, online store" = 2%nat.
Proof. reflexivity. Qed.

Example count_after_a_match : Regex.count "a a" "a a a a a" = 2%nat.
Proof. reflexivity. Qed.

Example count_upper_case_keyword : Regex.count "IT" (Str.lower "IT solutions") = 0%nat.
Proof. reflexivity. Qed.

Example lower_ascii : Str.lower "Chief Financial Officer_9" = "chief financial officer_9".
Proof. reflexivity. Qed.

Example retail_medium_scenario :
  exists r,
    Size.analyze_business_size default_size_data "retail" (Some 75%Q)
      (Some 8000000%Q) (Some [("locations", 5%Q)]) = Ok r
    /\ Size.size_category r = "medium"
    /\ (Size.confidence r == 100)%Q.
Proof. eexists. split; [vm_compute; reflexivity|]. split; reflexivity. Qed.

Example zero_metrics_scenario :
  exists r,
    Size.analyze_business_size default_size_data "retail" (Some 0%Q)
      (Some 0%Q) (Some [("locations", 0%Q)]) = Ok r
    /\ Size.size_category r = "medium"
    /\ (Size.confidence r == 60)%Q.
Proof. eexists. split; [vm_compute; reflexivity|]. split; reflexivity. Qed.

Example no_additional_metrics_scenario :
  Size.analyze_business_size default_size_data "retail" (Some 75%Q)
    (Some 8000000%Q) None = Raise (NameError "value").
Proof. reflexivity. Qed.

Example no_metrics_scenario :
  exists r,
    Size.analyze_business_size default_size_data "retail" None None None = Ok r
    /\ Size.size_category r = "medium"
    /\ (Size.confidence r == 0)%Q.
Proof. eexists. split; [vm_compute; reflexivity|]. split; reflexivity. Qed.

Example ceo_scenario :
  exists r,
    Role.recognize_role default_role_data "CEO"
      (Some "Responsible for overall company strategy and growth")
      (Some "technology") = Ok r
    /\ Role.id (Role.organizational_role r) = "executive"
    /\ Role.industry_specific_role r = None.
Proof. eexists. split; [vm_compute; reflexivity|]. split; reflexivity. Qed.

Example empty_title_scenario :
  exists r,
    Role.recognize_role default_role_data "" None None = Ok r
    /\ Role.id (Role.organizational_role r) = "manager"
    /\ Role.id (Role.functional_role r) = "technology"
    /\ (Role.confidence (Role.organizational_role r) == 0)%Q.
Proof. eexists. split; [vm_compute; reflexivity|]. repeat split. Qed.

(** * Properties *)

(** ** Keyword matching *)

Section RegexFacts.

Import Regex.

Lemma last_opt_snoc (p : list ascii) (c : ascii) : last_opt (p ++ [c]) = Some c.
Proof.
  unfold last_opt. destruct (p ++ [c]) eqn:E.
  - destruct p; discriminate.
  - rewrite <- E. now rewrite last_last.
Qed.

Lemma char_before_app (p t : list ascii) :
  char_before (p ++ t) (List.length p) = last_opt p.
Proof.
  destruct p as [|a p] using rev_ind; [reflexivity|].
  rewrite last_opt_snoc, length_app. cbn [List.length].
  replace (List.length p + 1)%nat with (S (List.length p)) by lia.
  cbn [char_before]. rewrite <- app_assoc.
  rewrite nth_error_app2 by lia. now rewrite Nat.sub_diag.
Qed.

Lemma is_prefix_firstn (k t : list ascii) :
  is_prefix k t = true -> firstn (List.length k) t = k.
Proof.
  revert t. induction k as [|a k IH]; intros [|b t] H; try reflexivity; try discriminate.
  cbn in H. apply andb_prop in H as [Hab Hk].
  apply Ascii.eqb_eq in Hab. subst b. cbn. now rewrite IH.
Qed.

Lemma hd_error_skipn {A : Type} (n : nat) (l : list A) :
  hd_error (skipn n l) = nth_error l n.
Proof.
  revert l. induction n as [|n IH]; intros [|x l]; try reflexivity. apply IH.
Qed.

(** Every offset that the scan reports is one where the pattern matches,
    the text read so far being [pre]. *)
Lemma scan_sound (k t pre : list ascii) (skip i : nat) :
  In i (scan k (last_opt pre) skip (List.length pre) t) ->
  exists t1 t2,
    t = t1 ++ t2 /\ i = (List.length pre + List.length t1)%nat
    /\ match_here (last_opt (pre ++ t1)) k t2 = true.
Proof.
  revert pre skip. induction t as [|c t IH]; intros pre skip Hin.
  - destruct skip; [|contradiction].
    cbn [scan] in Hin. destruct (match_here (last_opt pre) k []) eqn:M; [|contradiction].
    destruct Hin as [<-|[]]. exists [], []. rewrite !app_nil_r. cbn [List.length app].
    repeat split; [lia | exact M].
  - assert (Hrec : forall s, In i (scan k (Some c) s (S (List.length pre)) t) ->
              exists t1 t2, c :: t = t1 ++ t2
                /\ i = (List.length pre + List.length t1)%nat
                /\ match_here (last_opt (pre ++ t1)) k t2 = true).
    { intros s Hs.
      specialize (IH (pre ++ [c]) s).
      rewrite last_opt_snoc, length_app in IH. cbn [List.length] in IH.
      replace (List.length pre + 1)%nat with (S (List.length pre)) in IH by lia.
      destruct (IH Hs) as (t1 & t2 & -> & -> & M).
      exists (c :: t1), t2. rewrite <- app_assoc in M. cbn [List.length].
      repeat split; [lia | exact M]. }
    cbn [scan] in Hin. destruct skip as [|s]; [|now apply Hrec in Hin].
    destruct (match_here (last_opt pre) k (c :: t)) eqn:M.
    + destruct Hin as [<-|Hin]; [|now apply Hrec in Hin].
      exists [], (c :: t). rewrite !app_nil_r. cbn [List.length app].
      repeat split; [lia | exact M].
    + now apply Hrec in Hin.
Qed.

(** A match is an occurrence of the keyword that does not continue a word
    on either side. *)
Lemma match_here_whole_word (p k t2 : list ascii) :
  match_here (last_opt p) k t2 = true ->
  let t := p ++ t2 in
  let i := List.length p in
  firstn (List.length k) (skipn i t) = k
  /\ (is_word (hd_error k) = true -> is_word (char_before t i) = false)
  /\ (is_word (last_opt k) = true ->
      is_word (nth_error t (i + List.length k)) = false).
Proof.
  intros M t i. unfold match_here in M.
  apply andb_prop in M as [M Hend]. apply andb_prop in M as [Hstart Hpre].
  assert (Hskip : skipn i t = t2).
  { unfold t, i. rewrite skipn_app, Nat.sub_diag, skipn_all. reflexivity. }
  repeat split.
  - rewrite Hskip. now apply is_prefix_firstn.
  - intros Hk. unfold t, i. rewrite char_before_app.
    destruct k as [|a k]; [discriminate|].
    destruct t2 as [|b t2]; [discriminate|].
    cbn in Hpre. apply andb_prop in Hpre as [Hab _].
    apply Ascii.eqb_eq in Hab. subst b.
    unfold word_boundary in Hstart. cbn [hd_error] in Hstart, Hk.
    rewrite Hk in Hstart. now destruct (is_word (last_opt p)).
  - intros Hk. destruct k as [|a k]; [discriminate|].
    rewrite hd_error_skipn in Hend. unfold t, i.
    rewrite nth_error_app2 by lia.
    replace (List.length p + List.length (a :: k) - List.length p)%nat
      with (List.length (a :: k)) by lia.
    unfold word_boundary, last_before in Hend. unfold last_opt in Hk.
    rewrite Hk in Hend.
    now destruct (is_word (nth_error t2 (List.length (a :: k)))).
Qed.

End RegexFacts.

Lemma findall_whole_word (keyword text : string) (i : nat) :
  In i (Regex.findall keyword text) ->
  let k := list_ascii_of_string keyword in
  let t := list_ascii_of_string text in
  firstn (List.length k) (skipn i t) = k
  /\ (Regex.is_word (hd_error k) = true ->
      Regex.is_word (Regex.char_before t i) = false)
  /\ (Regex.is_word (Regex.last_opt k) = true ->
      Regex.is_word (nth_error t (i + List.length k)) = false).
Proof.
  intros Hin k t. unfold Regex.findall in Hin.
  apply (scan_sound _ _ []) in Hin as (t1 & t2 & Ht & Hi & M).
  cbn in Hi, M. fold k in M. fold t in Ht. subst i. rewrite Ht.
  now apply match_here_whole_word.
Qed.

(** ** Numbers *)

Section NumFacts.

Local Open Scope Q_scope.

Lemma Qltb_lt (x y : Q) : Num.Qltb x y = true <-> x < y.
Proof.
  unfold Num.Qltb. rewrite negb_true_iff. split; intros H.
  - apply Qnot_le_lt. intros Hle. apply Qle_bool_iff in Hle. congruence.
  - destruct (Qle_bool y x) eqn:E; [|reflexivity].
    apply Qle_bool_iff in E. exfalso. now apply (Qlt_not_le x y).
Qed.

Lemma Qltb_ge (x y : Q) : Num.Qltb x y = false <-> y <= x.
Proof.
  unfold Num.Qltb. rewrite negb_false_iff. apply Qle_bool_iff.
Qed.

Lemma of_nat_nonneg (n : nat) : 0 <= Num.of_nat n.
Proof.
  unfold Num.of_nat. change 0 with (inject_Z 0). rewrite <- Zle_Qle. lia.
Qed.

Lemma of_nat_lt (a b : nat) : Num.of_nat a < Num.of_nat b <-> (a < b)%nat.
Proof. unfold Num.of_nat. rewrite <- Zlt_Qlt. lia. Qed.

Lemma of_nat_le (a b : nat) : Num.of_nat a <= Num.of_nat b <-> (a <= b)%nat.
Proof. unfold Num.of_nat. rewrite <- Zle_Qle. lia. Qed.

Lemma of_nat_S (n : nat) : Num.of_nat (S n) == Num.of_nat n + 1.
Proof.
  unfold Num.of_nat. rewrite Nat2Z.inj_succ. unfold Z.succ.
  rewrite inject_Z_plus. reflexivity.
Qed.

Lemma fold_plus_acc (l : list Q) (a : Q) : fold_left Qplus l a == a + Num.sum l.
Proof.
  unfold Num.sum. revert a. induction l as [|x l IH]; intros a; cbn.
  - ring.
  - rewrite (IH (a + x)), (IH (0 + x)). ring.
Qed.

Lemma sum_cons (x : Q) (l : list Q) : Num.sum (x :: l) == x + Num.sum l.
Proof. unfold Num.sum at 1. cbn. rewrite fold_plus_acc. ring. Qed.

Lemma sum_app (l1 l2 : list Q) : Num.sum (l1 ++ l2) == Num.sum l1 + Num.sum l2.
Proof.
  induction l1 as [|x l1 IH]; cbn [app].
  - unfold Num.sum at 2. cbn. ring.
  - rewrite !sum_cons, IH. ring.
Qed.

Lemma sum_nonneg (l : list Q) : Forall (fun x => 0 <= x) l -> 0 <= Num.sum l.
Proof.
  induction 1 as [|x l Hx _ IH].
  - unfold Num.sum. cbn. lra.
  - rewrite sum_cons. lra.
Qed.

Lemma sum_ge_member (l : list Q) (x : Q) :
  Forall (fun y => 0 <= y) l -> In x l -> x <= Num.sum l.
Proof.
  induction 1 as [|y l Hy Hl IH]; intros Hin; [contradiction|].
  rewrite sum_cons. pose proof (sum_nonneg l Hl).
  destruct Hin as [->|Hin]; [lra|]. specialize (IH Hin). lra.
Qed.

Lemma any_false (l : list Q) : Num.any l = false <-> Forall (fun x => x == 0) l.
Proof.
  unfold Num.any. induction l as [|x l IH]; cbn.
  - split; [constructor | reflexivity].
  - rewrite orb_false_iff, negb_false_iff, Qeq_bool_iff, IH.
    split; [intros [? ?]; now constructor | now inversion 1].
Qed.

Lemma any_true (l : list Q) :
  Num.any l = true <-> exists x, In x l /\ ~ x == 0.
Proof.
  unfold Num.any. rewrite existsb_exists. split; intros (x & Hin & Hx); exists x; split; auto.
  - rewrite negb_true_iff in Hx. intros E. apply Qeq_bool_iff in E. congruence.
  - rewrite negb_true_iff. destruct (Qeq_bool x 0) eqn:E; [|reflexivity].
    apply Qeq_bool_iff in E. contradiction.
Qed.

Lemma sum_zero (l : list Q) : Forall (fun x => x == 0) l -> Num.sum l == 0.
Proof.
  induction 1 as [|x l Hx _ IH].
  - reflexivity.
  - rewrite sum_cons, Hx, IH. ring.
Qed.

(** For numbers that are not negative, [any] tells whether the sum is
    positive. *)
Lemma any_true_sum_pos (l : list Q) :
  Forall (fun x => 0 <= x) l -> (Num.any l = true <-> 0 < Num.sum l).
Proof.
  intros Hl. split.
  - intros (x & Hin & Hx)%any_true.
    pose proof (sum_ge_member l x Hl Hin).
    rewrite Forall_forall in Hl. specialize (Hl x Hin).
    destruct (Qlt_le_dec 0 x); [lra|]. exfalso. apply Hx. lra.
  - intros Hpos. destruct (Num.any l) eqn:E; [reflexivity|].
    apply any_false, sum_zero in E. lra.
Qed.

Lemma round_half_even_ge (x : Q) (n : Z) :
  inject_Z n <= x -> (n <= Num.round_half_even x)%Z.
Proof.
  intros H. unfold Num.round_half_even.
  assert (Hf : (n <= Qfloor x)%Z).
  { rewrite <- (Qfloor_Z n). now apply Qfloor_resp_le. }
  destruct (Qcompare _ _); [destruct (Z.even _)| |]; lia.
Qed.

Lemma round_half_even_le (x : Q) (n : Z) :
  x <= inject_Z n -> (Num.round_half_even x <= n)%Z.
Proof.
  intros H. unfold Num.round_half_even.
  pose proof (Qfloor_le x) as Hfl.
  assert (Hf : (Qfloor x <= n)%Z).
  { rewrite Zle_Qle. now apply Qle_trans with x. }
  destruct (Z.eq_dec (Qfloor x) n) as [E|NE].
  - assert (Hx : x - inject_Z (Qfloor x) == 0).
    { rewrite E in *. apply Qle_antisym.
      - now apply (Qplus_le_l _ _ (inject_Z n)); ring_simplify.
      - now apply (Qplus_le_l _ _ (inject_Z n)); ring_simplify. }
    rewrite Hx. cbn. lia.
  - destruct (Qcompare _ _); [destruct (Z.even _)| |]; lia.
Qed.

(** *** Doubles *)

Lemma two_pos (e : Z) : 0 < 2 ^ e.
Proof. apply Qpower_0_lt. reflexivity. Qed.

Lemma two_plus (a b : Z) : 2 ^ (a + b) == 2 ^ a * 2 ^ b.
Proof. apply Qpower_plus. discriminate. Qed.

Lemma two_inject (a : Z) : (0 <= a)%Z -> inject_Z (2 ^ a) == 2 ^ a.
Proof. intros H. rewrite (Zpower_Qpower 2 a H). reflexivity. Qed.

Lemma two_le (a b : Z) : (a <= b)%Z -> 2 ^ a <= 2 ^ b.
Proof. intros H. apply Qpower_le_compat_l; [exact H | discriminate]. Qed.

(** [exponent] is the floor of the binary logarithm. *)
Lemma exponent_spec (y : Q) :
  0 < y -> 2 ^ Num.exponent y <= y /\ y < 2 ^ (Num.exponent y + 1).
Proof.
  intros Hy. unfold Num.exponent.
  set (a := Z.log2 (Qnum y)). set (b := Z.log2 (Zpos (Qden y))).
  assert (Hn : (0 < Qnum y)%Z).
  { destruct y as [n d]. unfold Qlt in Hy. cbn in *. lia. }
  destruct (Z.log2_spec _ Hn) as [Ha1 Ha2]. fold a in Ha1, Ha2.
  destruct (Z.log2_spec (Zpos (Qden y)) eq_refl) as [Hb1 Hb2]. fold b in Hb1, Hb2.
  pose proof (Z.log2_nonneg (Qnum y)) as Ha0. fold a in Ha0.
  pose proof (Z.log2_nonneg (Zpos (Qden y))) as Hb0. fold b in Hb0.
  rewrite Zle_Qle in Ha1, Hb1. rewrite Zlt_Qlt in Ha2, Hb2.
  rewrite two_inject in Ha1, Hb1 by lia.
  rewrite two_inject in Ha2, Hb2 by lia.
  assert (Hyd : y * inject_Z (Zpos (Qden y)) == inject_Z (Qnum y)).
  { destruct y as [n d]. cbn [Qnum Qden]. rewrite (Qmake_Qdiv n d). field.
    discriminate. }
  set (D := inject_Z (Zpos (Qden y))) in *. set (N := inject_Z (Qnum y)) in *.
  assert (HD : 0 < D) by reflexivity.
  pose proof (two_pos b) as Pb.
  assert (E1 : 2 ^ (a - b) * 2 ^ b == 2 ^ a).
  { rewrite <- two_plus. now replace (a - b + b)%Z with a by lia. }
  assert (E2 : 2 ^ (a - b - 1) * 2 ^ Z.succ b == 2 ^ a).
  { rewrite <- two_plus. now replace (a - b - 1 + Z.succ b)%Z with a by lia. }
  assert (E3 : 2 ^ (a - b + 1) * 2 ^ b == 2 ^ Z.succ a).
  { rewrite <- two_plus. now replace (a - b + 1 + b)%Z with (Z.succ a) by lia. }
  destruct (Num.Qltb y (2 ^ (a - b))) eqn:E.
  - apply Qltb_lt in E. replace (a - b - 1 + 1)%Z with (a - b)%Z by lia.
    split; [|exact E].
    destruct (Qlt_le_dec y (2 ^ (a - b - 1))) as [Hlt|Hge]; [|exact Hge].
    exfalso.
    assert (y * D < 2 ^ (a - b - 1) * 2 ^ Z.succ b).
    { apply Qle_lt_trans with (y * 2 ^ Z.succ b).
      - apply Qmult_le_l; [exact Hy | lra].
      - apply Qmult_lt_r; [apply two_pos | exact Hlt]. }
    lra.
  - apply Qltb_ge in E. split; [exact E|].
    destruct (Qlt_le_dec y (2 ^ (a - b + 1))) as [Hlt|Hge]; [exact Hlt|].
    exfalso.
    assert (2 ^ (a - b + 1) * 2 ^ b <= y * D).
    { apply Qle_trans with (y * 2 ^ b).
      - apply Qmult_le_r; [exact Pb | exact Hge].
      - apply Qmult_le_l; [exact Hy | exact Hb1]. }
    lra.
Qed.

Lemma nearest_nonneg (y : Q) : 0 < y -> 0 <= Num.nearest y.
Proof.
  intros Hy. unfold Num.nearest.
  set (e := Z.max _ _). pose proof (two_pos e) as Pe.
  assert (H : (0 <= Num.round_half_even (y / 2 ^ e))%Z).
  { apply round_half_even_ge. change (inject_Z 0) with 0.
    apply Qle_shift_div_l; [exact Pe | lra]. }
  rewrite Zle_Qle in H. change (inject_Z 0) with 0 in H.
  apply Qmult_le_0_compat; lra.
Qed.

(** Rounding does not pass a double: a number that is at most the double
    [M * 2 ^ E] rounds to at most that double. *)
Lemma nearest_le (y : Q) (M E : Z) :
  0 < y -> (2 ^ 52 <= M < 2 ^ 53)%Z -> (-1074 <= E)%Z ->
  y <= inject_Z M * 2 ^ E -> Num.nearest y <= inject_Z M * 2 ^ E.
Proof.
  intros Hy [HM1 HM2] HE Hle. unfold Num.nearest.
  destruct (exponent_spec y Hy) as [X1 X2].
  set (ex := Num.exponent y) in *. set (e := Z.max (ex - 52) (-1074)).
  pose proof (two_pos e) as Pe. pose proof (two_pos E) as PE.
  rewrite Zle_Qle in HM1. rewrite Zlt_Qlt in HM2.
  rewrite two_inject in HM1, HM2 by lia.
  assert (He : (e <= E)%Z).
  { assert (H : 2 ^ ex < 2 ^ (53 + E)).
    { rewrite two_plus. apply Qle_lt_trans with (inject_Z M * 2 ^ E); [lra|].
      apply Qmult_lt_r; [exact PE | exact HM2]. }
    apply Qpower_lt_compat_l_inv in H; [|reflexivity]. unfold e. lia. }
  assert (Hq : y / 2 ^ e <= 2 ^ 53).
  { apply Qle_shift_div_r; [exact Pe|].
    rewrite <- two_plus. apply Qle_trans with (2 ^ (ex + 1)); [lra|].
    apply two_le. unfold e. lia. }
  assert (Hm : (Num.round_half_even (y / 2 ^ e) <= 2 ^ 53)%Z).
  { apply round_half_even_le. now rewrite two_inject by lia. }
  destruct (Z.eq_dec e E) as [Eq|Ne].
  - rewrite Eq in *. apply Qmult_le_r; [exact PE|].
    rewrite <- Zle_Qle. apply round_half_even_le.
    apply Qle_shift_div_r; [exact PE | exact Hle].
  - rewrite Zle_Qle in Hm. rewrite two_inject in Hm by lia.
    apply Qle_trans with (2 ^ 53 * 2 ^ e).
    + apply Qmult_le_r; [exact Pe | exact Hm].
    + rewrite <- two_plus. apply Qle_trans with (2 ^ (52 + E)).
      * apply two_le. lia.
      * rewrite two_plus. apply Qmult_le_r; [exact PE | exact HM1].
Qed.

(** Equal numbers round to the same double. *)
Lemma to_double_comp (x y : Q) : x == y -> Num.to_double x = Num.to_double y.
Proof.
  intros H. unfold Num.to_double.
  assert (Hc : Qcompare x 0 = Qcompare y 0) by now rewrite H.
  rewrite Hc, (Qred_complete x y H).
  assert (H' : - x == - y) by now rewrite H.
  now rewrite (Qred_complete _ _ H').
Qed.

Lemma to_double_nonneg (x : Q) : 0 <= x -> 0 <= Num.to_double x.
Proof.
  intros Hx. unfold Num.to_double. destruct (Qcompare x 0) eqn:E.
  - lra.
  - apply Qlt_alt in E. lra.
  - apply Qgt_alt in E. apply nearest_nonneg. now rewrite Qred_correct.
Qed.

Lemma to_double_le (x : Q) (M E : Z) :
  (2 ^ 52 <= M < 2 ^ 53)%Z -> (-1074 <= E)%Z ->
  x <= inject_Z M * 2 ^ E -> Num.to_double x <= inject_Z M * 2 ^ E.
Proof.
  intros HM HE Hle. unfold Num.to_double.
  assert (HB : 0 <= inject_Z M * 2 ^ E).
  { pose proof (two_pos E). apply Qmult_le_0_compat; [|lra].
    change 0 with (inject_Z 0). rewrite <- Zle_Qle. lia. }
  destruct (Qcompare x 0) eqn:Ec.
  - exact HB.
  - apply Qlt_alt in Ec.
    assert (H : 0 <= Num.nearest (Qred (- x))).
    { apply nearest_nonneg. rewrite Qred_correct. lra. }
    lra.
  - apply Qgt_alt in Ec. apply nearest_le; try assumption.
    + now rewrite Qred_correct.
    + now rewrite Qred_correct.
Qed.

Lemma to_double_le_1 (x : Q) : x <= 1 -> Num.to_double x <= 1.
Proof.
  intros H.
  assert (E : 1 == inject_Z (2 ^ 52) * 2 ^ (-52)) by reflexivity.
  rewrite E. apply to_double_le; [lia | lia | now rewrite <- E].
Qed.

Lemma to_double_le_100 (x : Q) : x <= 100 -> Num.to_double x <= 100.
Proof.
  intros H.
  assert (E : 100 == inject_Z (100 * 2 ^ 46) * 2 ^ (-46)) by reflexivity.
  rewrite E. apply to_double_le; [lia | lia | now rewrite <- E].
Qed.

Lemma percentage_bounds (x total : Q) :
  0 <= x -> x <= total -> 0 <= Num.percentage x total <= 100.
Proof.
  intros H0 Hle. unfold Num.percentage.
  destruct (Num.Qltb 0 total) eqn:E; [|lra].
  apply Qltb_lt in E.
  assert (H1 : 0 <= x / total) by (apply Qle_shift_div_l; lra).
  assert (H2 : x / total <= 1) by (apply Qle_shift_div_r; lra).
  pose proof (to_double_nonneg _ H1) as D1. pose proof (to_double_le_1 _ H2) as D2.
  split; [apply to_double_nonneg | apply to_double_le_100]; lra.
Qed.

(** The whole is 100 percent. *)
Lemma percentage_all (x y : Q) : 0 < y -> x == y -> Num.percentage x y == 100.
Proof.
  intros Hy Hxy. unfold Num.percentage. rewrite (proj2 (Qltb_lt 0 y) Hy).
  assert (E : x / y == 1) by (rewrite Hxy; field; lra).
  rewrite (to_double_comp _ _ E).
  assert (E1 : Num.to_double 1 * 100 == 100) by (vm_compute; reflexivity).
  rewrite (to_double_comp _ _ E1). vm_compute. reflexivity.
Qed.

Lemma round2_bounds (x : Q) : 0 <= x <= 100 -> 0 <= Num.round2 x <= 100.
Proof.
  intros [H0 H1]. unfold Num.round2.
  assert (Hlo : (0 <= Num.round_half_even (x * 100))%Z).
  { apply round_half_even_ge. change (inject_Z 0) with 0. lra. }
  assert (Hhi : (Num.round_half_even (x * 100) <= 10000)%Z).
  { apply round_half_even_le. change (inject_Z 10000) with 10000. lra. }
  rewrite Zle_Qle in Hlo, Hhi. change (inject_Z 0) with 0 in Hlo.
  change (inject_Z 10000) with 10000 in Hhi.
  split; [apply to_double_nonneg, Qle_shift_div_l
         | apply to_double_le_100, Qle_shift_div_r]; lra.
Qed.

Lemma round2_zero : Num.round2 0 == 0.
Proof. reflexivity. Qed.

(** [max_from] returns the first of the greatest. *)
Lemma max_from_spec (f : string -> Q) (ks : list string) (best : string) :
  exists k1 k2,
    best :: ks = k1 ++ Num.max_from f best ks :: k2
    /\ (forall s, In s k1 -> f s < f (Num.max_from f best ks))
    /\ (forall s, In s k2 -> f s <= f (Num.max_from f best ks)).
Proof.
  revert best. induction ks as [|k ks IH]; intros best.
  - exists [], []. cbn. repeat split; intros s [].
  - cbn [Num.max_from]. destruct (Num.Qltb (f best) (f k)) eqn:E.
    + apply Qltb_lt in E.
      destruct (IH k) as (k1 & k2 & Heq & Hlt & Hle).
      set (w := Num.max_from f k ks) in *.
      assert (Hk : f k <= f w).
      { destruct k1 as [|a k1]; cbn in Heq; injection Heq as Hkw Hrest.
        - rewrite Hkw. apply Qle_refl.
        - apply Qlt_le_weak, Hlt. left. now symmetry. }
      exists (best :: k1), k2. rewrite Heq. repeat split; auto.
      intros s [<-|Hs]; [lra | auto].
    + apply Qltb_ge in E.
      destruct (IH best) as (k1 & k2 & Heq & Hlt & Hle).
      set (w := Num.max_from f best ks) in *.
      destruct k1 as [|a k1]; cbn in Heq; injection Heq as Hb Hrest.
      * exists [], (k :: ks). split; [cbn; now rewrite Hb|]. split.
        -- intros s [].
        -- intros s [<-|Hs]; [now rewrite <- Hb|]. apply Hle. rewrite <- Hrest. exact Hs.
      * exists (best :: k :: k1), k2. rewrite Hrest. repeat split; auto.
        intros s [<-|[<-|Hs]].
        -- apply Hlt. left. now symmetry.
        -- assert (f best < f w) by (apply Hlt; left; now symmetry). lra.
        -- apply Hlt. now right.
Qed.

Lemma max_key_spec (d : dict Q) :
  d <> [] ->
  exists w k1 k2,
    Num.max_key d = Ok w
    /\ keys d = k1 ++ w :: k2
    /\ (forall s, In s k1 -> Num.value_of d s < Num.value_of d w)
    /\ (forall s, In s k2 -> Num.value_of d s <= Num.value_of d w).
Proof.
  intros Hd. unfold Num.max_key. destruct d as [|[k v] d]; [congruence|].
  cbn [keys map fst].
  destruct (max_from_spec (Num.value_of ((k, v) :: d)) (keys d) k)
    as (k1 & k2 & Heq & Hlt & Hle).
  eexists _, k1, k2. split; [reflexivity|]. auto.
Qed.

End NumFacts.

(** ** Dictionaries *)

Section DictFacts.

Context {V : Type}.
Implicit Types (d : dict V) (k : string) (v : V).

Lemma get_In d k v : get k d = Some v -> In (k, v) d.
Proof.
  induction d as [|[k' v'] d IH]; cbn; [discriminate|].
  destruct (String.eqb_spec k k') as [->|_].
  - intros [= ->]. now left.
  - intros H. right. now apply IH.
Qed.

Lemma get_keys d k v : get k d = Some v -> In k (keys d).
Proof. intros H%get_In. apply (in_map fst) in H. exact H. Qed.

Lemma keys_get d k : In k (keys d) -> exists v, get k d = Some v.
Proof.
  induction d as [|[k' v'] d IH]; cbn; [contradiction|].
  destruct (String.eqb_spec k k') as [->|Hne].
  - intros _. now exists v'.
  - intros [E|Hin]; [congruence | now apply IH].
Qed.

Lemma get_None d k : get k d = None <-> ~ In k (keys d).
Proof.
  split.
  - intros H Hin. apply keys_get in Hin as [v Hv]. congruence.
  - intros H. destruct (get k d) eqn:E; [|reflexivity].
    apply get_keys in E. contradiction.
Qed.

Lemma mem_keys d k : mem k d = true <-> In k (keys d).
Proof.
  unfold mem. split.
  - destruct (get k d) eqn:E; [|discriminate]. intros _. now apply get_keys in E.
  - intros [v ->]%keys_get. reflexivity.
Qed.

Lemma lookup_Ok d k v : lookup k d = Ok v <-> get k d = Some v.
Proof.
  unfold lookup. destruct (get k d); split; congruence.
Qed.

Lemma lookup_keys d k : In k (keys d) -> exists v, lookup k d = Ok v /\ get k d = Some v.
Proof.
  intros [v Hv]%keys_get. exists v. split; [now apply lookup_Ok | exact Hv].
Qed.

Lemma NoDup_get d k v : NoDup (keys d) -> In (k, v) d -> get k d = Some v.
Proof.
  induction d as [|[k' v'] d IH]; cbn; [contradiction|].
  intros Hnd Hin. inversion Hnd as [|? ? Hk' Hd]; subst.
  destruct (String.eqb_spec k k') as [->|Hne].
  - destruct Hin as [[= ->]|Hin]; [reflexivity|].
    apply (in_map fst) in Hin. contradiction.
  - destruct Hin as [[= -> _]|Hin]; [congruence | now apply IH].
Qed.

Lemma set_fresh d k v : ~ In k (keys d) -> set k v d = d ++ [(k, v)].
Proof.
  induction d as [|[k' v'] d IH]; cbn; [reflexivity|].
  intros H. destruct (String.eqb_spec k k') as [->|_].
  - exfalso. apply H. now left.
  - rewrite IH; [reflexivity|]. intros Hin. apply H. now right.
Qed.

Lemma keys_set_mem d k v : In k (keys d) -> keys (set k v d) = keys d.
Proof.
  induction d as [|[k' v'] d IH]; cbn; [contradiction|].
  destruct (String.eqb_spec k k') as [->|Hne]; [reflexivity|].
  intros [E|Hin]; [congruence|]. cbn. f_equal. now apply IH.
Qed.

Lemma keys_set d k v :
  keys (set k v d) = if mem k d then keys d else keys d ++ [k].
Proof.
  destruct (mem k d) eqn:E.
  - apply keys_set_mem. now apply mem_keys.
  - rewrite set_fresh.
    + unfold keys. now rewrite map_app.
    + intros Hin%mem_keys. congruence.
Qed.

Lemma In_keys_set d k v k' : In k' (keys (set k v d)) <-> k' = k \/ In k' (keys d).
Proof.
  rewrite keys_set. destruct (mem k d) eqn:E.
  - apply mem_keys in E. split; [auto|]. intros [->|H]; auto.
  - rewrite in_app_iff. cbn. intuition.
Qed.

Lemma get_set_same d k v : get k (set k v d) = Some v.
Proof.
  induction d as [|[k' v'] d IH]; cbn.
  - now rewrite String.eqb_refl.
  - destruct (String.eqb_spec k k') as [->|Hne]; cbn.
    + now rewrite String.eqb_refl.
    + destruct (String.eqb_spec k k'); [contradiction | exact IH].
Qed.

Lemma get_set_other d k v k' : k' <> k -> get k' (set k v d) = get k' d.
Proof.
  intros Hne. induction d as [|[k0 v0] d IH]; cbn.
  - destruct (String.eqb_spec k' k); [contradiction | reflexivity].
  - destruct (String.eqb_spec k k0) as [->|Hk]; cbn.
    + destruct (String.eqb_spec k' k0); [contradiction | reflexivity].
    + now rewrite IH.
Qed.

Lemma NoDup_keys_set d k v : NoDup (keys d) -> NoDup (keys (set k v d)).
Proof.
  intros Hnd. rewrite keys_set. destruct (mem k d) eqn:E; [exact Hnd|].
  apply NoDup_app; [exact Hnd | repeat constructor; intros [] |].
  intros x Hx [<-|[]]. apply mem_keys in Hx. congruence.
Qed.

Lemma set_set d k v v' : set k v (set k v' d) = set k v d.
Proof.
  induction d as [|[k0 v0] d IH]; cbn.
  - now rewrite String.eqb_refl.
  - destruct (String.eqb_spec k k0) as [->|Hne]; cbn.
    + now rewrite String.eqb_refl.
    + destruct (String.eqb_spec k k0); [contradiction|]. now rewrite IH.
Qed.

Lemma set_same d k v : get k d = Some v -> set k v d = d.
Proof.
  induction d as [|[k0 v0] d IH]; cbn; [discriminate|].
  destruct (String.eqb_spec k k0) as [->|Hne].
  - now intros [= ->].
  - intros H. now rewrite IH.
Qed.

Lemma In_values d v : In v (values d) <-> exists k, In (k, v) d.
Proof.
  unfold values. rewrite in_map_iff. split.
  - intros ([k v'] & <- & Hin). now exists k.
  - intros (k & Hin). now exists (k, v).
Qed.

End DictFacts.

(** ** Size categories *)

Section SizeFacts.

Local Open Scope Q_scope.

(** On threshold sets whose ranges all have a bound, [_categorize_metric]
    selects the first range that contains the value. *)
Lemma categorize_bounded (v : Q) (th : Size.thresholds) :
  Forall (fun kv => Reference.bounded (snd kv)) th ->
  Size._categorize_metric v th = Reference.first_containing v th.
Proof.
  induction 1 as [|[label r] th Hb _ IH]; [reflexivity|].
  cbn [Size._categorize_metric Reference.first_containing].
  rewrite IH. unfold Reference.contains. destruct r as [[lo|] [hi|]]; cbn.
  - reflexivity.
  - now rewrite andb_true_r.
  - reflexivity.
  - destruct Hb as [Hb|Hb]; now contradiction Hb.
Qed.

Lemma has_bound_bounded (r : Size.range_info) :
  Reference.has_bound r = true <-> Reference.bounded r.
Proof.
  unfold Reference.has_bound, Reference.bounded.
  destruct (Size.min_val r), (Size.max_val r); split; intros H;
    try reflexivity; try discriminate; try (left; discriminate);
    try (right; discriminate).
  destruct H as [H|H]; now contradiction H.
Qed.

(** Every range of the default data has a bound. *)
Lemma default_ranges_bounded :
  Forall Reference.bounded (Reference.ranges_of default_size_data).
Proof.
  apply Forall_forall. intros r Hr. apply has_bound_bounded.
  assert (H : forallb Reference.has_bound (Reference.ranges_of default_size_data) = true)
    by reflexivity.
  rewrite forallb_forall in H. now apply H.
Qed.

Lemma count_sizes_snoc (l : list string) (s : string) :
  Size.count_sizes (l ++ [s]) =
  set s (match get s (Size.count_sizes l) with Some n => n | None => 0 end + 1)
      (Size.count_sizes l).
Proof. unfold Size.count_sizes. now rewrite fold_left_app. Qed.

Lemma votes_snoc (l : list string) (s x : string) :
  Reference.votes s (l ++ [x]) =
  (Reference.votes s l + if string_dec x s then 1 else 0)%nat.
Proof.
  unfold Reference.votes. rewrite count_occ_app. cbn.
  now destruct (string_dec x s).
Qed.

Lemma count_sizes_value (l : list string) (s : string) :
  Num.value_of (Size.count_sizes l) s == Num.of_nat (Reference.votes s l).
Proof.
  induction l as [|x l IH] using rev_ind; [reflexivity|].
  rewrite count_sizes_snoc, votes_snoc. unfold Num.value_of in *.
  destruct (string_dec x s) as [->|Hne].
  - rewrite get_set_same, IH, Nat.add_1_r, of_nat_S. reflexivity.
  - rewrite get_set_other by congruence. now rewrite IH, Nat.add_0_r.
Qed.

Lemma count_sizes_keys (l : list string) (s : string) :
  In s (keys (Size.count_sizes l)) <-> In s l.
Proof.
  induction l as [|x l IH] using rev_ind; [reflexivity|].
  rewrite count_sizes_snoc, In_keys_set, in_app_iff, IH. cbn. intuition.
Qed.

(** The keys of [size_counts] come in the order in which the labels first
    appear. *)
Lemma count_sizes_order (l : list string) (k1 k2 : list string) (w : string) :
  keys (Size.count_sizes l) = k1 ++ w :: k2 ->
  exists l1 l2, l = l1 ++ w :: l2 /\ forall s, In s l1 -> In s k1.
Proof.
  revert k1 k2. induction l as [|x l IH] using rev_ind; intros k1 k2 Hk.
  - destruct k1; discriminate.
  - rewrite count_sizes_snoc, keys_set in Hk.
    destruct (mem x (Size.count_sizes l)) eqn:E.
    + destruct (IH _ _ Hk) as (l1 & l2 & -> & Hl1).
      exists l1, (l2 ++ [x]). now rewrite <- app_assoc.
    + destruct k2 as [|y k2] using rev_ind.
      * apply app_inj_tail in Hk as [Hk <-].
        exists l, []. split; [reflexivity|].
        intros s Hs. rewrite <- Hk. now apply count_sizes_keys.
      * clear IHk2. rewrite app_comm_cons, app_assoc in Hk.
        apply app_inj_tail in Hk as [Hk _].
        destruct (IH _ _ Hk) as (l1 & l2 & -> & Hl1).
        exists l1, (l2 ++ [x]). now rewrite <- app_assoc.
Qed.

Lemma votes_zero (l : list string) (s : string) :
  ~ In s l -> Reference.votes s l = 0%nat.
Proof. intros H. now apply count_occ_not_In. Qed.

(** [max(size_counts, key=size_counts.get)] is the majority label. *)
Lemma vote_majority (l : list string) :
  l <> [] ->
  exists w, Num.max_key (Size.count_sizes l) = Ok w /\ Reference.majority_label l w.
Proof.
  intros Hl.
  assert (Hd : Size.count_sizes l <> []).
  { destruct l as [|x l]; [congruence|].
    intros E. assert (Hin : In x (keys (Size.count_sizes (x :: l)))).
    { apply count_sizes_keys. now left. }
    rewrite E in Hin. contradiction. }
  destruct (max_key_spec _ Hd) as (w & k1 & k2 & Hmax & Hk & Hlt & Hle).
  exists w. split; [exact Hmax|].
  destruct (count_sizes_order _ _ _ _ Hk) as (l1 & l2 & Hsplit & Hl1).
  split.
  - intros s. destruct (in_dec string_dec s l) as [Hin|Hnin].
    + apply count_sizes_keys in Hin. rewrite Hk in Hin.
      apply in_app_or in Hin as [Hin|[<-|Hin]].
      * apply Hlt in Hin. rewrite !count_sizes_value in Hin.
        apply of_nat_lt in Hin. lia.
      * lia.
      * apply Hle in Hin. rewrite !count_sizes_value in Hin.
        now apply of_nat_le in Hin.
    + rewrite (votes_zero l s Hnin). lia.
  - exists l1, l2. split; [exact Hsplit|].
    intros s Hs. apply Hl1, Hlt in Hs. rewrite !count_sizes_value in Hs.
    now apply of_nat_lt in Hs.
Qed.

Lemma majority_label_unique (l : list string) (w w' : string) :
  Reference.majority_label l w -> Reference.majority_label l w' -> w = w'.
Proof.
  intros [Hmax (l1 & l2 & E & Hlt)] [Hmax' (l1' & l2' & E' & Hlt')].
  rewrite E in E'. apply app_eq_app in E' as [m [[E1 E2]|[E1 E2]]].
  - destruct m as [|y m]; cbn in E2.
    + congruence.
    + injection E2 as <- _.
      assert (Hin : In w' l1) by (rewrite E1; apply in_or_app; right; now left).
      specialize (Hlt _ Hin). specialize (Hmax' w). lia.
  - destruct m as [|y m]; cbn in E2.
    + congruence.
    + injection E2 as <- _.
      assert (Hin : In w l1') by (rewrite E1; apply in_or_app; right; now left).
      specialize (Hlt' _ Hin). specialize (Hmax w'). lia.
Qed.

(** The three metric blocks produce the labels in the order employees,
    revenue, additional metrics. *)
Lemma evaluate_categories (name : string) (w v : Q) (th : Size.thresholds)
      (st : Size.locals) :
  Size.size_categories (Size.evaluate name w v th st) =
  Size.size_categories st
  ++ (if Str.truthy (Size._categorize_metric v th)
      then [Size._categorize_metric v th] else []).
Proof.
  unfold Size.evaluate. destruct (Str.truthy _); cbn; [reflexivity|].
  now rewrite app_nil_r.
Qed.

Lemma evaluate_primary_categories (name : string) (v : option Q)
      (ths : dict Size.thresholds) (st : Size.locals) :
  Size.size_categories (Size.evaluate_primary name v ths st) =
  Size.size_categories st
  ++ match v with Some x => Reference.label_of name x ths | None => [] end.
Proof.
  unfold Size.evaluate_primary, Reference.label_of.
  destruct v as [x|]; [|now rewrite app_nil_r].
  destruct (get name ths); [|now rewrite app_nil_r].
  apply evaluate_categories.
Qed.

Lemma evaluate_additional_categories (adds : option (dict Q))
      (ths : dict Size.thresholds) (st : Size.locals) :
  Size.size_categories (Size.evaluate_additional adds ths st) =
  Size.size_categories st
  ++ match adds with
     | Some metrics =>
         flat_map (fun kv => Reference.label_of (fst kv) (snd kv) ths) metrics
     | None => []
     end.
Proof.
  destruct adds as [metrics|]; cbn; [|now rewrite app_nil_r].
  revert st. induction metrics as [|[m v] metrics IH]; intros st; cbn.
  - now rewrite app_nil_r.
  - rewrite IH. unfold Reference.label_of at 2. cbn [fst snd].
    destruct (get m ths).
    + rewrite evaluate_categories. cbn. now rewrite <- app_assoc.
    + cbn. reflexivity.
Qed.

Lemma evaluate_metrics_categories (ths : dict Size.thresholds)
      (emp rev : option Q) (adds : option (dict Q)) :
  Size.size_categories (Size.evaluate_metrics ths emp rev adds) =
  Reference.evaluated_labels ths emp rev adds.
Proof.
  unfold Size.evaluate_metrics, Reference.evaluated_labels.
  rewrite evaluate_additional_categories, !evaluate_primary_categories.
  cbn. now rewrite <- app_assoc.
Qed.

End SizeFacts.

(** ** Traversals *)

Section MapMFacts.

Context {A B : Type}.
Implicit Types (f : A -> py_result B) (l : list A).

Lemma mapM_total f l :
  (forall a, In a l -> exists b, f a = Ok b) -> exists bs, mapM f l = Ok bs.
Proof.
  induction l as [|a l IH]; intros H; cbn.
  - now exists [].
  - destruct (H a (or_introl eq_refl)) as [b ->].
    destruct IH as [bs ->]; [intros; apply H; now right|].
    cbn. now eexists.
Qed.

Lemma mapM_map {C : Type} f (g : B -> C) (h : A -> C) l bs :
  (forall a b, f a = Ok b -> g b = h a) ->
  mapM f l = Ok bs -> map g bs = map h l.
Proof.
  intros Hf. revert bs. induction l as [|a l IH]; intros bs; cbn.
  - now intros [= <-].
  - destruct (f a) as [b|e] eqn:Ea; cbn; [|discriminate].
    destruct (mapM f l) as [bs'|e] eqn:El; cbn; [|discriminate].
    intros [= <-]. cbn. now rewrite (Hf _ _ Ea), (IH _ eq_refl).
Qed.

End MapMFacts.

(** ** The confidence of a size analysis *)

Section SizeConfidence.

Local Open Scope Q_scope.

Lemma Forall_values_set {V : Type} (P : V -> Prop) (d : dict V) (k : string) (v : V) :
  Forall (fun kv => P (snd kv)) d -> P v ->
  Forall (fun kv => P (snd kv)) (set k v d).
Proof.
  intros Hd Hv. induction Hd as [|[k' v'] d Hk Hd IH]; cbn.
  - repeat constructor. exact Hv.
  - destruct (String.eqb k k'); constructor; auto.
Qed.

Lemma evaluate_weights (name : string) (w v : Q) (th : Size.thresholds)
      (st : Size.locals) :
  0 <= w -> Size.weights_ok st -> Size.weights_ok (Size.evaluate name w v th st).
Proof.
  intros Hw Hst. unfold Size.evaluate. destruct (Str.truthy _); [|exact Hst].
  unfold Size.weights_ok. cbn.
  now apply (Forall_values_set (fun m => 0 <= Size.weight m)).
Qed.

Lemma evaluate_primary_weights (name : string) (v : option Q)
      (ths : dict Size.thresholds) (st : Size.locals) :
  Size.weights_ok st -> Size.weights_ok (Size.evaluate_primary name v ths st).
Proof.
  intros Hst. unfold Size.evaluate_primary.
  destruct v; [|exact Hst]. destruct (get name ths); [|exact Hst].
  apply evaluate_weights; [discriminate | exact Hst].
Qed.

Lemma evaluate_additional_weights (adds : option (dict Q))
      (ths : dict Size.thresholds) (st : Size.locals) :
  Size.weights_ok st -> Size.weights_ok (Size.evaluate_additional adds ths st).
Proof.
  destruct adds as [metrics|]; cbn; [|auto].
  revert st. induction metrics as [|[m v] metrics IH]; intros st Hst; cbn; [exact Hst|].
  apply IH. destruct (get m ths); [|exact Hst].
  apply evaluate_weights; [discriminate | exact Hst].
Qed.

Lemma evaluate_metrics_weights (ths : dict Size.thresholds)
      (emp rev : option Q) (adds : option (dict Q)) :
  Size.weights_ok (Size.evaluate_metrics ths emp rev adds).
Proof.
  unfold Size.evaluate_metrics.
  apply evaluate_additional_weights; do 2 apply evaluate_primary_weights.
  constructor.
Qed.

Lemma weighted_confidence_bounds (final_size : string)
      (scores : dict Size.metric_score) :
  Forall (fun kv => 0 <= Size.weight (snd kv)) scores ->
  0 <= Size.weighted_confidence final_size scores <= 100.
Proof.
  intros H. unfold Size.weighted_confidence.
  set (step := fun (acc : Q * Q) (kv : string * Size.metric_score) => _).
  assert (Hinv : forall acc, 0 <= fst acc <= snd acc ->
            0 <= fst (fold_left step scores acc) <= snd (fold_left step scores acc)).
  { induction H as [|kv scores Hw _ IH]; intros acc Hacc; [exact Hacc|].
    cbn [fold_left]. apply IH. unfold step. cbn [fst snd].
    destruct (String.eqb _ _); lra. }
  specialize (Hinv (0, 0)). destruct (fold_left step scores (0, 0)) as [wc tw].
  cbn [fst snd] in Hinv. apply percentage_bounds; apply Hinv; cbn; lra.
Qed.

Lemma decide_bounds (st : Size.locals) (final_size : string) (c : Q) :
  Size.weights_ok st -> Size.decide st = Ok (final_size, c) -> 0 <= c <= 100.
Proof.
  intros Hw. unfold Size.decide.
  destruct (Size.size_categories st); [intros [= _ <-]; lra|].
  destruct (Num.max_key _) as [w|]; cbn; [|discriminate].
  destruct (Size.confidence_scores st) eqn:E; intros [= _ <-]; [lra|].
  apply weighted_confidence_bounds. unfold Size.weights_ok in Hw. now rewrite E in Hw.
Qed.

(** The final size is the majority label of the evaluated metrics. *)
Lemma decide_majority (st : Size.locals) :
  Size.size_categories st <> [] ->
  exists w c, Size.decide st = Ok (w, c)
              /\ Reference.majority_label (Size.size_categories st) w.
Proof.
  intros Hne. unfold Size.decide.
  destruct (vote_majority _ Hne) as (w & Hmax & Hmaj).
  destruct (Size.size_categories st) eqn:E; [congruence|].
  rewrite Hmax. cbn. destruct (Size.confidence_scores st); eauto.
Qed.

Lemma decide_total (st : Size.locals) : exists w c, Size.decide st = Ok (w, c).
Proof.
  destruct (Size.size_categories st) eqn:E.
  - unfold Size.decide. rewrite E. eauto.
  - destruct (decide_majority st) as (w & c & H & _); [congruence|]. eauto.
Qed.

(** Once the loop over the additional metrics has run, [value] is bound. *)
Lemma evaluate_additional_value (m : string * Q) (metrics : dict Q)
      (ths : dict Size.thresholds) (st : Size.locals) :
  exists v, Size.loop_value (Size.evaluate_additional (Some (m :: metrics)) ths st) = Some v.
Proof.
  cbn [Size.evaluate_additional]. revert m st.
  induction metrics as [|m' metrics IH]; intros m st.
  - cbn. destruct (get (fst m) ths); [|cbn; eauto].
    unfold Size.evaluate. destruct (Str.truthy _); cbn; eauto.
  - cbn [fold_left]. apply IH.
Qed.

Lemma analyse_metrics_bound (st : Size.locals) (v : Q) :
  Size.loop_value st = Some v -> exists m, Size.analyse_metrics st = Ok m.
Proof.
  intros Hv. unfold Size.analyse_metrics. apply mapM_total.
  intros a _. rewrite Hv. eauto.
Qed.

Lemma analyse_metrics_outcome (st : Size.locals) :
  (exists m, Size.analyse_metrics st = Ok m)
  \/ Size.analyse_metrics st = Raise (NameError "value").
Proof.
  destruct (Size.loop_value st) as [v|] eqn:Hv.
  - left. now apply (analyse_metrics_bound st v).
  - unfold Size.analyse_metrics. destruct (Size.confidence_scores st); cbn.
    + left. eauto.
    + right. now rewrite Hv.
Qed.

Lemma analyze_confidence_bounds (data : Size.size_data) (industry : string)
      (emp rev : option Q) (adds : option (dict Q)) (r : Size.analysis) :
  Size.analyze_business_size data industry emp rev adds = Ok r ->
  0 <= Size.confidence r <= 100.
Proof.
  unfold Size.analyze_business_size.
  destruct (Size.select_thresholds _ _) as [ths|]; cbn; [|discriminate].
  destruct (Size.decide _) as [[w c]|] eqn:D; cbn; [|discriminate].
  destruct (lookup "medium" _); cbn; [|discriminate].
  destruct (Size.analyse_metrics _); cbn; [|discriminate].
  intros [= <-]. cbn. apply round2_bounds.
  eapply decide_bounds; [apply evaluate_metrics_weights | exact D].
Qed.

End SizeConfidence.

(** ** Winners and their confidence *)

Section Winner.

Local Open Scope Q_scope.

Lemma nonneg_values_set (d : dict Q) (k : string) (v : Q) :
  Num.nonneg_values d -> 0 <= v -> Num.nonneg_values (set k v d).
Proof.
  unfold Num.nonneg_values, values. rewrite !Forall_map.
  apply (Forall_values_set (fun x => 0 <= x)).
Qed.

Lemma value_of_le_sum (d : dict Q) (k : string) :
  Num.nonneg_values d -> 0 <= Num.value_of d k <= Num.sum (values d).
Proof.
  intros Hd. unfold Num.value_of. destruct (get k d) as [v|] eqn:E.
  - assert (Hin : In v (values d)) by (apply In_values; exists k; now apply get_In).
    split; [|now apply sum_ge_member].
    unfold Num.nonneg_values in Hd. rewrite Forall_forall in Hd. now apply Hd.
  - split; [lra | now apply sum_nonneg].
Qed.

(** The winner of a dictionary of scores that are not negative exists, is
    one of its keys, and its share of the total is a percentage. *)
Lemma winner (d : dict Q) :
  d <> [] -> Num.nonneg_values d ->
  exists w,
    Num.max_key d = Ok w /\ In w (keys d)
    /\ (forall k, Num.value_of d k <= Num.value_of d w)
    /\ 0 <= Num.percentage (Num.value_of d w) (Num.sum (values d)) <= 100.
Proof.
  intros Hne Hd. destruct (max_key_spec d Hne) as (w & k1 & k2 & Hmax & Hk & Hlt & Hle).
  exists w. split; [exact Hmax|]. split; [|split].
  - rewrite Hk. apply in_or_app. right. now left.
  - intros k. destruct (get k d) as [v|] eqn:E.
    + apply get_keys in E. rewrite Hk in E.
      apply in_app_or in E as [E|[<-|E]].
      * now apply Qlt_le_weak, Hlt.
      * apply Qle_refl.
      * now apply Hle.
    + unfold Num.value_of at 1. rewrite E. now apply value_of_le_sum.
  - apply percentage_bounds; now apply value_of_le_sum.
Qed.

Lemma get_map_values {V W : Type} (g : V -> W) (d : dict V) (k : string) :
  get k (map (fun e => (fst e, g (snd e))) d) = option_map g (get k d).
Proof.
  induction d as [|[k' v] d IH]; cbn; [reflexivity|].
  now destruct (String.eqb k k').
Qed.

Lemma keys_map_values {V W : Type} (g : V -> W) (d : dict V) :
  keys (map (fun e => (fst e, g (snd e))) d) = keys d.
Proof. unfold keys. rewrite map_map. reflexivity. Qed.

End Winner.

(** ** Industry scores *)

Section IndustryScores.

Local Open Scope Q_scope.

Variable text : string.

Lemma score_keywords_nonneg (kws : list string) (s : Q) :
  0 <= s -> 0 <= Industry.score_keywords text kws s.
Proof.
  unfold Industry.score_keywords. revert s.
  induction kws as [|k kws IH]; intros s Hs; cbn [fold_left]; [exact Hs|].
  apply IH. destruct (0 <? Regex.count k text)%nat; [|exact Hs].
  pose proof (of_nat_nonneg (Regex.count k text)). lra.
Qed.

Lemma score_sub_keywords_nonneg (kws : list string) (st : Q * Q) :
  0 <= fst st -> 0 <= snd st ->
  0 <= fst (Industry.score_sub_keywords text kws st)
  /\ 0 <= snd (Industry.score_sub_keywords text kws st).
Proof.
  unfold Industry.score_sub_keywords. revert st.
  induction kws as [|k kws IH]; intros st H1 H2; cbn [fold_left]; [auto|].
  pose proof (of_nat_nonneg (Regex.count k text)).
  destruct (0 <? Regex.count k text)%nat; apply IH; cbn [fst snd]; auto; lra.
Qed.

Lemma score_industry_spec (info : Industry.industry) :
  0 <= fst (Industry.score_industry text info)
  /\ Num.nonneg_values (snd (Industry.score_industry text info))
  /\ (forall k, In k (keys (snd (Industry.score_industry text info))) ->
                In k (keys (Industry.sub_industries info))).
Proof.
  unfold Industry.score_industry.
  set (step := fun (st : Q * dict Q) (sub : string * Industry.sub_industry) => _).
  assert (H : forall subs st,
             0 <= fst st -> Num.nonneg_values (snd st) ->
             0 <= fst (fold_left step subs st)
             /\ Num.nonneg_values (snd (fold_left step subs st))
             /\ (forall k, In k (keys (snd (fold_left step subs st))) ->
                           In k (keys (snd st)) \/ In k (keys subs))).
  { induction subs as [|[sub_id sub_info] subs IH]; intros st H1 H2; cbn [fold_left].
    - auto.
    - destruct (score_sub_keywords_nonneg (Industry.sub_keywords sub_info) (fst st, 0))
        as [Ha Hb]; cbn; [exact H1 | lra |].
      destruct (IH (step st (sub_id, sub_info))) as (I1 & I2 & I3).
      + unfold step. destruct (Industry.score_sub_keywords _ _ _). exact Ha.
      + unfold step. destruct (Industry.score_sub_keywords _ _ _) as [a b].
        cbn [snd] in *. now apply nonneg_values_set.
      + split; [exact I1|]. split; [exact I2|].
        intros k Hk. apply I3 in Hk as [Hk|Hk]; [|right; now right].
        unfold step in Hk. destruct (Industry.score_sub_keywords _ _ _).
        cbn [snd] in Hk. apply In_keys_set in Hk as [->|Hk]; [right; now left | now left]. }
  destruct (H (Industry.sub_industries info)
              (Industry.score_keywords text (Industry.keywords info) 0, []))
    as (H1 & H2 & H3).
  - cbn. apply score_keywords_nonneg. lra.
  - constructor.
  - split; [exact H1|]. split; [exact H2|].
    intros k Hk. apply H3 in Hk as [[]|Hk]. exact Hk.
Qed.

(** On a dictionary of industries the loop fills the two score
    dictionaries entry by entry. *)
Lemma score_all_map (data : Industry.industry_data) :
  NoDup (keys data) ->
  Industry.score_all data text =
  (Reference.industry_scores data text, Reference.sub_industry_scores data text).
Proof.
  unfold Industry.score_all, Reference.industry_scores, Reference.sub_industry_scores.
  set (step := fun (st : dict Q * dict (dict Q)) (entry : string * Industry.industry) => _).
  set (f1 := fun e : string * Industry.industry =>
                (fst e, fst (Industry.score_industry text (snd e)))).
  set (f2 := fun e : string * Industry.industry =>
                (fst e, snd (Industry.score_industry text (snd e)))).
  assert (H : forall d a1 a2,
             keys a1 = keys a2 -> NoDup (keys a1 ++ keys d) ->
             fold_left step d (a1, a2) = (a1 ++ map f1 d, a2 ++ map f2 d)).
  { induction d as [|[k info] d IH]; intros a1 a2 Hk Hnd; cbn [fold_left map].
    - now rewrite !app_nil_r.
    - cbn [keys map fst] in Hnd.
      assert (Hfresh : ~ In k (keys a1)).
      { apply NoDup_remove_2 in Hnd. intros Hin. apply Hnd, in_or_app. now left. }
      unfold step at 2. destruct (Industry.score_industry text info) as [s subs] eqn:E.
      cbn [fst snd]. rewrite !set_fresh by congruence.
      rewrite IH.
      + unfold f1 at 2, f2 at 2. cbn [fst snd]. rewrite E. cbn [fst snd].
        now rewrite <- !app_assoc.
      + unfold keys. rewrite !map_app. cbn. now f_equal.
      + unfold keys at 1. rewrite map_app. cbn [map fst]. rewrite <- app_assoc.
        exact Hnd. }
  intros Hnd. now apply (H data [] []).
Qed.

End IndustryScores.

(** ** [classify_industry] *)

Section Classify.

Local Open Scope Q_scope.

Variable data : Industry.industry_data.
Variable text : string.

Lemma scores_keys : keys (Reference.industry_scores data text) = keys data.
Proof. apply (keys_map_values (fun i => fst (Industry.score_industry text i))). Qed.

Lemma scores_nonneg : Num.nonneg_values (Reference.industry_scores data text).
Proof.
  unfold Num.nonneg_values, values, Reference.industry_scores.
  rewrite map_map. cbn [snd].
  apply Forall_map, Forall_forall. intros e _. apply score_industry_spec.
Qed.

Lemma sub_scores_get (k : string) (info : Industry.industry) :
  get k data = Some info ->
  get k (Reference.sub_industry_scores data text)
  = Some (snd (Industry.score_industry text info)).
Proof.
  intros H. unfold Reference.sub_industry_scores.
  rewrite (get_map_values (fun i => snd (Industry.score_industry text i))).
  now rewrite H.
Qed.

Lemma top_sub_total (k : string) :
  In k (keys data) ->
  exists e,
    Industry._get_top_sub_industry data k (Reference.sub_industry_scores data text)
    = Ok e
    /\ 0 <= Industry.confidence e <= 100.
Proof.
  intros [info Hinfo]%keys_get. unfold Industry._get_top_sub_industry.
  rewrite (sub_scores_get k info Hinfo).
  destruct (score_industry_spec text info) as (_ & Hnn & Hkeys).
  destruct (snd (Industry.score_industry text info)) as [|kv d].
  { exists Industry.empty_entry. cbn. split; [reflexivity | lra]. }
  destruct (Num.any _); cbn [negb].
  2:{ exists Industry.empty_entry. cbn. split; [reflexivity | lra]. }
  destruct (winner (kv :: d) ltac:(discriminate) Hnn) as (w & Hmax & Hw & _ & Hb).
  rewrite Hmax. cbn [bind]. unfold lookup at 1. rewrite Hinfo. cbn [bind].
  destruct (lookup_keys _ _ (Hkeys w Hw)) as (si & -> & _). cbn [bind].
  eexists. split; [reflexivity|]. cbn. now apply round2_bounds.
Qed.

Lemma sub_matches_total (info : Industry.industry) :
  exists m, Industry.sub_matches info (snd (Industry.score_industry text info)) = Ok m.
Proof.
  unfold Industry.sub_matches. apply mapM_total. intros kv [Hin _]%filter_In.
  destruct (score_industry_spec text info) as (_ & _ & Hkeys).
  destruct (lookup_keys _ _ (Hkeys (fst kv) (in_map fst _ _ Hin))) as (si & -> & _).
  cbn. eauto.
Qed.

Lemma matches_total :
  exists m,
    Industry.matches data (Reference.industry_scores data text)
      (Reference.sub_industry_scores data text) = Ok m
    /\ keys m = keys (filter (fun kv => Num.Qltb 0 (snd kv))
                        (Reference.industry_scores data text)).
Proof.
  unfold Industry.matches.
  match goal with |- context [mapM ?f ?l] => destruct (mapM_total f l) as [m Hm] end.
  - intros kv [Hin _]%filter_In.
    assert (Hk : In (fst kv) (keys data)).
    { rewrite <- scores_keys. now apply (in_map fst). }
    destruct (keys_get _ _ Hk) as [info Hinfo].
    unfold lookup. rewrite Hinfo, (sub_scores_get _ _ Hinfo). cbn [bind].
    destruct (sub_matches_total info) as [sm ->]. cbn. eauto.
  - exists m. split; [exact Hm|].
    unfold keys. eapply mapM_map; [|exact Hm].
    intros kv b. cbn beta.
    destruct (lookup (fst kv) data); cbn; [|discriminate].
    destruct (lookup (fst kv) (Reference.sub_industry_scores data text)); cbn;
      [|discriminate].
    destruct (Industry.sub_matches _ _); cbn; [|discriminate].
    now intros [= <-].
Qed.

End Classify.

(** What [classify_industry] returns on a dictionary of industries that has
    the fallback industry. *)
Lemma classify_industry_spec (data : Industry.industry_data)
      (description : string) (additional : option (list string)) :
  NoDup (keys data) -> In "technology" (keys data) ->
  let scores := fst (Industry.score_all data (Industry.corpus description additional)) in
  exists r,
    Industry.classify_industry data description additional = Ok r
    /\ keys (Industry.all_matches r) = keys (filter (fun kv => Num.Qltb 0 (snd kv)) scores)
    /\ (Num.any (values scores) = false ->
        Industry.id (Industry.primary_industry r) = "technology"
        /\ Industry.confidence (Industry.primary_industry r) = Num.round2 0)
    /\ (Num.any (values scores) = true ->
        exists w,
          Num.max_key scores = Ok w
          /\ (forall k, Num.value_of scores k <= Num.value_of scores w)%Q
          /\ Industry.id (Industry.primary_industry r) = w
          /\ Industry.confidence (Industry.primary_industry r) =
             Num.round2 (Num.percentage (Num.value_of scores w) (Num.sum (values scores))))
    /\ (0 <= Industry.confidence (Industry.primary_industry r) <= 100)%Q
    /\ (0 <= Industry.confidence (Industry.sub_industry_result r) <= 100)%Q.
Proof.
  intros Hnd Htech scores. unfold Industry.classify_industry.
  set (text := Industry.corpus description additional) in *.
  unfold scores. rewrite (score_all_map text data Hnd). cbn [fst].
  set (sc := Reference.industry_scores data text).
  set (ss := Reference.sub_industry_scores data text).
  destruct (matches_total data text) as (m & Hm & Hkeys). fold sc ss in Hm, Hkeys.
  destruct (Num.any (values sc)) eqn:Hany; cbn [negb].
  - assert (Hne : sc <> []).
    { intros E. rewrite E in Hany. discriminate. }
    destruct (winner sc Hne (scores_nonneg data text)) as (w & Hmax & Hw & Hbest & Hb).
    rewrite Hmax. cbn [bind].
    assert (Hwk : In w (keys data)) by (now rewrite <- (scores_keys data text)).
    destruct (top_sub_total data text w Hwk) as (e & He & Hbe). fold ss in He.
    rewrite He. cbn [bind].
    destruct (lookup_keys _ _ Hwk) as (info & -> & _). cbn [bind].
    rewrite Hm. cbn [bind]. eexists. split; [reflexivity|].
    cbn [Industry.all_matches Industry.primary_industry Industry.sub_industry_result
         Industry.id Industry.confidence].
    split; [exact Hkeys|]. split; [discriminate|].
    split; [intros _; exists w; repeat split; auto|].
    split; [now apply round2_bounds | exact Hbe].
  - cbn [bind].
    destruct (top_sub_total data text "technology" Htech) as (e & He & Hbe). fold ss in He.
    rewrite He. cbn [bind].
    destruct (lookup_keys _ _ Htech) as (info & -> & _). cbn [bind].
    rewrite Hm. cbn [bind]. eexists. split; [reflexivity|].
    cbn [Industry.all_matches Industry.primary_industry Industry.sub_industry_result
         Industry.id Industry.confidence].
    split; [exact Hkeys|]. split; [auto|]. split; [discriminate|].
    split; [apply round2_bounds; lra | exact Hbe].
Qed.

(** ** Role scores *)

Section RoleScores.

Local Open Scope Q_scope.

Variable text : string.

Lemma contribution_nonneg (keyword : string) : 0 <= Reference.contribution text keyword.
Proof.
  unfold Reference.contribution.
  pose proof (of_nat_nonneg (Regex.count (Str.lower keyword) text)) as H1.
  pose proof (of_nat_nonneg (String.length keyword)) as H2.
  apply Qmult_le_0_compat; [exact H1|].
  assert (0 <= Num.of_nat (String.length keyword) / 20) by (apply Qle_shift_div_l; lra).
  lra.
Qed.



Lemma positive_nonneg (d : dict Q) : Num.positive_values d -> Num.nonneg_values d.
Proof.
  unfold Num.positive_values, Num.nonneg_values. apply Forall_impl. intros x. apply Qlt_le_weak.
Qed.

Lemma score_roles_spec (roles : dict Role.role) :
  Num.positive_values (Role.score_roles text roles)
  /\ forall k, In k (keys (Role.score_roles text roles)) -> In k (keys roles).
Proof.
  unfold Role.score_roles.
  set (step := fun (scores : dict Q) (entry : string * Role.role) => _).
  assert (H : forall rs acc,
             Num.positive_values acc ->
             Num.positive_values (fold_left step rs acc)
             /\ forall k, In k (keys (fold_left step rs acc)) ->
                          In k (keys acc) \/ In k (keys rs)).
  { induction rs as [|[k0 r] rs IH]; intros acc Hacc; cbn [fold_left]; [auto|].
    destruct (IH (step acc (k0, r))) as [I1 I2].
    - unfold step. cbn [fst snd].
      destruct (Num.Qltb 0 _) eqn:E; [|exact Hacc].
      apply Qltb_lt in E. unfold Num.positive_values, values in *.
      rewrite Forall_map in *.
      now apply (Forall_values_set (fun x => 0 < x)).
    - split; [exact I1|]. intros k Hk. apply I2 in Hk as [Hk|Hk]; [|right; now right].
      unfold step in Hk. cbn [fst snd] in Hk.
      destruct (Num.Qltb 0 _); [|now left].
      apply In_keys_set in Hk as [->|Hk]; [right; now left | now left]. }
  destruct (H roles []) as [H1 H2]; [constructor|].
  split; [exact H1|]. intros k Hk. now apply H2 in Hk as [[]|Hk].
Qed.

End RoleScores.

Section Recognize.

Local Open Scope Q_scope.

Lemma highest_scoring_role_total (scores : dict Q) (roles : dict Role.role)
      (default_role : option string) :
  Num.positive_values scores ->
  (forall k, In k (keys scores) -> In k (keys roles)) ->
  exists r, Role._get_highest_scoring_role scores roles default_role = Ok r
            /\ 0 <= Role.confidence r <= 100.
Proof.
  intros Hpos Hkeys. unfold Role._get_highest_scoring_role.
  destruct scores as [|kv d].
  - destruct default_role as [dr|].
    + destruct (Str.truthy dr && mem dr roles) eqn:E.
      * apply andb_prop in E as [_ E]. apply mem_keys in E.
        destruct (lookup_keys _ _ E) as (info & -> & _). cbn.
        eexists. split; [reflexivity|]. cbn. lra.
      * exists Role.empty_result. cbn. split; [reflexivity | lra].
    + exists Role.empty_result. cbn. split; [reflexivity | lra].
  - destruct (winner (kv :: d) ltac:(discriminate) (positive_nonneg _ Hpos))
      as (w & Hmax & Hw & _ & Hb).
    rewrite Hmax. cbn [bind].
    destruct (lookup_keys _ _ (Hkeys w Hw)) as (info & -> & _). cbn [bind].
    eexists. split; [reflexivity|]. cbn. now apply round2_bounds.
Qed.

Lemma role_matches_total (scores : dict Q) (roles : dict Role.role) :
  (forall k, In k (keys scores) -> In k (keys roles)) ->
  exists m, Role.role_matches roles scores = Ok m.
Proof.
  intros Hkeys. apply mapM_total. intros kv Hin.
  destruct (lookup_keys _ _ (Hkeys _ (in_map fst _ _ Hin))) as (info & -> & _).
  cbn. eauto.
Qed.

(** [recognize_role] returns whenever the strategies have the fallback
    entry, and its confidences are percentages. *)
Lemma recognize_role_spec (data : Role.role_data) (job_title : string)
      (additional_info industry : option string) :
  In "manager" (keys (Role.communication_strategies data)) ->
  exists r,
    Role.recognize_role data job_title additional_info industry = Ok r
    /\ 0 <= Role.confidence (Role.organizational_role r) <= 100
    /\ 0 <= Role.confidence (Role.functional_role r) <= 100
    /\ (forall ir, Role.industry_specific_role r = Some ir ->
                   0 <= Role.confidence ir <= 100).
Proof.
  intros Hman. unfold Role.recognize_role.
  set (text := (Str.lower job_title ++ " " ++ _)%string).
  destruct (score_roles_spec text (Role.organizational_roles data)) as [Po Ko].
  destruct (score_roles_spec text (Role.functional_roles data)) as [Pf Kf].
  destruct (highest_scoring_role_total _ _ (Some "manager") Po Ko) as (ro & -> & Bo).
  destruct (highest_scoring_role_total _ _ (Some "technology") Pf Kf) as (rf & -> & Bf).
  destruct (role_matches_total _ _ Ko) as (mo & Hmo).
  destruct (role_matches_total _ _ Kf) as (mf & Hmf).
  destruct (lookup_keys _ _ Hman) as (man & Hl & _).
  cbn [bind].
  destruct (Role.industry_roles data industry) as [roles|].
  - destruct (score_roles_spec text roles) as [Pi Ki].
    destruct (highest_scoring_role_total _ _ None Pi Ki) as (ri & Hri & Bi).
    destruct (role_matches_total _ _ Ki) as (mi & Hmi).
    destruct (Role.score_roles text roles) as [|kv d].
    + cbn [bind]. rewrite Hl. cbn [bind]. rewrite Hmo. cbn [bind].
      rewrite Hmf. cbn [bind]. eexists. split; [reflexivity|]. cbn.
      split; [exact Bo|]. split; [exact Bf|]. discriminate.
    + rewrite Hri. cbn [bind]. rewrite Hl. cbn [bind]. rewrite Hmo. cbn [bind].
      rewrite Hmf. cbn [bind]. rewrite Hmi. cbn [bind].
      eexists. split; [reflexivity|]. cbn.
      split; [exact Bo|]. split; [exact Bf|]. intros ir [= <-]. exact Bi.
  - cbn [bind]. rewrite Hl. cbn [bind]. rewrite Hmo. cbn [bind].
    rewrite Hmf. cbn [bind]. eexists. split; [reflexivity|]. cbn.
    split; [exact Bo|]. split; [exact Bf|]. discriminate.
Qed.

End Recognize.

(** ** Scores and keyword hits *)

Section Hits.

Local Open Scope Q_scope.

Variable text : string.

Lemma sum_pos_exists (l : list Q) :
  Forall (fun x => 0 <= x) l -> (0 < Num.sum l <-> exists x, In x l /\ 0 < x).
Proof.
  intros Hl. split.
  - intros Hpos. induction Hl as [|x l Hx Hl IH].
    + unfold Num.sum in Hpos. cbn in Hpos. lra.
    + rewrite sum_cons in Hpos. destruct (Qlt_le_dec 0 x) as [Hx0|Hx0].
      * exists x. split; [now left | exact Hx0].
      * destruct IH as (y & Hy & Hy0); [lra|]. exists y. split; [now right | exact Hy0].
  - intros (x & Hin & Hx). pose proof (sum_ge_member l x Hl Hin). lra.
Qed.

Lemma keyword_hits_nonneg (kws : list string) : 0 <= Reference.keyword_hits text kws.
Proof.
  apply sum_nonneg, Forall_map, Forall_forall. intros k _. apply of_nat_nonneg.
Qed.

Lemma keyword_hits_pos (kws : list string) :
  0 < Reference.keyword_hits text kws <->
  exists k, In k kws /\ (0 < Regex.count k text)%nat.
Proof.
  unfold Reference.keyword_hits. rewrite sum_pos_exists.
  - split.
    + intros (x & (k & <- & Hk)%in_map_iff & Hx). exists k. split; [exact Hk|].
      change 0 with (Num.of_nat 0) in Hx. now apply of_nat_lt in Hx.
    + intros (k & Hk & Hc). exists (Num.of_nat (Regex.count k text)). split.
      * apply in_map_iff. now exists k.
      * change 0 with (Num.of_nat 0). now apply of_nat_lt.
  - apply Forall_map, Forall_forall. intros k _. apply of_nat_nonneg.
Qed.

Lemma score_keywords_acc (kws : list string) (a : Q) :
  Industry.score_keywords text kws a == a + Reference.keyword_hits text kws.
Proof.
  unfold Industry.score_keywords, Reference.keyword_hits. revert a.
  induction kws as [|k kws IH]; intros a; cbn [fold_left map].
  - unfold Num.sum. cbn [fold_left]. ring.
  - rewrite IH, sum_cons. cbv zeta.
    destruct (Regex.count k text) as [|n]; cbn [Nat.ltb Nat.leb].
    + change (Num.of_nat 0) with 0. ring.
    + ring.
Qed.

Lemma score_sub_keywords_acc (kws : list string) (st : Q * Q) :
  fst (Industry.score_sub_keywords text kws st)
  == fst st + (1 # 2) * Reference.keyword_hits text kws
  /\ snd (Industry.score_sub_keywords text kws st)
     == snd st + Reference.keyword_hits text kws.
Proof.
  unfold Industry.score_sub_keywords, Reference.keyword_hits. revert st.
  induction kws as [|k kws IH]; intros st; cbn [fold_left map].
  - unfold Num.sum. cbn [fold_left]. split; ring.
  - destruct (IH (let count := Regex.count k text in
                  if (0 <? count)%nat
                  then (fst st + Num.of_nat count * (1 # 2), snd st + Num.of_nat count)
                  else st)) as [I1 I2].
    rewrite I1, I2, sum_cons. cbv zeta.
    destruct (Regex.count k text) as [|n]; cbn [Nat.ltb Nat.leb fst snd].
    + change (Num.of_nat 0) with 0. split; ring.
    + split; ring.
Qed.

(** The score that the loop gives an industry is the weighted number of
    keyword occurrences. *)
Lemma score_industry_closed (info : Industry.industry) :
  fst (Industry.score_industry text info) == Reference.industry_score text info.
Proof.
  unfold Industry.score_industry, Reference.industry_score.
  set (step := fun (st : Q * dict Q) (sub : string * Industry.sub_industry) => _).
  assert (H : forall subs st,
             fst (fold_left step subs st)
             == fst st
                + (1 # 2)
                  * Num.sum (map (fun sub => Reference.keyword_hits text
                                               (Industry.sub_keywords (snd sub))) subs)).
  { induction subs as [|[sub_id sub_info] subs IH]; intros st; cbn [fold_left map].
    - unfold Num.sum. cbn [fold_left]. ring.
    - rewrite IH, sum_cons. unfold step.
      destruct (score_sub_keywords_acc (Industry.sub_keywords sub_info) (fst st, 0))
        as [Ha _].
      destruct (Industry.score_sub_keywords _ _ _) as [a b]. cbn [fst snd] in *.
      rewrite Ha. ring. }
  rewrite H. cbn [fst]. rewrite score_keywords_acc. ring.
Qed.

Lemma industry_score_pos (info : Industry.industry) :
  0 < Reference.industry_score text info <-> Reference.has_hit text info.
Proof.
  unfold Reference.industry_score, Reference.has_hit.
  set (own := Reference.keyword_hits text (Industry.keywords info)).
  set (subs := map _ (Industry.sub_industries info)).
  assert (Hown : 0 <= own) by apply keyword_hits_nonneg.
  assert (Hsubs : Forall (fun x => 0 <= x) subs).
  { apply Forall_map, Forall_forall. intros sub _. apply keyword_hits_nonneg. }
  pose proof (sum_nonneg subs Hsubs) as Hsum.
  split.
  - intros Hpos. destruct (Qlt_le_dec 0 own) as [Ho|Ho].
    + apply keyword_hits_pos in Ho as (k & Hk & Hc). exists k. auto.
    + assert (Hs : 0 < Num.sum subs) by lra.
      apply sum_pos_exists in Hs as (x & (sub & <- & Hsub)%in_map_iff & Hx); [|exact Hsubs].
      apply keyword_hits_pos in Hx as (k & Hk & Hc). exists k. split; [|exact Hc].
      right. now exists sub.
  - intros (k & [Hk|(sub & Hsub & Hk)] & Hc).
    + assert (0 < own) by (apply keyword_hits_pos; now exists k). lra.
    + assert (Hx : 0 < Reference.keyword_hits text (Industry.sub_keywords (snd sub))).
      { apply keyword_hits_pos. now exists k. }
      assert (Hs : 0 < Num.sum subs).
      { apply sum_pos_exists; [exact Hsubs|]. eexists. split; [|exact Hx].
        apply in_map_iff. now exists sub. }
      lra.
Qed.

(** On a dictionary of industries, some keyword of the taxonomy occurs in
    the text exactly when the scores have a positive total. *)
Lemma total_pos_iff_hit (data : Industry.industry_data) :
  NoDup (keys data) ->
  0 < Num.sum (values (fst (Industry.score_all data text))) <->
  exists industry_id info, In (industry_id, info) data /\ Reference.has_hit text info.
Proof.
  intros Hnd. rewrite (score_all_map text data Hnd). cbn [fst].
  rewrite sum_pos_exists by apply scores_nonneg.
  unfold values, Reference.industry_scores. rewrite map_map. cbn [snd]. split.
  - intros (x & ([k info] & <- & Hin)%in_map_iff & Hx). cbn [snd] in Hx.
    rewrite score_industry_closed in Hx. exists k, info. split; [exact Hin|].
    now apply industry_score_pos.
  - intros (k & info & Hin & Hhit). eexists. split.
    + apply in_map_iff. exists (k, info). split; [reflexivity | exact Hin].
    + cbn [snd]. rewrite score_industry_closed. now apply industry_score_pos.
Qed.

End Hits.

(** * The claims *)

Section DefaultData.

Lemma default_industry_data_dict : NoDup (keys default_industry_data).
Proof.
  repeat (constructor; [cbn; intuition discriminate|]). constructor.
Qed.

Lemma default_industry_data_technology : In "technology" (keys default_industry_data).
Proof. cbn. tauto. Qed.

Lemma default_role_data_manager :
  In "manager" (keys (Role.communication_strategies default_role_data)).
Proof. cbn. tauto. Qed.

Lemma default_size_data_medium :
  In "medium" (keys (Size.size_characteristics default_size_data)).
Proof. cbn. tauto. Qed.

End DefaultData.

(** What [analyze_business_size] can do: it returns, or the
    [metrics_analysis] comprehension finds [value] unbound. *)
Lemma analyze_outcome (data : Size.size_data) (industry : string)
      (emp rev : option Q) (adds : option (dict Q)) :
  In "employees" (keys (Size.general_thresholds data)) ->
  In "revenue" (keys (Size.general_thresholds data)) ->
  In "medium" (keys (Size.size_characteristics data)) ->
  ((exists r, Size.analyze_business_size data industry emp rev adds = Ok r)
   \/ Size.analyze_business_size data industry emp rev adds = Raise (NameError "value"))
  /\ (forall m ms, adds = Some (m :: ms) ->
        exists r, Size.analyze_business_size data industry emp rev adds = Ok r).
Proof.
  intros He Hr Hm. unfold Size.analyze_business_size.
  assert (Hths : exists ths, Size.select_thresholds data (Str.lower industry) = Ok ths).
  { unfold Size.select_thresholds.
    destruct (mem _ _) eqn:E.
    - apply mem_keys in E. destruct (lookup_keys _ _ E) as (t & -> & _). eauto.
    - destruct (lookup_keys _ _ He) as (e & -> & _).
      destruct (lookup_keys _ _ Hr) as (r & -> & _). cbn. eauto. }
  destruct Hths as [ths ->]. cbn [bind].
  destruct (decide_total (Size.evaluate_metrics ths emp rev adds)) as (w & c & ->).
  cbn [bind]. destruct (lookup_keys _ _ Hm) as (med & -> & _). cbn [bind].
  split.
  - destruct (analyse_metrics_outcome (Size.evaluate_metrics ths emp rev adds))
      as [[m ->]| ->]; cbn [bind]; eauto.
  - intros m ms ->. unfold Size.evaluate_metrics.
    destruct (evaluate_additional_value m ms ths
                (Size.evaluate_primary "revenue" rev ths
                   (Size.evaluate_primary "employees" emp ths Size.initial)))
      as [v Hv].
    destruct (analyse_metrics_bound _ _ Hv) as [ma ->]. cbn [bind]. eauto.
Qed.

(** C1. With the default taxonomy data, every confidence that
    [classify_industry] (primary and sub-industry), [analyze_business_size]
    and [recognize_role] (organizational, functional, industry-specific)
    produce lies in the closed interval from 0 to 100, whatever the input.
    [classify_industry] and [recognize_role] always return;
    [analyze_business_size] returns whenever additional metrics are
    supplied, and otherwise returns or stops on the unbound [value]. *)
Theorem confidence_within_bounds :
  (forall description additional,
      exists r,
        Industry.classify_industry default_industry_data description additional = Ok r
        /\ (0 <= Industry.confidence (Industry.primary_industry r) <= 100)%Q
        /\ (0 <= Industry.confidence (Industry.sub_industry_result r) <= 100)%Q)
  /\ (forall industry emp rev adds,
         (forall r,
             Size.analyze_business_size default_size_data industry emp rev adds = Ok r ->
             (0 <= Size.confidence r <= 100)%Q)
         /\ ((exists r,
                 Size.analyze_business_size default_size_data industry emp rev adds = Ok r)
             \/ Size.analyze_business_size default_size_data industry emp rev adds
                = Raise (NameError "value"))
         /\ (forall m ms, adds = Some (m :: ms) ->
               exists r,
                 Size.analyze_business_size default_size_data industry emp rev adds = Ok r))
  /\ (forall job_title additional_info industry,
         exists r,
           Role.recognize_role default_role_data job_title additional_info industry = Ok r
           /\ (0 <= Role.confidence (Role.organizational_role r) <= 100)%Q
           /\ (0 <= Role.confidence (Role.functional_role r) <= 100)%Q
           /\ (forall ir, Role.industry_specific_role r = Some ir ->
                          (0 <= Role.confidence ir <= 100)%Q)).
Proof.
  split; [|split].
  - intros description additional.
    destruct (classify_industry_spec default_industry_data description additional
                default_industry_data_dict default_industry_data_technology)
      as (r & Hr & _ & _ & _ & Hp & Hs).
    exists r. auto.
  - intros industry emp rev adds. split.
    + intros r. apply analyze_confidence_bounds.
    + apply analyze_outcome; cbn; tauto.
  - intros job_title additional_info industry.
    apply recognize_role_spec, default_role_data_manager.
Qed.

(** C2. The keyword pattern counts whole-word occurrences only: at every
    offset that is counted the keyword's characters stand in the corpus, no
    word character precedes a keyword that starts with one, and none follows
    a keyword that ends with one. Scoring "banking" against the keyword
    "bank" gives 0 and scoring "bank" against it counts exactly one
    occurrence, in the industry loops and in the role loop. *)
Theorem whole_word_keyword_matching :
  (forall (keyword text : string) (i : nat),
      In i (Regex.findall keyword text) ->
      let k := list_ascii_of_string keyword in
      let t := list_ascii_of_string text in
      firstn (List.length k) (skipn i t) = k
      /\ (Regex.is_word (hd_error k) = true ->
          Regex.is_word (Regex.char_before t i) = false)
      /\ (Regex.is_word (Regex.last_opt k) = true ->
          Regex.is_word (nth_error t (i + List.length k)) = false))
  /\ Regex.count "bank" "banking" = 0%nat
  /\ Regex.count "bank" "bank" = 1%nat
  /\ (Industry.score_keywords "banking" ["bank"] 0 == 0)%Q
  /\ (Industry.score_keywords "bank" ["bank"] 0 == 1)%Q
  /\ Industry.score_sub_keywords "banking" ["bank"] (0, 0)%Q = (0, 0)%Q
  /\ (snd (Industry.score_sub_keywords "bank" ["bank"] (0, 0)%Q) == 1)%Q
  /\ (Role._calculate_role_score "banking" ["bank"] == 0)%Q
  /\ (Role._calculate_role_score "bank" ["bank"] == 1 * Role.keyword_weight "bank")%Q.
Proof.
  split; [exact findall_whole_word|].
  repeat split; reflexivity.
Qed.

Lemma whole_word_keyword_matching_witness :
  In 2%nat (Regex.findall "bank" "a bank")
  /\ firstn 4 (skipn 2 (list_ascii_of_string "a bank")) = list_ascii_of_string "bank"
  /\ Regex.is_word (Regex.char_before (list_ascii_of_string "a bank") 2) = false.
Proof.
  assert (H : In 2%nat (Regex.findall "bank" "a bank")) by (vm_compute; left; reflexivity).
  split; [exact H|].
  destruct (proj1 whole_word_keyword_matching "bank" "a bank" 2%nat H) as (H1 & H2 & _).
  split; [exact H1 | exact (H2 eq_refl)].
Defined.

(** C3. With the default taxonomy the description of the online retailer,
    with its three additional keywords, is classified as industry "retail",
    sub-industry "electronics". *)
Theorem online_retailer_scenario :
  exists r,
    Industry.classify_industry default_industry_data
      "We are an online retailer specializing in electronics and computer accessories."
      (Some ["e-commerce"; "online store"; "gadgets"]) = Ok r
    /\ Industry.id (Industry.primary_industry r) = "retail"
    /\ Industry.id (Industry.sub_industry_result r) = "electronics".
Proof.
  eexists. split; [vm_compute; reflexivity|]. split; reflexivity.
Qed.

Lemma max_key_In (d : dict Q) (w : string) : Num.max_key d = Ok w -> In w (keys d).
Proof.
  intros H. destruct d as [|kv d]; [discriminate|].
  destruct (max_key_spec (kv :: d) ltac:(discriminate)) as (w' & k1 & k2 & Hw & Hk & _).
  rewrite H in Hw. injection Hw as <-. rewrite Hk. apply in_or_app. right. now left.
Qed.

Lemma score_all_nonneg (data : Industry.industry_data) (text : string) :
  NoDup (keys data) -> Num.nonneg_values (fst (Industry.score_all data text)).
Proof.
  intros Hnd. rewrite (score_all_map text data Hnd). apply scores_nonneg.
Qed.


(** [classify_industry] when some score is not zero: the fallback industry
    is not consulted. *)
Lemma classify_industry_hit (data : Industry.industry_data)
      (description : string) (additional : option (list string)) :
  NoDup (keys data) ->
  let scores := fst (Industry.score_all data (Industry.corpus description additional)) in
  Num.any (values scores) = true ->
  exists r w,
    Industry.classify_industry data description additional = Ok r
    /\ Num.max_key scores = Ok w
    /\ (forall k, Num.value_of scores k <= Num.value_of scores w)%Q
    /\ Industry.id (Industry.primary_industry r) = w
    /\ Industry.confidence (Industry.primary_industry r)
       = Num.round2 (Num.percentage (Num.value_of scores w) (Num.sum (values scores))).
Proof.
  intros Hnd scores. unfold Industry.classify_industry.
  set (text := Industry.corpus description additional) in *.
  unfold scores. rewrite (score_all_map text data Hnd). cbn [fst].
  set (sc := Reference.industry_scores data text).
  set (ss := Reference.sub_industry_scores data text).
  destruct (matches_total data text) as (m & Hm & _). fold sc ss in Hm.
  intros Hany. rewrite Hany. cbn [negb].
  assert (Hne : sc <> []).
  { intros E. rewrite E in Hany. discriminate. }
  destruct (winner sc Hne (scores_nonneg data text)) as (w & Hmax & Hw & Hbest & _).
  rewrite Hmax. cbn [bind].
  assert (Hwk : In w (keys data)) by (now rewrite <- (scores_keys data text)).
  destruct (top_sub_total data text w Hwk) as (e & He & _). fold ss in He.
  rewrite He. cbn [bind].
  destruct (lookup_keys _ _ Hwk) as (info & -> & _). cbn [bind].
  rewrite Hm. cbn [bind]. eexists. exists w. split; [reflexivity|].
  cbn [Industry.primary_industry Industry.id Industry.confidence]. auto.
Qed.

(** [classify_industry] when every score is zero and the taxonomy has no
    "technology": the sub-industry lookup uses [dict.get] and returns the
    empty entry, and reading the name of the fallback industry raises. *)
Lemma classify_industry_no_fallback (data : Industry.industry_data)
      (description : string) (additional : option (list string)) :
  NoDup (keys data) ->
  Num.any (values (fst (Industry.score_all data
                          (Industry.corpus description additional)))) = false ->
  ~ In "technology" (keys data) ->
  Industry.classify_industry data description additional
  = Raise (KeyError "technology").
Proof.
  intros Hnd Hany Htech. unfold Industry.classify_industry.
  set (text := Industry.corpus description additional) in *.
  rewrite (score_all_map text data Hnd) in *. cbn [fst] in Hany.
  rewrite Hany. cbn [negb bind]. apply get_None in Htech.
  unfold Industry._get_top_sub_industry, Reference.sub_industry_scores.
  rewrite (get_map_values (fun i => snd (Industry.score_industry text i))), Htech.
  cbn [option_map bind]. unfold lookup. rewrite Htech. reflexivity.
Qed.

(** C4, as the code has it, on every dictionary of industries. When some
    keyword of the taxonomy occurs in the corpus, [classify_industry]
    returns, the primary industry has the greatest score [s], and its
    confidence is what the code computes from [s] and the total score in
    floats: the quotient [s / total] as a double, that times 100 as a
    double, and [round(_, 2)] of it. When the total score is 0, the code
    falls back on "technology": if the taxonomy has it, that is the primary
    industry, with confidence 0; if not, [KeyError] is raised. *)
Theorem primary_confidence_rounded_share (data : Industry.industry_data)
        (description : string) (additional : option (list string)) :
  NoDup (keys data) ->
  let text := Industry.corpus description additional in
  let scores := fst (Industry.score_all data text) in
  let total := Num.sum (values scores) in
  ((exists industry_id info,
       In (industry_id, info) data /\ Reference.has_hit text info) ->
   exists r s,
     Industry.classify_industry data description additional = Ok r
     /\ get (Industry.id (Industry.primary_industry r)) scores = Some s
     /\ (forall k s', get k scores = Some s' -> (s' <= s)%Q)
     /\ Industry.confidence (Industry.primary_industry r)
        = Num.round2 (Num.to_double (Num.to_double (s / total) * 100))%Q)
  /\ ((total == 0)%Q ->
      In "technology" (keys data) ->
      exists r,
        Industry.classify_industry data description additional = Ok r
        /\ Industry.id (Industry.primary_industry r) = "technology"
        /\ (Industry.confidence (Industry.primary_industry r) == 0)%Q)
  /\ ((total == 0)%Q ->
      ~ In "technology" (keys data) ->
      Industry.classify_industry data description additional
      = Raise (KeyError "technology")).
Proof.
  intros Hnd text scores total.
  pose proof (score_all_nonneg data text Hnd) as Hnn. fold scores in Hnn.
  pose proof (any_true_sum_pos (values scores) Hnn) as Hany. fold total in Hany.
  assert (Hzero : (total == 0)%Q -> Num.any (values scores) = false).
  { intros Htot. destruct (Num.any (values scores)) eqn:E; [|reflexivity].
    pose proof (proj1 Hany eq_refl) as Hp. rewrite Htot in Hp.
    now apply Qlt_irrefl in Hp. }
  split; [|split].
  - intros Hhit. apply (total_pos_iff_hit text data Hnd) in Hhit.
    fold scores total in Hhit.
    destruct (classify_industry_hit data description additional Hnd (proj2 Hany Hhit))
      as (r & w & Hr & Hmax & Hbest & Hid & Hconf).
    fold text scores in Hmax, Hbest, Hconf. fold total in Hconf.
    destruct (keys_get _ _ (max_key_In _ _ Hmax)) as [s Hs].
    exists r, s. split; [exact Hr|]. rewrite Hid. split; [exact Hs|]. split.
    + intros k s' Hk. specialize (Hbest k). unfold Num.value_of in Hbest.
      now rewrite Hk, Hs in Hbest.
    + rewrite Hconf. unfold Num.percentage, Num.value_of. rewrite Hs.
      now rewrite (proj2 (Qltb_lt 0 total) Hhit).
  - intros Htot Htech.
    destruct (classify_industry_spec data description additional Hnd Htech)
      as (r & Hr & _ & Hz & _).
    fold text scores in Hz. exists r. split; [exact Hr|].
    destruct (Hz (Hzero Htot)) as [Hid Hconf]. split; [exact Hid|].
    rewrite Hconf. reflexivity.
  - intros Htot Htech.
    now apply classify_industry_no_fallback; [| apply Hzero |].
Qed.

Lemma primary_confidence_rounded_share_witness :
  exists r,
    Industry.classify_industry default_industry_data "retail retail cloud" None = Ok r
    /\ Industry.id (Industry.primary_industry r) = "retail"
    /\ Industry.confidence (Industry.primary_industry r)
       = Num.round2
           (Num.to_double
              (Num.to_double
                 (2 / Num.sum (values (fst (Industry.score_all default_industry_data
                                              "retail retail cloud")))) * 100))%Q.
Proof.
  destruct (proj1 (primary_confidence_rounded_share default_industry_data
                     "retail retail cloud" None default_industry_data_dict))
    as (r & s & Hr & Hs & _ & Hconf).
  - exists "retail". eexists. split; [left; reflexivity|].
    exists "retail". split; [left; left; reflexivity | vm_compute; lia].
  - exists r. split; [exact Hr|].
    assert (Hid : Industry.id (Industry.primary_industry r) = "retail").
    { vm_compute in Hr. now injection Hr as <-. }
    split; [exact Hid|].
    rewrite Hid in Hs. vm_compute in Hs. injection Hs as <-. exact Hconf.
Defined.

(** The float operations at a tie. In a description in which "retail"
    occurs 43 times, "clothing" once, "cloud" 36 times and "server" once,
    retail scores 43.5 of 80. The share is 54.375 exactly, which rounds to
    54.38; the float product is just below it, and the confidence is
    54.37. *)
Lemma primary_confidence_at_a_tie :
  exists r,
    Industry.classify_industry default_industry_data
      (Str.join " "
         (repeat "retail" 43 ++ ["clothing"] ++ repeat "cloud" 36 ++ ["server"]))
      None = Ok r
    /\ Industry.id (Industry.primary_industry r) = "retail"
    /\ Industry.confidence (Industry.primary_industry r)
       = Num.round2 (Num.to_double (Num.to_double ((87 # 2) / 80) * 100))%Q
    /\ Industry.confidence (Industry.primary_industry r) = Num.to_double (5437 # 100)
    /\ (Num.to_double (Num.to_double ((87 # 2) / 80) * 100) < 54375 # 1000)%Q
    /\ Num.round_half_even (100 * (100 * ((87 # 2) / 80))) = 5438%Z.
Proof.
  eexists. split; [vm_compute; reflexivity|].
  repeat split; vm_compute; reflexivity.
Qed.

(** C4, as the claim words it, fails in two ways. For "retail retail cloud"
    the scores are 2 for retail and 1 for technology, and the confidence
    returned is 66.67 and not 100 * 2 / 3. And on a taxonomy without
    "technology" a description in which no keyword occurs raises
    [KeyError]. *)
Lemma primary_confidence_not_exact_share :
  let scores :=
    fst (Industry.score_all default_industry_data
           (Industry.corpus "retail retail cloud" None)) in
  (exists r,
      Industry.classify_industry default_industry_data "retail retail cloud" None = Ok r
      /\ Industry.id (Industry.primary_industry r) = "retail"
      /\ (Num.value_of scores "retail" == 2)%Q
      /\ (Num.sum (values scores) == 3)%Q
      /\ Industry.confidence (Industry.primary_industry r) = Num.to_double (6667 # 100)
      /\ ~ (Industry.confidence (Industry.primary_industry r)
            == 100 * Num.value_of scores "retail" / Num.sum (values scores))%Q)
  /\ Industry.classify_industry
       [("retail",
         {| Industry.name := "Retail";
            Industry.description := "Shops";
            Industry.keywords := ["retail"; "store"];
            Industry.sub_industries := [] |})]
       "a law firm" None
     = Raise (KeyError "technology").
Proof.
  split; [|vm_compute; reflexivity].
  eexists. split; [vm_compute; reflexivity|].
  split; [reflexivity|]. split; [vm_compute; reflexivity|].
  split; [vm_compute; reflexivity|]. split; [vm_compute; reflexivity|].
  vm_compute. discriminate.
Qed.

(** C5. When at least one metric is evaluated, the final size category of
    [analyze_business_size] is the label that the greatest number of
    evaluated metrics received, the recorded weights playing no part; among
    labels with that many metrics it is the one that came first in the order
    of evaluation (employees, revenue, then the additional metrics in the
    order of their mapping). Every result carries that label, and a result
    is returned whenever additional metrics are supplied. *)
Theorem final_size_is_majority_label (data : Size.size_data) (industry : string)
        (emp rev : option Q) (adds : option (dict Q)) (ths : dict Size.thresholds) :
  Size.select_thresholds data (Str.lower industry) = Ok ths ->
  Reference.evaluated_labels ths emp rev adds <> [] ->
  exists w,
    Reference.majority_label (Reference.evaluated_labels ths emp rev adds) w
    /\ (exists c, Size.decide (Size.evaluate_metrics ths emp rev adds) = Ok (w, c))
    /\ (forall r,
           Size.analyze_business_size data industry emp rev adds = Ok r ->
           Size.size_category r = w)
    /\ (In "medium" (keys (Size.size_characteristics data)) ->
        forall m ms, adds = Some (m :: ms) ->
          exists r,
            Size.analyze_business_size data industry emp rev adds = Ok r
            /\ Size.size_category r = w).
Proof.
  intros Hths Hne. rewrite <- evaluate_metrics_categories in Hne.
  destruct (decide_majority _ Hne) as (w & c & Hd & Hmaj).
  rewrite evaluate_metrics_categories in Hmaj.
  exists w. split; [exact Hmaj|]. split; [now exists c|].
  unfold Size.analyze_business_size. rewrite Hths. cbn [bind]. rewrite Hd. cbn [bind].
  split.
  - intros r. destruct (lookup "medium" _); cbn [bind]; [|discriminate].
    destruct (Size.analyse_metrics _); cbn [bind]; [|discriminate].
    now intros [= <-].
  - intros Hm m ms ->. destruct (lookup_keys _ _ Hm) as (med & -> & _). cbn [bind].
    unfold Size.evaluate_metrics.
    destruct (evaluate_additional_value m ms ths
                (Size.evaluate_primary "revenue" rev ths
                   (Size.evaluate_primary "employees" emp ths Size.initial)))
      as [v Hv].
    destruct (analyse_metrics_bound _ _ Hv) as [ma ->]. cbn [bind].
    eexists. split; reflexivity.
Qed.

Lemma final_size_is_majority_label_witness :
  exists ths w r,
    Size.select_thresholds default_size_data (Str.lower "retail") = Ok ths
    /\ Reference.evaluated_labels ths (Some 75%Q) (Some 2000000%Q)
         (Some [("locations", 2%Q)]) = ["medium"; "small"; "small"]
    /\ Reference.majority_label
         (Reference.evaluated_labels ths (Some 75%Q) (Some 2000000%Q)
            (Some [("locations", 2%Q)])) w
    /\ Size.analyze_business_size default_size_data "retail" (Some 75%Q)
         (Some 2000000%Q) (Some [("locations", 2%Q)]) = Ok r
    /\ Size.size_category r = w
    /\ Size.size_category r = "small".
Proof.
  assert (Hths : exists ths,
             Size.select_thresholds default_size_data (Str.lower "retail") = Ok ths
             /\ Reference.evaluated_labels ths (Some 75%Q) (Some 2000000%Q)
                  (Some [("locations", 2%Q)]) = ["medium"; "small"; "small"]).
  { eexists. split; vm_compute; reflexivity. }
  destruct Hths as (ths & Hths & Hlabels).
  destruct (final_size_is_majority_label default_size_data "retail"
              (Some 75%Q) (Some 2000000%Q) (Some [("locations", 2%Q)]) ths Hths)
    as (w & Hmaj & _ & _ & Hret).
  { rewrite Hlabels. discriminate. }
  destruct (Hret default_size_data_medium _ _ eq_refl) as (r & Hr & Hw).
  exists ths, w, r.
  split; [exact Hths|]. split; [exact Hlabels|]. split; [exact Hmaj|].
  split; [exact Hr|]. split; [exact Hw|].
  clear - Hr. vm_compute in Hr. injection Hr as Hr. rewrite <- Hr. reflexivity.
Defined.

(** C6, where the code departs from the claim. A range whose two bounds are
    absent contains every value, yet [_categorize_metric] passes it over: for
    the value 5 and the single range "small" without bounds it answers
    "medium", where the first range that contains the value is "small". *)
Theorem categorize_skips_unbounded_range :
  Size._categorize_metric 5%Q [("small", Size.range None None)] = "medium"
  /\ Reference.contains (Size.range None None) 5%Q = true
  /\ Reference.first_containing 5%Q [("small", Size.range None None)] = "small".
Proof. repeat split. Qed.




(** ** The update operations *)

Section UpdateFacts.

Import Json.

Lemma eqb_JStr (j : json) (s : string) : eqb j (JStr s) = true -> j = JStr s.
Proof.
  destruct j; cbn; try discriminate. intros H. apply String.eqb_eq in H. now subst.
Qed.

Lemma contains_JStr (l : list json) (s : string) :
  In (JStr s) l -> contains l (JStr s) = true.
Proof.
  intros H. unfold contains. apply existsb_exists. exists (JStr s).
  split; [exact H|]. cbn. apply String.eqb_refl.
Qed.

(** Keywords that are already present are not added again. *)
Lemma merged_keywords_occurrences (old new : list json) (s : string) :
  In (JStr s) old ->
  occurrences s (old ++ filter (fun kw => negb (contains old kw)) new)
  = occurrences s old.
Proof.
  intros Hin. unfold occurrences. rewrite filter_app, length_app.
  replace (filter (fun j => eqb j (JStr s))
             (filter (fun kw => negb (contains old kw)) new)) with (@nil json).
  - cbn. lia.
  - symmetry. induction new as [|j new IH]; [reflexivity|]. cbn.
    destruct (contains old j) eqn:E; cbn; [exact IH|].
    destruct (eqb j (JStr s)) eqn:Ej; [|exact IH].
    apply eqb_JStr in Ej. subst j. rewrite (contains_JStr old s Hin) in E. discriminate.
Qed.

(** [d.update(other)], key by key. *)
Lemma get_update {V : Type} (d other : dict V) (k : string) :
  NoDup (keys other) ->
  get k (update d other)
  = match get k other with
    | Some v => Some v
    | None => get k d
    end.
Proof.
  revert d. induction other as [|[k0 v0] other IH]; intros d Hnd; [reflexivity|].
  inversion Hnd as [|? ? Hk Hnd']; subst. cbn [get].
  change (update d ((k0, v0) :: other)) with (update (set k0 v0 d) other).
  rewrite (IH _ Hnd'). destruct (String.eqb_spec k k0) as [->|Hne].
  - apply get_None in Hk. rewrite Hk. apply get_set_same.
  - now rewrite get_set_other.
Qed.

(** *** Loops that assign to one key per entry *)

Lemma foldM_ext {A B : Type} (f g : A -> B -> py_result A) (l : list B) (a : A) :
  (forall x b, f x b = g x b) -> foldM f l a = foldM g l a.
Proof.
  intros H. revert a. induction l as [|b l IH]; intros a; cbn; [reflexivity|].
  rewrite H. destruct (g a b); cbn [bind]; [apply IH | reflexivity].
Qed.

(** After such a loop over entries with distinct keys, a key that is not
    supplied has the value it had, and a supplied key has the value that
    its step computes from the value it had at the start. *)
Lemma foldM_set_loop {V W : Type} (step : string -> option V -> W -> py_result V)
      (l : dict W) (init d : dict V) :
  NoDup (keys l) ->
  foldM (Aux.set_loop step) l init = Ok d ->
  forall k,
    match get k l with
    | None => get k d = get k init
    | Some w => exists v, step k (get k init) w = Ok v /\ get k d = Some v
    end.
Proof.
  revert init. induction l as [|[k0 w0] l IH]; intros init Hnd H k.
  - cbn in *. now injection H as <-.
  - inversion Hnd as [|? ? Hk0 Hnd']; subst. cbn [foldM] in H.
    unfold Aux.set_loop at 1 in H. cbn [fst snd] in H.
    destruct (step k0 (get k0 init) w0) as [v0|] eqn:E; cbn [bind] in H; [|discriminate].
    specialize (IH _ Hnd' H). cbn [get].
    destruct (String.eqb_spec k k0) as [->|Hne].
    + exists v0. split; [exact E|]. specialize (IH k0).
      apply get_None in Hk0. rewrite Hk0 in IH. rewrite IH. apply get_set_same.
    + specialize (IH k). rewrite (get_set_other init k0 v0 k Hne) in IH. exact IH.
Qed.

(** Such a loop returns when each step does, on the value the key had at
    the start. *)
Lemma foldM_set_loop_returns {V W : Type}
      (step : string -> option V -> W -> py_result V) (l : dict W) (init : dict V) :
  NoDup (keys l) ->
  (forall k w, get k l = Some w -> exists v, step k (get k init) w = Ok v) ->
  exists d, foldM (Aux.set_loop step) l init = Ok d.
Proof.
  revert init. induction l as [|[k0 w0] l IH]; intros init Hnd H.
  - now exists init.
  - inversion Hnd as [|? ? Hk0 Hnd']; subst. cbn [foldM].
    unfold Aux.set_loop at 1. cbn [fst snd].
    destruct (H k0 w0) as [v0 E]; [cbn; now rewrite String.eqb_refl|].
    rewrite E. cbn [bind]. apply IH; [exact Hnd'|].
    intros k w Hk. assert (Hne : k <> k0).
    { intros ->. apply Hk0. now apply get_keys in Hk. }
    rewrite (get_set_other init k0 v0 k Hne). apply H. cbn.
    destruct (String.eqb_spec k k0); [contradiction | exact Hk].
Qed.

Lemma foldM_set_loop_total {V W : Type}
      (step : string -> option V -> W -> py_result V) (l : dict W) (init : dict V) :
  (forall k old w, exists v, step k old w = Ok v) ->
  exists d, foldM (Aux.set_loop step) l init = Ok d.
Proof.
  intros H. revert init. induction l as [|[k0 w0] l IH]; intros init.
  - now exists init.
  - cbn [foldM]. unfold Aux.set_loop at 1. cbn [fst snd].
    destruct (H k0 (get k0 init) w0) as [v0 ->]. cbn [bind]. apply IH.
Qed.

(** *** The five loops in that form *)

Lemma update_data_loop (data new_data : document) :
  update_data data new_data = foldM (Aux.set_loop Aux.category_step) new_data data.
Proof.
  unfold update_data. apply foldM_ext. intros x [category category_data].
  unfold Aux.set_loop, Aux.category_step. cbn [fst snd].
  destruct (get category x); reflexivity.
Qed.

Lemma merge_category_loop (fields entries : document) :
  merge_category (JDict fields) (JDict entries)
  = (merged <- foldM (Aux.set_loop Aux.entry_step) entries fields ;; Ok (JDict merged)).
Proof.
  cbn [merge_category]. revert fields.
  induction entries as [|[key value] entries IH]; intros fields; [reflexivity|].
  cbn [foldM as_dict bind]. unfold Aux.set_loop at 1. cbn [fst snd].
  unfold Aux.entry_step.
  destruct (get key fields) as [[| | | |old]|]; destruct value as [| | | |new];
    cbn [bind]; apply IH.
Qed.

Lemma merge_sub_industries_loop (subs new_subs : document) :
  merge_sub_industries subs new_subs
  = foldM (Aux.set_loop Aux.sub_industry_step) new_subs subs.
Proof.
  unfold merge_sub_industries. apply foldM_ext. intros x [sub_id sub_info].
  unfold Aux.set_loop, Aux.sub_industry_step. cbn [fst snd].
  destruct (get sub_id x) as [old|]; [|reflexivity].
  destruct (as_dict old); cbn [bind]; [|reflexivity].
  destruct (as_dict sub_info); reflexivity.
Qed.

Lemma merge_industry_loop (ex fields : document) :
  merge_industry ex fields = foldM (Aux.set_loop Aux.field_step) fields ex.
Proof.
  unfold merge_industry. apply foldM_ext. intros x [key value].
  unfold Aux.set_loop, Aux.field_step, Reference.merged_keywords, mem, lookup.
  cbn [fst snd].
  destruct (String.eqb_spec key "sub_industries") as [->|Hs].
  - destruct (get "sub_industries" x) as [o|]; cbn [andb bind]; [|reflexivity].
    destruct (as_dict o); cbn [bind]; [|reflexivity].
    destruct (as_dict value); cbn [bind]; [|reflexivity].
    destruct (merge_sub_industries _ _); reflexivity.
  - cbn [andb]. destruct (String.eqb_spec key "keywords") as [->|Hk].
    + destruct (get "keywords" x) as [o|]; cbn [andb bind]; [|reflexivity].
      destruct (as_list o); cbn [bind]; [|reflexivity].
      destruct (as_list value); reflexivity.
    + cbn [andb]. destruct (get key x); reflexivity.
Qed.

Lemma update_industry_loop (data new_data industries new_industries : document) :
  get "industries" data = Some (JDict industries) ->
  get "industries" new_data = Some (JDict new_industries) ->
  update_industry_data data new_data
  = (merged <- foldM (Aux.set_loop Aux.industry_step) new_industries industries ;;
     Ok (set "industries" (JDict merged) data)).
Proof.
  intros Hd Hn. unfold update_industry_data. rewrite Hn. cbn [as_dict bind].
  clear Hn. revert data industries Hd.
  induction new_industries as [|[industry_id industry_info] l IH];
    intros data industries Hd.
  - cbn. now rewrite (set_same data "industries" _ Hd).
  - cbn [foldM]. unfold lookup at 1. rewrite Hd. cbn [bind as_dict].
    unfold Aux.set_loop at 1. cbn [fst snd]. unfold Aux.industry_step.
    assert (Hnext : forall v,
               foldM
                 (fun data0 kv =>
                    let '(industry_id0, industry_info0) := kv in
                    industries_j <- lookup "industries" data0 ;;
                    industries0 <- as_dict industries_j ;;
                    match get industry_id0 industries0 with
                    | Some existing =>
                        existing0 <- as_dict existing ;;
                        info <- as_dict industry_info0 ;;
                        merged <- merge_industry existing0 info ;;
                        Ok (set "industries"
                              (JDict (set industry_id0 (JDict merged) industries0))
                              data0)
                    | None =>
                        Ok (set "industries"
                              (JDict (set industry_id0 industry_info0 industries0))
                              data0)
                    end)
                 l (set "industries" (JDict (set industry_id v industries)) data)
               = (merged <- foldM (Aux.set_loop Aux.industry_step) l
                              (set industry_id v industries) ;;
                  Ok (set "industries" (JDict merged) data))).
    { intros v. rewrite (IH _ (set industry_id v industries)) by apply get_set_same.
      destruct (foldM _ l _); cbn [bind]; [|reflexivity]. now rewrite set_set. }
    destruct (get industry_id industries) as [existing|]; [|cbn [bind]; apply Hnext].
    destruct (as_dict existing); cbn [bind]; [|reflexivity].
    destruct (as_dict industry_info); cbn [bind]; [|reflexivity].
    destruct (merge_industry _ _); cbn [bind]; [apply Hnext | reflexivity].
Qed.

(** *** What the loops leave, key by key *)

Lemma merge_sub_industries_after (subs new_subs merged : document) :
  NoDup (keys new_subs) ->
  merge_sub_industries subs new_subs = Ok merged ->
  forall sub_id, Reference.sub_industry_after subs new_subs merged sub_id.
Proof.
  intros Hnd H sub_id. rewrite merge_sub_industries_loop in H.
  pose proof (foldM_set_loop _ _ _ _ Hnd H sub_id) as Hk.
  unfold Reference.sub_industry_after.
  destruct (get sub_id new_subs) as [sub_info|]; [|exact Hk].
  destruct Hk as (v & Hstep & Hv). unfold Aux.sub_industry_step in Hstep.
  destruct (get sub_id subs) as [old|].
  - destruct old as [| | | |old_fields]; cbn [as_dict bind] in Hstep; try discriminate.
    destruct sub_info as [| | | |new_fields]; cbn [as_dict bind] in Hstep;
      try discriminate.
    injection Hstep as <-. exists old_fields, new_fields. auto.
  - injection Hstep as <-. exact Hv.
Qed.

Lemma merge_industry_after (ex fields merged : document) :
  NoDup (keys fields) ->
  merge_industry ex fields = Ok merged ->
  forall field, Reference.industry_field_after ex fields merged field.
Proof.
  intros Hnd H field. rewrite merge_industry_loop in H.
  pose proof (foldM_set_loop _ _ _ _ Hnd H field) as Hk.
  unfold Reference.industry_field_after.
  destruct (get field fields) as [value|]; [|exact Hk].
  destruct Hk as (v & Hstep & Hv). unfold Aux.field_step in Hstep.
  destruct (get field ex) as [old|]; [|injection Hstep as <-; exact Hv].
  destruct (String.eqb field "sub_industries").
  - destruct old as [| | | |subs]; cbn [as_dict bind] in Hstep; try discriminate.
    destruct value as [| | | |new_subs]; cbn [as_dict bind] in Hstep; try discriminate.
    destruct (merge_sub_industries subs new_subs) as [m|] eqn:Hm; cbn [bind] in Hstep;
      [|discriminate].
    injection Hstep as <-. exists subs, new_subs, m. repeat split; [exact Hv|].
    intros Hnd'. now apply merge_sub_industries_after.
  - destruct (String.eqb field "keywords").
    + destruct old as [| | |old_keywords|]; cbn [as_list bind] in Hstep;
        try discriminate.
      destruct value as [| | |new_keywords|]; cbn [as_list bind] in Hstep;
        try discriminate.
      injection Hstep as <-. exists old_keywords, new_keywords. auto.
    + injection Hstep as <-. exact Hv.
Qed.

Lemma update_industry_data_after
      (data new_data industries new_industries d : document) :
  get "industries" data = Some (JDict industries) ->
  get "industries" new_data = Some (JDict new_industries) ->
  NoDup (keys new_industries) ->
  update_industry_data data new_data = Ok d ->
  exists industries',
    d = set "industries" (JDict industries') data
    /\ forall industry_id,
        Reference.industry_after industries new_industries industries' industry_id.
Proof.
  intros Hd Hn Hnd H. rewrite (update_industry_loop _ _ _ _ Hd Hn) in H.
  destruct (foldM (Aux.set_loop Aux.industry_step) new_industries industries)
    as [m|] eqn:Hm; cbn [bind] in H;
    [|discriminate].
  injection H as <-. exists m. split; [reflexivity|]. intros industry_id.
  pose proof (foldM_set_loop _ _ _ _ Hnd Hm industry_id) as Hk.
  unfold Reference.industry_after.
  destruct (get industry_id new_industries) as [industry_info|]; [|exact Hk].
  destruct Hk as (v & Hstep & Hv). unfold Aux.industry_step in Hstep.
  destruct (get industry_id industries) as [existing|];
    [|injection Hstep as <-; exact Hv].
  destruct existing as [| | | |ex]; cbn [as_dict bind] in Hstep; try discriminate.
  destruct industry_info as [| | | |fields]; cbn [as_dict bind] in Hstep;
    try discriminate.
  destruct (merge_industry ex fields) as [ex'|] eqn:He; cbn [bind] in Hstep;
    [|discriminate].
  injection Hstep as <-. exists ex, fields, ex'. repeat split; [exact Hv|].
  intros Hnd'. now apply merge_industry_after.
Qed.

Lemma merge_category_after (fields entries : document) (merged : json) :
  merge_category (JDict fields) (JDict entries) = Ok merged ->
  exists fields',
    merged = JDict fields'
    /\ (NoDup (keys entries) ->
        forall key, Reference.entry_after fields entries fields' key).
Proof.
  rewrite merge_category_loop.
  destruct (foldM (Aux.set_loop Aux.entry_step) entries fields) as [m|] eqn:Hm;
    cbn [bind]; [|discriminate].
  intros [= <-]. exists m. split; [reflexivity|]. intros Hnd key.
  pose proof (foldM_set_loop _ _ _ _ Hnd Hm key) as Hk.
  unfold Reference.entry_after.
  destruct (get key entries) as [value|]; [|exact Hk].
  destruct Hk as (v & Hstep & ->). unfold Aux.entry_step in Hstep.
  destruct (get key fields) as [[| | | |old]|]; destruct value as [| | | |new];
    now injection Hstep as <-.
Qed.

Lemma update_data_after (data new_data d : document) :
  NoDup (keys new_data) ->
  update_data data new_data = Ok d ->
  forall category, Reference.category_after data new_data d category.
Proof.
  intros Hnd H category. rewrite update_data_loop in H.
  pose proof (foldM_set_loop _ _ _ _ Hnd H category) as Hk.
  unfold Reference.category_after.
  destruct (get category new_data) as [category_data|]; [|exact Hk].
  destruct Hk as (v & Hstep & Hv). unfold Aux.category_step in Hstep.
  destruct (get category data) as [existing|]; [|injection Hstep as <-; exact Hv].
  destruct category_data as [| | |items|entries].
  - cbn in Hstep. now injection Hstep as <-.
  - cbn in Hstep. now injection Hstep as <-.
  - cbn in Hstep. now injection Hstep as <-.
  - cbn [merge_category] in Hstep.
    destruct existing as [| | |old|]; cbn [as_list bind] in Hstep; try discriminate.
    injection Hstep as <-. now exists old.
  - destruct entries as [|e entries].
    + cbn in Hstep. now injection Hstep as <-.
    + destruct existing as [| | | |fields];
        try (destruct e; cbn in Hstep; discriminate).
      apply merge_category_after in Hstep as (fields' & -> & Hf).
      now exists fields, fields'.
Qed.

(** *** When the loops return *)

Lemma merge_sub_industries_returns (subs new_subs : document) :
  NoDup (keys new_subs) ->
  (forall sub_id, Reference.sub_industry_fits subs new_subs sub_id) ->
  exists merged, merge_sub_industries subs new_subs = Ok merged.
Proof.
  intros Hnd Hfit. rewrite merge_sub_industries_loop.
  apply foldM_set_loop_returns; [exact Hnd|]. intros k w Hk.
  specialize (Hfit k). unfold Reference.sub_industry_fits in Hfit. rewrite Hk in Hfit.
  unfold Aux.sub_industry_step. destruct (get k subs) as [old|]; [|eauto].
  destruct Hfit as ((o & ->) & (n & ->)). cbn. eauto.
Qed.

Lemma merge_industry_returns (ex fields : document) :
  NoDup (keys fields) ->
  (forall field, Reference.industry_field_fits ex fields field) ->
  exists merged, merge_industry ex fields = Ok merged.
Proof.
  intros Hnd Hfit. rewrite merge_industry_loop.
  apply foldM_set_loop_returns; [exact Hnd|]. intros k w Hk.
  specialize (Hfit k). unfold Reference.industry_field_fits in Hfit.
  rewrite Hk in Hfit. unfold Aux.field_step.
  destruct (get k ex) as [old|]; [|eauto].
  destruct (String.eqb k "sub_industries").
  - destruct Hfit as (subs & new_subs & -> & -> & Hnd' & Hsub). cbn [as_dict bind].
    destruct (merge_sub_industries_returns subs new_subs Hnd' Hsub) as [m ->].
    cbn. eauto.
  - destruct (String.eqb k "keywords"); [|eauto].
    destruct Hfit as ((o & ->) & (n & ->)). cbn. eauto.
Qed.

Lemma update_industry_data_returns
      (data new_data industries new_industries : document) :
  get "industries" data = Some (JDict industries) ->
  get "industries" new_data = Some (JDict new_industries) ->
  NoDup (keys new_industries) ->
  (forall industry_id,
      Reference.industry_fits industries new_industries industry_id) ->
  exists d, update_industry_data data new_data = Ok d.
Proof.
  intros Hd Hn Hnd Hfit. rewrite (update_industry_loop _ _ _ _ Hd Hn).
  destruct (foldM_set_loop_returns Aux.industry_step new_industries industries Hnd)
    as [m ->]; [|cbn; eauto].
  intros k w Hk. specialize (Hfit k). unfold Reference.industry_fits in Hfit.
  rewrite Hk in Hfit. unfold Aux.industry_step.
  destruct (get k industries) as [existing|]; [|eauto].
  destruct Hfit as (ex & fields & -> & -> & Hnd' & Hf). cbn [as_dict bind].
  destruct (merge_industry_returns ex fields Hnd' Hf) as [m ->]. cbn. eauto.
Qed.

Lemma update_data_returns (data new_data : document) :
  NoDup (keys new_data) ->
  (forall category, Reference.category_fits data new_data category) ->
  exists d, update_data data new_data = Ok d.
Proof.
  intros Hnd Hfit. rewrite update_data_loop.
  apply foldM_set_loop_returns; [exact Hnd|]. intros k w Hk.
  specialize (Hfit k). unfold Reference.category_fits in Hfit. rewrite Hk in Hfit.
  unfold Aux.category_step. destruct (get k data) as [existing|]; [|eauto].
  destruct w as [| | |items|entries]; try (cbn; eauto; fail).
  - destruct Hfit as (old & ->). cbn. eauto.
  - destruct entries as [|e entries]; [cbn; eauto|].
    destruct Hfit as (fields & ->). rewrite merge_category_loop.
    destruct (foldM_set_loop_total Aux.entry_step (e :: entries) fields) as [m ->];
      [|cbn; eauto].
    intros key old value. unfold Aux.entry_step.
    destruct old as [[| | | |o]|]; destruct value; eauto.
Qed.

End UpdateFacts.

(** C9, as the code has it, for every update document. The supplied
    dictionaries are Python dictionaries, so each has its keys once
    ([NoDup]).

    [update_industry_data] touches only the industries, and nothing when
    the document has no industries. An industry that is not supplied is
    left as it was, a new one is added, and an existing one is merged
    field by field ([Reference.industry_after]): its keyword list is
    extended with those supplied keywords that are not already in it, so a
    keyword that is supplied again is not duplicated; a supplied
    sub-industry is merged into an existing one with [dict.update], each
    supplied field replacing the field of that name; any other supplied
    field replaces the field.

    [update_size_data] and [update_role_data] leave a category that is not
    supplied as it was and add a new one ([Reference.category_after]). A
    supplied dictionary is merged entry by entry into an existing category:
    a supplied dictionary entry is merged into an existing dictionary entry
    with [dict.update], each supplied field, a list included, replacing
    the field of that name, and any other entry is replaced. Only a
    category that is itself a list is extended, by concatenation without
    deduplication.

    The operations return whenever the stored and the supplied values have
    the shapes the loops expect ([Reference.industry_fits],
    [Reference.category_fits]). The last five parts give the whole document
    after an update that supplies a single element. *)
Theorem update_merge_behaviour :
  (forall (data new_data industries new_industries : Json.document),
      get "industries" data = Some (Json.JDict industries) ->
      get "industries" new_data = Some (Json.JDict new_industries) ->
      NoDup (keys new_industries) ->
      ((forall industry_id,
           Reference.industry_fits industries new_industries industry_id) ->
       exists d, Json.update_industry_data data new_data = Ok d)
      /\ (forall d,
            Json.update_industry_data data new_data = Ok d ->
            exists industries',
              d = set "industries" (Json.JDict industries') data
              /\ forall industry_id,
                  Reference.industry_after industries new_industries industries'
                    industry_id))
  /\ (forall (data new_data : Json.document),
         get "industries" new_data = None ->
         Json.update_industry_data data new_data = Ok data)
  /\ (forall (data new_data : Json.document),
         NoDup (keys new_data) ->
         ((forall category, Reference.category_fits data new_data category) ->
          (exists d, Json.update_size_data data new_data = Ok d)
          /\ (exists d, Json.update_role_data data new_data = Ok d))
         /\ (forall d,
               Json.update_size_data data new_data = Ok d ->
               forall category, Reference.category_after data new_data d category)
         /\ (forall d,
               Json.update_role_data data new_data = Ok d ->
               forall category, Reference.category_after data new_data d category))
  /\ (forall (old_fields fields : Json.document) (field : string),
         NoDup (keys fields) ->
         get field (update old_fields fields)
         = match get field fields with
           | Some v => Some v
           | None => get field old_fields
           end)
  /\ (forall (old new : list Json.json) (s : string),
         In (Json.JStr s) old ->
         Json.occurrences s (Reference.merged_keywords old new)
         = Json.occurrences s old)
  /\ (forall (data industries ex : Json.document) (industry_id : string)
             (old new : list Json.json),
         get "industries" data = Some (Json.JDict industries) ->
         get industry_id industries = Some (Json.JDict ex) ->
         get "keywords" ex = Some (Json.JList old) ->
         let merged := old ++ filter (fun kw => negb (Json.contains old kw)) new in
         Json.update_industry_data data
           [("industries",
             Json.JDict [(industry_id, Json.JDict [("keywords", Json.JList new)])])]
         = Ok (set "industries"
                 (Json.JDict
                    (set industry_id
                       (Json.JDict (set "keywords" (Json.JList merged) ex)) industries))
                 data)
         /\ forall s, In (Json.JStr s) old ->
                      Json.occurrences s merged = Json.occurrences s old)
  /\ (forall (data industries ex subs old_sub fields : Json.document)
             (industry_id sub_id : string),
         get "industries" data = Some (Json.JDict industries) ->
         get industry_id industries = Some (Json.JDict ex) ->
         get "sub_industries" ex = Some (Json.JDict subs) ->
         get sub_id subs = Some (Json.JDict old_sub) ->
         Json.update_industry_data data
           [("industries",
             Json.JDict
               [(industry_id,
                 Json.JDict
                   [("sub_industries",
                     Json.JDict [(sub_id, Json.JDict fields)])])])]
         = Ok (set "industries"
                 (Json.JDict
                    (set industry_id
                       (Json.JDict
                          (set "sub_industries"
                             (Json.JDict
                                (set sub_id (Json.JDict (update old_sub fields)) subs))
                             ex))
                       industries))
                 data))
  /\ (forall (data industries ex : Json.document) (industry_id field : string)
             (v : Json.json),
         get "industries" data = Some (Json.JDict industries) ->
         get industry_id industries = Some (Json.JDict ex) ->
         field <> "sub_industries" -> field <> "keywords" ->
         Json.update_industry_data data
           [("industries", Json.JDict [(industry_id, Json.JDict [(field, v)])])]
         = Ok (set "industries"
                 (Json.JDict (set industry_id (Json.JDict (set field v ex)) industries))
                 data))
  /\ (forall (data entries old_fields fields : Json.document)
             (category key : string),
         get category data = Some (Json.JDict entries) ->
         get key entries = Some (Json.JDict old_fields) ->
         let result :=
           set category
             (Json.JDict (set key (Json.JDict (update old_fields fields)) entries))
             data in
         Json.update_size_data data [(category, Json.JDict [(key, Json.JDict fields)])]
         = Ok result
         /\ Json.update_role_data data [(category, Json.JDict [(key, Json.JDict fields)])]
            = Ok result)
  /\ (forall (data : Json.document) (category : string) (old new : list Json.json),
         get category data = Some (Json.JList old) ->
         Json.update_size_data data [(category, Json.JList new)]
         = Ok (set category (Json.JList (old ++ new)) data)
         /\ Json.update_role_data data [(category, Json.JList new)]
            = Ok (set category (Json.JList (old ++ new)) data)).
Proof.
  split; [|split; [|split; [|split; [|split; [|split; [|split; [|split; [|split]]]]]]]].
  - intros data new_data industries new_industries Hd Hn Hnd. split.
    + now apply (update_industry_data_returns data new_data industries new_industries).
    + intros d. now apply update_industry_data_after.
  - intros data new_data Hn. unfold Json.update_industry_data. now rewrite Hn.
  - intros data new_data Hnd. split; [|split].
    + intros Hfit. split; now apply update_data_returns.
    + intros d. now apply update_data_after.
    + intros d. now apply update_data_after.
  - intros old_fields fields field. apply get_update.
  - intros old new s. apply merged_keywords_occurrences.
  - intros data industries ex industry_id old new Hd Hi Hk merged. split.
    + unfold Json.update_industry_data. cbn [get String.eqb Ascii.eqb Bool.eqb].
      cbn [Json.as_dict bind Json.foldM]. unfold lookup. rewrite Hd.
      cbn [bind Json.as_dict]. rewrite Hi. cbn [bind Json.as_dict].
      unfold Json.merge_industry. cbn [Json.foldM bind].
      change (String.eqb "keywords" "sub_industries") with false. cbn [andb].
      rewrite String.eqb_refl. unfold mem, lookup. rewrite Hk.
      cbn [andb bind Json.as_list]. reflexivity.
    + intros s Hs. now apply merged_keywords_occurrences.
  - intros data industries ex subs old_sub fields industry_id sub_id Hd Hi Hs Ho.
    unfold Json.update_industry_data. cbn [get String.eqb Ascii.eqb Bool.eqb].
    cbn [Json.as_dict bind Json.foldM]. unfold lookup. rewrite Hd.
    cbn [bind Json.as_dict]. rewrite Hi. cbn [bind Json.as_dict].
    unfold Json.merge_industry. cbn [Json.foldM bind].
    rewrite String.eqb_refl. unfold mem, lookup. rewrite Hs.
    cbn [andb bind Json.as_dict]. unfold Json.merge_sub_industries.
    cbn [Json.foldM bind]. rewrite Ho. cbn [bind Json.as_dict].
    reflexivity.
  - intros data industries ex industry_id field v Hd Hi Hns Hnk.
    unfold Json.update_industry_data. cbn [get String.eqb Ascii.eqb Bool.eqb].
    cbn [Json.as_dict bind Json.foldM]. unfold lookup. rewrite Hd.
    cbn [bind Json.as_dict]. rewrite Hi. cbn [bind Json.as_dict].
    unfold Json.merge_industry. cbn [Json.foldM bind].
    destruct (String.eqb_spec field "sub_industries"); [contradiction|].
    destruct (String.eqb_spec field "keywords"); [contradiction|].
    cbn [andb bind]. reflexivity.
  - intros data entries old_fields fields category key Hc Hk result.
    assert (H : Json.update_data data [(category, Json.JDict [(key, Json.JDict fields)])]
                = Ok result).
    { unfold Json.update_data. cbn [Json.foldM bind]. rewrite Hc.
      unfold Json.merge_category. cbn [Json.foldM bind Json.as_dict].
      rewrite Hk. reflexivity. }
    split; exact H.
  - intros data category old new Hc.
    assert (H : Json.update_data data [(category, Json.JList new)]
                = Ok (set category (Json.JList (old ++ new)) data)).
    { unfold Json.update_data. cbn [Json.foldM bind]. rewrite Hc. reflexivity. }
    split; exact H.
Qed.

Lemma update_merge_behaviour_witness :
  (exists d,
      Json.update_role_data
        [("organizational_roles",
          Json.JDict
            [("executive",
              Json.JDict [("name", Json.JStr "Executive");
                          ("keywords", Json.of_strings ["CEO"; "CFO"])]);
             ("manager", Json.JDict [("keywords", Json.of_strings ["manager"])])]);
         ("tags", Json.of_strings ["reviewed"])]
        [("tags", Json.of_strings ["reviewed"]);
         ("functional_roles", Json.JDict []);
         ("organizational_roles",
          Json.JDict
            [("manager", Json.JDict [("name", Json.JStr "Manager")]);
             ("executive", Json.JDict [("keywords", Json.of_strings ["CEO"])])])]
      = Ok d
      /\ d = [("organizational_roles",
               Json.JDict
                 [("executive",
                   Json.JDict [("name", Json.JStr "Executive");
                               ("keywords", Json.of_strings ["CEO"])]);
                  ("manager",
                   Json.JDict [("keywords", Json.of_strings ["manager"]);
                               ("name", Json.JStr "Manager")])]);
              ("tags", Json.of_strings ["reviewed"; "reviewed"]);
              ("functional_roles", Json.JDict [])]
      /\ forall category,
          Reference.category_after
            [("organizational_roles",
              Json.JDict
                [("executive",
                  Json.JDict [("name", Json.JStr "Executive");
                              ("keywords", Json.of_strings ["CEO"; "CFO"])]);
                 ("manager", Json.JDict [("keywords", Json.of_strings ["manager"])])]);
             ("tags", Json.of_strings ["reviewed"])]
            [("tags", Json.of_strings ["reviewed"]);
             ("functional_roles", Json.JDict []);
             ("organizational_roles",
              Json.JDict
                [("manager", Json.JDict [("name", Json.JStr "Manager")]);
                 ("executive", Json.JDict [("keywords", Json.of_strings ["CEO"])])])]
            d category)
  /\ (exists d industries',
         Json.update_industry_data
           [("industries",
             Json.JDict
               [("retail",
                 Json.JDict
                   [("name", Json.JStr "Retail");
                    ("keywords", Json.of_strings ["retail"; "store"]);
                    ("sub_industries",
                     Json.JDict
                       [("apparel",
                         Json.JDict
                           [("name", Json.JStr "Apparel");
                            ("keywords", Json.of_strings ["clothing"])])])])])]
           [("industries",
             Json.JDict
               [("legal", Json.JDict [("name", Json.JStr "Legal")]);
                ("retail",
                 Json.JDict
                   [("name", Json.JStr "Retail and Commerce");
                    ("sub_industries",
                     Json.JDict
                       [("grocery", Json.JDict [("name", Json.JStr "Grocery")]);
                        ("apparel",
                         Json.JDict [("keywords", Json.of_strings ["fashion"])])]);
                    ("keywords", Json.of_strings ["store"; "outlet"])])])]
         = Ok d
         /\ d = [("industries", Json.JDict industries')]
         /\ industries'
            = [("retail",
                Json.JDict
                  [("name", Json.JStr "Retail and Commerce");
                   ("keywords", Json.of_strings ["retail"; "store"; "outlet"]);
                   ("sub_industries",
                    Json.JDict
                      [("apparel",
                        Json.JDict
                          [("name", Json.JStr "Apparel");
                           ("keywords", Json.of_strings ["fashion"])]);
                       ("grocery", Json.JDict [("name", Json.JStr "Grocery")])])]);
               ("legal", Json.JDict [("name", Json.JStr "Legal")])]
         /\ forall industry_id,
             Reference.industry_after
               [("retail",
                 Json.JDict
                   [("name", Json.JStr "Retail");
                    ("keywords", Json.of_strings ["retail"; "store"]);
                    ("sub_industries",
                     Json.JDict
                       [("apparel",
                         Json.JDict
                           [("name", Json.JStr "Apparel");
                            ("keywords", Json.of_strings ["clothing"])])])])]
               [("legal", Json.JDict [("name", Json.JStr "Legal")]);
                ("retail",
                 Json.JDict
                   [("name", Json.JStr "Retail and Commerce");
                    ("sub_industries",
                     Json.JDict
                       [("grocery", Json.JDict [("name", Json.JStr "Grocery")]);
                        ("apparel",
                         Json.JDict [("keywords", Json.of_strings ["fashion"])])]);
                    ("keywords", Json.of_strings ["store"; "outlet"])])]
               industries' industry_id).
Proof.
  split.
  - eexists. split; [vm_compute; reflexivity|]. split; [reflexivity|].
    refine (proj1 (proj2 (proj1 (proj2 (proj2 update_merge_behaviour)) _ _ _)) _ _).
    + vm_compute. repeat constructor; cbn; intuition discriminate.
    + vm_compute. reflexivity.
  - destruct (proj2 (proj1 update_merge_behaviour
                       [("industries",
                         Json.JDict
                           [("retail",
                             Json.JDict
                               [("name", Json.JStr "Retail");
                                ("keywords", Json.of_strings ["retail"; "store"]);
                                ("sub_industries",
                                 Json.JDict
                                   [("apparel",
                                     Json.JDict
                                       [("name", Json.JStr "Apparel");
                                        ("keywords",
                                         Json.of_strings ["clothing"])])])])])]
                       [("industries",
                         Json.JDict
                           [("legal", Json.JDict [("name", Json.JStr "Legal")]);
                            ("retail",
                             Json.JDict
                               [("name", Json.JStr "Retail and Commerce");
                                ("sub_industries",
                                 Json.JDict
                                   [("grocery",
                                     Json.JDict [("name", Json.JStr "Grocery")]);
                                    ("apparel",
                                     Json.JDict
                                       [("keywords",
                                         Json.of_strings ["fashion"])])]);
                                ("keywords",
                                 Json.of_strings ["store"; "outlet"])])])]
                       _ _ eq_refl eq_refl
                       ltac:(vm_compute; repeat constructor; cbn; intuition discriminate))
                    _ eq_refl) as (industries' & Hd & Hafter).
    eexists. exists industries'. split; [vm_compute; reflexivity|].
    vm_compute in Hd. injection Hd as Hd. split; [now rewrite <- Hd|].
    split; [now rewrite <- Hd|]. exact Hafter.
Defined.

(** C9, as the claim words it, fails: a list element that is supplied again
    does not appear twice afterwards. Each update below supplies several
    elements to the default data. [update_industry_data] adds the new
    retail keyword "outlet" and leaves "store" where it was, once;
    [update_role_data] and [update_size_data] replace the list by the
    supplied one. *)
Lemma resupplied_element_not_duplicated :
  (exists d l,
      Json.update_industry_data (Json.of_industry_data default_industry_data)
        [("industries",
          Json.JDict
            [("technology", Json.JDict [("keywords", Json.of_strings ["quantum"])]);
             ("retail",
              Json.JDict [("name", Json.JStr "Retail and Commerce");
                          ("keywords", Json.of_strings ["outlet"; "store"])])])]
      = Ok d
      /\ Json.list_at (Json.of_industry_data default_industry_data)
           "industries" "retail" "keywords" = Some l
      /\ Json.occurrences "store" l = 1%nat
      /\ Json.list_at d "industries" "retail" "keywords"
         = Some (l ++ [Json.JStr "outlet"])
      /\ Json.occurrences "store" (l ++ [Json.JStr "outlet"]) = 1%nat)
  /\ (exists d,
         Json.update_role_data (Json.of_role_data default_role_data)
           [("functional_roles",
             Json.JDict [("sales", Json.JDict [("name", Json.JStr "Sales Team")])]);
            ("organizational_roles",
             Json.JDict
               [("manager", Json.JDict [("name", Json.JStr "Manager")]);
                ("executive", Json.JDict [("keywords", Json.of_strings ["CEO"])])])]
         = Ok d
         /\ Json.list_at d "organizational_roles" "executive" "keywords"
            = Some [Json.JStr "CEO"])
  /\ (exists d,
         Json.update_size_data (Json.of_size_data default_size_data)
           [("general_thresholds", Json.JDict []);
            ("size_characteristics",
             Json.JDict
               [("medium", Json.JDict [("description", Json.JStr "Medium")]);
                ("small",
                 Json.JDict
                   [("challenges",
                     Json.of_strings ["Limited budget and resources"])])])]
         = Ok d
         /\ Json.list_at d "size_characteristics" "small" "challenges"
            = Some [Json.JStr "Limited budget and resources"]).
Proof.
  split; [|split].
  - eexists. eexists. split; [vm_compute; reflexivity|].
    split; [vm_compute; reflexivity|]. repeat split; vm_compute; reflexivity.
  - eexists. split; [vm_compute; reflexivity|]. vm_compute. reflexivity.
  - eexists. split; [vm_compute; reflexivity|]. vm_compute. reflexivity.
Qed.



(** * Further properties *)

(** ** Letter case and the keyword matcher *)

Section CaseFacts.

Lemma lower_char_not_upper (c : ascii) : Str.is_upper (Str.lower_char c) = false.
Proof. destruct c as [[] [] [] [] [] [] [] []]; reflexivity. Qed.

Lemma lower_char_idem (c : ascii) : Str.lower_char (Str.lower_char c) = Str.lower_char c.
Proof.
  unfold Str.lower_char at 1. now rewrite lower_char_not_upper.
Qed.

Lemma lower_idem (s : string) : Str.lower (Str.lower s) = Str.lower s.
Proof.
  induction s as [|c s IH]; [reflexivity|]. cbn. now rewrite lower_char_idem, IH.
Qed.

Lemma lower_length (s : string) : String.length (Str.lower s) = String.length s.
Proof. induction s as [|c s IH]; [reflexivity|]. cbn. now rewrite IH. Qed.

Lemma lower_truthy (s : string) : Str.truthy (Str.lower s) = Str.truthy s.
Proof. now destruct s. Qed.

Lemma lower_no_upper (s : string) : Aux.has_upper (Str.lower s) = false.
Proof.
  induction s as [|c s IH]; [reflexivity|]. cbn. now rewrite lower_char_not_upper, IH.
Qed.

Lemma has_upper_app (a b : string) :
  Aux.has_upper (a ++ b) = Aux.has_upper a || Aux.has_upper b.
Proof.
  induction a as [|c a IH]; [reflexivity|]. cbn. now rewrite IH, orb_assoc.
Qed.

Lemma join_lower_no_upper (l : list string) :
  Aux.has_upper (Str.join " " (map Str.lower l)) = false.
Proof.
  induction l as [|a l IH]; [reflexivity|]. cbn [map Str.join].
  destruct (map Str.lower l) eqn:E.
  - apply lower_no_upper.
  - rewrite !has_upper_app, lower_no_upper, IH. reflexivity.
Qed.

Lemma corpus_no_upper (description : string) (additional : option (list string)) :
  Aux.has_upper (Industry.corpus description additional) = false.
Proof.
  unfold Industry.corpus. destruct additional as [[|k l]|]; try apply lower_no_upper.
  rewrite !has_upper_app, lower_no_upper, join_lower_no_upper. reflexivity.
Qed.

Lemma has_upper_chars (s : string) :
  Aux.has_upper s = existsb Str.is_upper (list_ascii_of_string s).
Proof. induction s as [|c s IH]; [reflexivity|]. cbn. now rewrite IH. Qed.

Lemma existsb_firstn_skipn {A : Type} (f : A -> bool) (n i : nat) (l : list A) :
  existsb f (firstn n (skipn i l)) = true -> existsb f l = true.
Proof.
  rewrite !existsb_exists. intros (x & Hin & Hx). exists x. split; [|exact Hx].
  rewrite <- (firstn_skipn i l). apply in_or_app. right.
  rewrite <- (firstn_skipn n (skipn i l)). apply in_or_app. now left.
Qed.

(** A keyword with an upper-case letter has no match in a text without. *)
Lemma upper_keyword_no_match (keyword text : string) :
  Aux.has_upper keyword = true -> Aux.has_upper text = false ->
  Regex.findall keyword text = [].
Proof.
  intros Hk Ht. destruct (Regex.findall keyword text) as [|i l] eqn:E; [reflexivity|].
  exfalso. destruct (findall_whole_word keyword text i) as (Hocc & _).
  { rewrite E. now left. }
  rewrite has_upper_chars in Hk, Ht. cbv zeta in Hocc. rewrite <- Hocc in Hk.
  apply existsb_firstn_skipn in Hk. congruence.
Qed.

End CaseFacts.

(** X1. The industry scorer lowers the corpus but not the keywords, so a
    taxonomy keyword that has an upper-case letter never matches: its count
    in the corpus is 0 for every description and every list of additional
    keywords, and the keyword loop scores as if the keyword were absent. *)
Theorem upper_case_keywords_never_match (description : string)
        (additional : option (list string)) (keyword : string) :
  Aux.has_upper keyword = true ->
  let text := Industry.corpus description additional in
  Regex.count keyword text = 0%nat
  /\ (forall kws1 kws2 s,
         Industry.score_keywords text (kws1 ++ keyword :: kws2) s
         = Industry.score_keywords text (kws1 ++ kws2) s)
  /\ (forall kws1 kws2 st,
         Industry.score_sub_keywords text (kws1 ++ keyword :: kws2) st
         = Industry.score_sub_keywords text (kws1 ++ kws2) st).
Proof.
  intros Hk text.
  assert (Hc : Regex.count keyword text = 0%nat).
  { unfold Regex.count.
    now rewrite (upper_keyword_no_match keyword text Hk (corpus_no_upper _ _)). }
  split; [exact Hc|]. split.
  - intros kws1 kws2 s. unfold Industry.score_keywords.
    rewrite !fold_left_app. cbn [fold_left]. now rewrite Hc.
  - intros kws1 kws2 st. unfold Industry.score_sub_keywords.
    rewrite !fold_left_app. cbn [fold_left]. now rewrite Hc.
Qed.

Lemma upper_case_keywords_never_match_witness :
  Aux.has_upper "IT" = true
  /\ Regex.count "IT" (Industry.corpus "Our IT department buys IT services" None) = 0%nat.
Proof.
  split; [reflexivity|].
  exact (proj1 (upper_case_keywords_never_match
                  "Our IT department buys IT services" None "IT" eq_refl)).
Defined.

(** X2. The role scorer lowers each keyword before matching and weighs it
    by its length. For keywords of ASCII characters, whose length lowering
    does not change, the score of a role does not depend on the letter case
    of its keywords. *)
Theorem role_score_ignores_keyword_case (text : string) (kws : list string) :
  Forall (fun keyword => Aux.is_ascii keyword = true) kws ->
  Role._calculate_role_score text (map Str.lower kws)
  = Role._calculate_role_score text kws.
Proof.
  intros _. unfold Role._calculate_role_score. generalize 0%Q as a.
  induction kws as [|k kws IH]; intros a; [reflexivity|].
  cbn [map fold_left]. rewrite IH. unfold Role.keyword_weight.
  now rewrite lower_idem, lower_length.
Qed.

Lemma role_score_ignores_keyword_case_witness :
  Forall (fun keyword => Aux.is_ascii keyword = true) ["Chief"; "EXECUTIVE"]
  /\ Role._calculate_role_score "chief executive officer" ["chief"; "executive"]
     = Role._calculate_role_score "chief executive officer" ["Chief"; "EXECUTIVE"].
Proof.
  assert (H : Forall (fun keyword => Aux.is_ascii keyword = true)
                ["Chief"; "EXECUTIVE"]) by (repeat constructor).
  split; [exact H|].
  exact (role_score_ignores_keyword_case "chief executive officer"
           ["Chief"; "EXECUTIVE"] H).
Defined.

(** X3. The three classifiers ignore the letter case of their text inputs:
    [classify_industry] of the description and the additional keywords,
    [recognize_role] of the job title, the additional information and the
    industry, [analyze_business_size] and [get_size_information] of the
    industry and the size category. *)
Theorem classifiers_ignore_input_case :
  (forall data description additional,
      Industry.classify_industry data (Str.lower description)
        (option_map (map Str.lower) additional)
      = Industry.classify_industry data description additional)
  /\ (forall data job_title additional_info industry,
         Role.recognize_role data (Str.lower job_title)
           (option_map Str.lower additional_info) (option_map Str.lower industry)
         = Role.recognize_role data job_title additional_info industry)
  /\ (forall data industry emp rev adds,
         Size.analyze_business_size data (Str.lower industry) emp rev adds
         = Size.analyze_business_size data industry emp rev adds)
  /\ (forall data size_category,
         Size.get_size_information data (Str.lower size_category)
         = Size.get_size_information data size_category).
Proof.
  split; [|split; [|split]].
  - intros data description additional. unfold Industry.classify_industry.
    replace (Industry.corpus (Str.lower description)
               (option_map (map Str.lower) additional))
      with (Industry.corpus description additional); [reflexivity|].
    unfold Industry.corpus. rewrite lower_idem.
    destruct additional as [[|k l]|]; cbn [option_map map]; try reflexivity.
    rewrite lower_idem, map_map.
    now rewrite (map_ext _ _ (fun s => lower_idem s)).
  - intros data job_title additional_info industry. unfold Role.recognize_role.
    rewrite lower_idem.
    replace (Role.industry_roles data (option_map Str.lower industry))
      with (Role.industry_roles data industry).
    2:{ unfold Role.industry_roles. destruct industry as [i|]; [|reflexivity].
        cbn [option_map]. now rewrite lower_truthy, lower_idem. }
    replace (match option_map Str.lower additional_info with
             | Some info => if Str.truthy info then Str.lower info else ""
             | None => ""
             end)
      with (match additional_info with
            | Some info => if Str.truthy info then Str.lower info else ""
            | None => ""
            end); [reflexivity|].
    destruct additional_info as [i|]; [|reflexivity].
    cbn [option_map]. now rewrite lower_truthy, lower_idem.
  - intros data industry emp rev adds. unfold Size.analyze_business_size.
    now rewrite lower_idem.
  - intros data size_category. unfold Size.get_size_information.
    now rewrite lower_idem.
Qed.

(** ** Matches do not overlap *)

Section Overlap.

Import Regex.

Lemma is_prefix_length (k t : list ascii) :
  is_prefix k t = true -> (List.length k <= List.length t)%nat.
Proof.
  revert t. induction k as [|a k IH]; intros [|b t] H; cbn in *; try lia; try discriminate.
  apply andb_prop in H as [_ H]. apply IH in H. lia.
Qed.

Lemma scan_room (k : list ascii) (prev : option ascii) (skip pos : nat)
      (t : list ascii) :
  k <> [] -> (skip <= List.length t)%nat ->
  (List.length k * List.length (scan k prev skip pos t) + skip <= List.length t)%nat.
Proof.
  intros Hk. revert prev skip pos.
  induction t as [|c t IH]; intros prev skip pos Hs.
  - cbn in Hs. assert (skip = 0)%nat as -> by lia. cbn [scan].
    unfold match_here. destruct k as [|a k]; [congruence|].
    cbn [is_prefix]. rewrite andb_false_r. cbn. lia.
  - cbn [scan]. destruct skip as [|s].
    + destruct (match_here prev k (c :: t)) eqn:M.
      * unfold match_here in M. apply andb_prop in M as [M _].
        apply andb_prop in M as [_ M]. apply is_prefix_length in M.
        cbn [List.length] in *.
        specialize (IH (Some c) (pred (List.length k)) (S pos)).
        destruct k as [|a k]; [congruence|]. cbn [List.length pred] in *.
        specialize (IH ltac:(lia)). nia.
      * specialize (IH (Some c) 0%nat (S pos) ltac:(lia)). cbn [List.length]. lia.
    + cbn [List.length] in *. specialize (IH (Some c) s (S pos) ltac:(lia)). lia.
Qed.

End Overlap.

Lemma list_ascii_length (s : string) :
  List.length (list_ascii_of_string s) = String.length s.
Proof. induction s as [|c s IH]; [reflexivity|]. cbn. now rewrite IH. Qed.

(** X4. The matches that are counted do not overlap: for a keyword that is
    not empty, the count times the length of the keyword is at most the
    length of the text. In particular nothing is counted in an empty text,
    or in a text shorter than the keyword. *)
Theorem counted_matches_fit (keyword text : string) :
  keyword <> "" ->
  (Regex.count keyword text * String.length keyword <= String.length text)%nat.
Proof.
  intros Hk. unfold Regex.count, Regex.findall.
  pose proof (scan_room (list_ascii_of_string keyword) None 0 0
                (list_ascii_of_string text)) as H.
  rewrite !list_ascii_length in H.
  assert (Hne : list_ascii_of_string keyword <> []).
  { destruct keyword; [congruence | discriminate]. }
  specialize (H Hne ltac:(lia)). lia.
Qed.

Lemma counted_matches_fit_witness :
  "a a" <> ""
  /\ (Regex.count "a a" "a a a a a" * 3 <= 9)%nat
  /\ Regex.count "a a" "a a a a a" = 2%nat.
Proof.
  split; [discriminate|]. split; [|reflexivity].
  exact (counted_matches_fit "a a" "a a a a a" ltac:(discriminate)).
Defined.

(** ** What [classify_industry] reports *)

Section ClassifyParts.

Local Open Scope Q_scope.

Lemma mapM_Forall2 {A B : Type} (f : A -> py_result B) (l : list A) (bs : list B) :
  mapM f l = Ok bs -> Forall2 (fun a b => f a = Ok b) l bs.
Proof.
  revert bs. induction l as [|a l IH]; intros bs; cbn.
  - intros [= <-]. constructor.
  - destruct (f a) as [b|e] eqn:Ea; cbn; [|discriminate].
    destruct (mapM f l) as [bs'|e] eqn:El; cbn; [|discriminate].
    intros [= <-]. constructor; [exact Ea | now apply IH].
Qed.

Lemma Forall2_In_r {A B : Type} (R : A -> B -> Prop) (l : list A) (l' : list B) (b : B) :
  Forall2 R l l' -> In b l' -> exists a, In a l /\ R a b.
Proof.
  induction 1 as [|x y l l' Hxy _ IH]; intros Hin; [contradiction|].
  destruct Hin as [<-|Hin].
  - exists x. split; [now left | exact Hxy].
  - destruct (IH Hin) as (a & Ha & Hr). exists a. split; [now right | exact Hr].
Qed.

(** The steps of [classify_industry], read back from a result. *)
Lemma classify_industry_inv (data : Industry.industry_data)
      (description : string) (additional : option (list string))
      (r : Industry.classification) :
  NoDup (keys data) ->
  Industry.classify_industry data description additional = Ok r ->
  let text := Industry.corpus description additional in
  let scores := Reference.industry_scores data text in
  let subs := Reference.sub_industry_scores data text in
  exists info,
    get (Industry.id (Industry.primary_industry r)) data = Some info
    /\ Industry.entry_name (Industry.primary_industry r) = Industry.name info
    /\ Industry._get_top_sub_industry data
         (Industry.id (Industry.primary_industry r)) subs
       = Ok (Industry.sub_industry_result r)
    /\ Industry.matches data scores subs = Ok (Industry.all_matches r)
    /\ (Num.any (values scores) = false ->
        Industry.id (Industry.primary_industry r) = "technology")
    /\ (Num.any (values scores) = true ->
        Num.max_key scores = Ok (Industry.id (Industry.primary_industry r))).
Proof.
  intros Hnd. unfold Industry.classify_industry.
  rewrite (score_all_map _ data Hnd).
  set (text := Industry.corpus description additional).
  set (scores := Reference.industry_scores data text).
  set (subs := Reference.sub_industry_scores data text).
  intros H. cbv zeta.
  destruct (Num.any (values scores)) eqn:Hany; cbn [negb bind] in H.
  - destruct (Num.max_key scores) as [w|] eqn:Hmax; cbn [bind] in H; [|discriminate].
    destruct (Industry._get_top_sub_industry data w subs) as [e|] eqn:He;
      cbn [bind] in H; [|discriminate].
    destruct (lookup w data) as [info|] eqn:Hl; cbn [bind] in H; [|discriminate].
    destruct (Industry.matches data scores subs) as [m|] eqn:Hm;
      cbn [bind] in H; [|discriminate].
    injection H as <-. cbn. exists info. apply lookup_Ok in Hl.
    repeat split; auto; discriminate.
  - destruct (Industry._get_top_sub_industry data "technology" subs) as [e|] eqn:He;
      cbn [bind] in H; [|discriminate].
    destruct (lookup "technology" data) as [info|] eqn:Hl; cbn [bind] in H; [|discriminate].
    destruct (Industry.matches data scores subs) as [m|] eqn:Hm;
      cbn [bind] in H; [|discriminate].
    injection H as <-. cbn. exists info. apply lookup_Ok in Hl.
    repeat split; auto; discriminate.
Qed.

Lemma industry_scores_value (data : Industry.industry_data) (text : string)
      (k : string) (info : Industry.industry) :
  get k data = Some info ->
  Num.value_of (Reference.industry_scores data text) k
  == Reference.industry_score text info.
Proof.
  intros H. unfold Num.value_of, Reference.industry_scores.
  rewrite (get_map_values (fun i => fst (Industry.score_industry text i))), H.
  cbn. apply score_industry_closed.
Qed.

End ClassifyParts.

(** X5. On a dictionary of industries, every entry of [all_matches] carries
    the name of its industry and, as its score, the number of occurrences of
    the industry's own keywords plus half the number of occurrences of the
    keywords of its sub-industries. *)
Theorem all_matches_scores (data : Industry.industry_data)
        (description : string) (additional : option (list string))
        (r : Industry.classification) :
  NoDup (keys data) ->
  Industry.classify_industry data description additional = Ok r ->
  forall industry_id m,
    In (industry_id, m) (Industry.all_matches r) ->
    exists info,
      get industry_id data = Some info
      /\ Industry.match_name m = Industry.name info
      /\ (Industry.match_score m
          == Reference.industry_score (Industry.corpus description additional) info)%Q
      /\ (0 < Industry.match_score m)%Q.
Proof.
  intros Hnd Hr industry_id m Hin.
  destruct (classify_industry_inv data description additional r Hnd Hr)
    as (_ & _ & _ & _ & Hm & _).
  unfold Industry.matches in Hm. apply mapM_Forall2 in Hm.
  destruct (Forall2_In_r _ _ _ _ Hm Hin) as (kv & Hkv & Hf).
  apply filter_In in Hkv as [Hkv Hpos]. apply Qltb_lt in Hpos.
  destruct (lookup (fst kv) data) as [info|] eqn:Hl; cbn [bind] in Hf; [|discriminate].
  destruct (lookup (fst kv) (Reference.sub_industry_scores _ _)) as [ss|];
    cbn [bind] in Hf; [|discriminate].
  destruct (Industry.sub_matches info ss) as [sm|]; cbn [bind] in Hf; [|discriminate].
  injection Hf as <- <-. apply lookup_Ok in Hl. exists info. cbn.
  split; [exact Hl|]. split; [reflexivity|]. split; [|exact Hpos].
  rewrite <- (industry_scores_value data _ (fst kv) info Hl).
  unfold Num.value_of. rewrite (NoDup_get _ (fst kv) (snd kv)).
  - reflexivity.
  - now rewrite scores_keys.
  - now destruct kv.
Qed.

Lemma all_matches_scores_witness :
  exists r m,
    Industry.classify_industry default_industry_data "retail retail cloud" None = Ok r
    /\ In ("retail", m) (Industry.all_matches r)
    /\ (Industry.match_score m == 2)%Q.
Proof.
  assert (H : exists r m,
             Industry.classify_industry default_industry_data "retail retail cloud" None
             = Ok r
             /\ In ("retail", m) (Industry.all_matches r)).
  { eexists. eexists. split; [vm_compute; reflexivity|]. left. reflexivity. }
  destruct H as (r & m & Hr & Hin). exists r, m. split; [exact Hr|]. split; [exact Hin|].
  destruct (all_matches_scores default_industry_data "retail retail cloud" None r
              default_industry_data_dict Hr "retail" m Hin)
    as (info & Hinfo & _ & Hscore & _).
  vm_compute in Hinfo. injection Hinfo as <-. rewrite Hscore. reflexivity.
Defined.

(** X6. When some keyword occurs, the primary industry is the first entry of
    the taxonomy, in its order, whose weighted number of keyword occurrences
    is the greatest: every entry before it has strictly fewer, no entry
    after it has more. *)
Theorem primary_is_first_greatest (data : Industry.industry_data)
        (description : string) (additional : option (list string))
        (r : Industry.classification) :
  NoDup (keys data) ->
  Industry.classify_industry data description additional = Ok r ->
  let text := Industry.corpus description additional in
  (exists industry_id info,
      In (industry_id, info) data /\ Reference.has_hit text info) ->
  exists before info after,
    data = before ++ (Industry.id (Industry.primary_industry r), info) :: after
    /\ (forall e, In e before ->
           (Reference.industry_score text (snd e) < Reference.industry_score text info)%Q)
    /\ (forall e, In e after ->
           (Reference.industry_score text (snd e) <= Reference.industry_score text info)%Q).
Proof.
  intros Hnd Hr text Hhit.
  destruct (classify_industry_inv data description additional r Hnd Hr)
    as (info & Hinfo & _ & _ & _ & _ & Hmax).
  fold text in Hmax. set (scores := Reference.industry_scores data text) in *.
  set (w := Industry.id (Industry.primary_industry r)) in *.
  assert (Hany : Num.any (values scores) = true).
  { apply (any_true_sum_pos _ (scores_nonneg data text)).
    apply (total_pos_iff_hit text data Hnd) in Hhit.
    now rewrite (score_all_map text data Hnd) in Hhit. }
  specialize (Hmax Hany).
  assert (Hne : scores <> []) by (intros E; rewrite E in Hmax; discriminate).
  destruct (max_key_spec scores Hne) as (w' & k1 & k2 & Hw' & Hk & Hlt & Hle).
  rewrite Hmax in Hw'. injection Hw' as <-.
  unfold scores in Hk. rewrite scores_keys in Hk. unfold keys in Hk.
  apply map_eq_app in Hk as (before & rest & Hdata & Hb & Hrest).
  destruct rest as [|[w0 info0] after]; [discriminate|].
  cbn in Hrest. injection Hrest as Hw0 Hafter. subst w0.
  assert (Hinfo0 : info0 = info).
  { assert (Hg : get w data = Some info0).
    { apply NoDup_get; [exact Hnd|]. rewrite Hdata. apply in_or_app. right. now left. }
    congruence. }
  subst info0. exists before, info, after. split; [exact Hdata|].
  assert (Hval : forall e, In e data ->
            (Num.value_of scores (fst e) == Reference.industry_score text (snd e))%Q).
  { intros [k i] He. apply industry_scores_value. now apply NoDup_get. }
  assert (Hvw : (Num.value_of scores w == Reference.industry_score text info)%Q)
    by now apply industry_scores_value.
  split.
  - intros e He. rewrite <- Hvw, <- Hval.
    + apply Hlt. rewrite <- Hb. now apply in_map.
    + rewrite Hdata. apply in_or_app. now left.
  - intros e He. rewrite <- Hvw, <- Hval.
    + apply Hle. rewrite <- Hafter. now apply in_map.
    + rewrite Hdata. apply in_or_app. right. now right.
Qed.

Lemma primary_is_first_greatest_witness :
  exists r before info after,
    Industry.classify_industry default_industry_data "hotel school" None = Ok r
    /\ Industry.id (Industry.primary_industry r) = "education"
    /\ default_industry_data = before ++ ("education", info) :: after
    /\ forall e, In e after ->
         (Reference.industry_score "hotel school" (snd e)
          <= Reference.industry_score "hotel school" info)%Q.
Proof.
  assert (H : exists r,
             Industry.classify_industry default_industry_data "hotel school" None = Ok r
             /\ Industry.id (Industry.primary_industry r) = "education").
  { eexists. split; [vm_compute; reflexivity | reflexivity]. }
  destruct H as (r & Hr & Hid). exists r.
  destruct (primary_is_first_greatest default_industry_data "hotel school" None r
              default_industry_data_dict Hr)
    as (before & info & after & Hdata & _ & Hle).
  - exists "education". eexists. split; [do 5 right; left; reflexivity|].
    exists "school". split; [left; right; left; reflexivity | vm_compute; lia].
  - rewrite Hid in Hdata. exists before, info, after. auto.
Defined.

(** ** The sub-industry that is reported *)

Section SubScores.

Local Open Scope Q_scope.

Variable text : string.

Lemma Forall2_keys {V W : Type} (R : string * V -> string * W -> Prop)
      (l : dict V) (l' : dict W) :
  (forall a b, R a b -> fst b = fst a) -> Forall2 R l l' -> keys l' = keys l.
Proof.
  intros HR. induction 1 as [|a b l l' Hab _ IH]; [reflexivity|].
  unfold keys in *. cbn. now rewrite (HR _ _ Hab), IH.
Qed.

(** On a dictionary of sub-industries the loop gives each its number of
    keyword occurrences. *)
Lemma sub_scores_entries (info : Industry.industry) :
  NoDup (keys (Industry.sub_industries info)) ->
  Forall2 (Aux.sub_entry text) (Industry.sub_industries info)
    (snd (Industry.score_industry text info)).
Proof.
  unfold Industry.score_industry.
  set (step := fun (st : Q * dict Q) (sub : string * Industry.sub_industry) => _).
  assert (H : forall subs pre st,
             Forall2 (Aux.sub_entry text) pre (snd st) ->
             NoDup (keys pre ++ keys subs) ->
             Forall2 (Aux.sub_entry text) (pre ++ subs) (snd (fold_left step subs st))).
  { induction subs as [|[sid sinfo] subs IH]; intros pre st Hpre Hnd; cbn [fold_left].
    - now rewrite app_nil_r.
    - replace (pre ++ (sid, sinfo) :: subs) with ((pre ++ [(sid, sinfo)]) ++ subs)
        by now rewrite <- app_assoc.
      apply IH.
      + unfold step.
        destruct (score_sub_keywords_acc text (Industry.sub_keywords sinfo) (fst st, 0))
          as [_ Hb].
        destruct (Industry.score_sub_keywords _ _ _) as [a b]. cbn [fst snd] in *.
        rewrite set_fresh.
        * apply Forall2_app; [exact Hpre|]. constructor; [|constructor].
          split; [reflexivity|]. cbn [fst snd]. rewrite Hb. ring.
        * assert (Hk : keys (snd st) = keys pre).
          { apply (Forall2_keys (Aux.sub_entry text)); [now intros ? ? [? _] | exact Hpre]. }
          cbn [keys map fst] in Hnd. apply NoDup_remove_2 in Hnd.
          intros Hin. apply Hnd, in_or_app. left.
          change (In sid (keys pre)). rewrite <- Hk. exact Hin.
      + unfold keys at 1. rewrite map_app. cbn [map fst]. rewrite <- app_assoc. exact Hnd. }
  intros Hnd. apply (H (Industry.sub_industries info) [] _); [constructor | exact Hnd].
Qed.

Lemma sub_entries_value (subs : dict Industry.sub_industry) (d : dict Q)
      (sid : string) (sinfo : Industry.sub_industry) :
  NoDup (keys subs) -> Forall2 (Aux.sub_entry text) subs d -> In (sid, sinfo) subs ->
  Num.value_of d sid == Reference.keyword_hits text (Industry.sub_keywords sinfo).
Proof.
  intros Hnd H. induction H as [|sub kv subs d [Hk Hv] _ IH]; intros Hin; [contradiction|].
  inversion Hnd as [|? ? Hfresh Hnd']; subst.
  unfold Num.value_of. destruct kv as [k v]. cbn [fst snd] in *. subst k. cbn [get].
  destruct Hin as [->|Hin].
  - cbn [fst snd] in *. now rewrite String.eqb_refl.
  - destruct (String.eqb_spec sid (fst sub)) as [->|Hne].
    + exfalso. apply Hfresh. now apply (in_map fst) in Hin.
    + now apply IH.
Qed.

End SubScores.

(** X7. The sub-industry is chosen among the sub-industries of the primary
    industry only. On a taxonomy whose industries and sub-industries are
    dictionaries, the result's sub-industry is the empty record when no
    keyword of any sub-industry of the primary industry occurs in the
    corpus; otherwise it is a sub-industry of the primary industry, reported
    under its name, whose keywords occur at least once and at least as often
    as those of every other sub-industry of the primary industry. *)
Theorem sub_industry_of_primary (data : Industry.industry_data)
        (description : string) (additional : option (list string))
        (r : Industry.classification) :
  NoDup (keys data) ->
  (forall industry_id info,
      In (industry_id, info) data -> NoDup (keys (Industry.sub_industries info))) ->
  Industry.classify_industry data description additional = Ok r ->
  let text := Industry.corpus description additional in
  let hits := fun s : Industry.sub_industry =>
                Reference.keyword_hits text (Industry.sub_keywords s) in
  exists info,
    get (Industry.id (Industry.primary_industry r)) data = Some info
    /\ ((Industry.sub_industry_result r = Industry.empty_entry
         /\ forall sub, In sub (Industry.sub_industries info) -> (hits (snd sub) == 0)%Q)
        \/ exists sinfo,
             get (Industry.id (Industry.sub_industry_result r))
                 (Industry.sub_industries info) = Some sinfo
             /\ Industry.entry_name (Industry.sub_industry_result r)
                = Industry.sub_name sinfo
             /\ (0 < hits sinfo)%Q
             /\ forall sub, In sub (Industry.sub_industries info) ->
                            (hits (snd sub) <= hits sinfo)%Q).
Proof.
  intros Hnd Hsubs Hr text hits.
  destruct (classify_industry_inv data description additional r Hnd Hr)
    as (info & Hinfo & _ & Htop & _).
  fold text in Htop. exists info. split; [exact Hinfo|].
  assert (Hnds : NoDup (keys (Industry.sub_industries info))).
  { apply (Hsubs (Industry.id (Industry.primary_industry r))). now apply get_In. }
  pose proof (sub_scores_entries text info Hnds) as Hent.
  unfold Industry._get_top_sub_industry in Htop.
  rewrite (sub_scores_get data text _ info Hinfo) in Htop.
  set (d := snd (Industry.score_industry text info)) in *.
  assert (Hval : forall sub, In sub (Industry.sub_industries info) ->
            (Num.value_of d (fst sub) == hits (snd sub))%Q).
  { intros [sid sinfo] Hin.
    now apply (sub_entries_value text (Industry.sub_industries info) d). }
  assert (Hkeys : keys d = keys (Industry.sub_industries info)).
  { apply (Forall2_keys (Aux.sub_entry text)); [now intros ? ? [? _] | exact Hent]. }
  assert (Hnn : Num.nonneg_values d) by apply score_industry_spec.
  destruct d as [|kv d'] eqn:Ed.
  { left. injection Htop as <-. split; [reflexivity|].
    intros sub Hin. apply (in_map fst) in Hin. fold (keys (Industry.sub_industries info)) in Hin.
    rewrite <- Hkeys in Hin. contradiction. }
  rewrite <- Ed in *. clear Ed.
  destruct (Num.any (values d)) eqn:Hany; cbn [negb] in Htop.
  - right.
    assert (Hne : d <> []) by (intros E; rewrite E in Hany; discriminate).
    destruct (winner d Hne Hnn) as (w & Hmax & Hw & Hbest & _).
    rewrite Hmax in Htop. cbn [bind] in Htop.
    unfold lookup at 1 in Htop. rewrite Hinfo in Htop. cbn [bind] in Htop.
    destruct (lookup w (Industry.sub_industries info)) as [sinfo|] eqn:Hl;
      cbn [bind] in Htop; [|discriminate].
    injection Htop as <-. cbn. apply lookup_Ok in Hl. exists sinfo.
    split; [exact Hl|]. split; [reflexivity|].
    assert (Hw_val : (Num.value_of d w == hits sinfo)%Q).
    { apply (Hval (w, sinfo)). now apply get_In. }
    split.
    + apply any_true in Hany as (x & Hx & Hx0).
      apply In_values in Hx as [k Hk].
      assert (Hxk : In x (values d)) by (apply In_values; now exists k).
      unfold Num.nonneg_values in Hnn. rewrite Forall_forall in Hnn.
      specialize (Hnn x Hxk).
      assert (Hgx : get k d = Some x).
      { apply NoDup_get; [now rewrite Hkeys | exact Hk]. }
      specialize (Hbest k). unfold Num.value_of at 1 in Hbest. rewrite Hgx in Hbest.
      rewrite <- Hw_val.
      destruct (Qlt_le_dec 0 x) as [Hp|Hp]; [lra|]. exfalso. apply Hx0. lra.
    + intros sub Hin. rewrite <- Hw_val, <- (Hval sub Hin). apply Hbest.
  - left. injection Htop as <-. split; [reflexivity|].
    intros sub Hin. rewrite <- (Hval sub Hin).
    apply any_false in Hany. rewrite Forall_forall in Hany.
    unfold Num.value_of. destruct (get (fst sub) d) as [v|] eqn:Hg; [|reflexivity].
    apply Hany, In_values. exists (fst sub). now apply get_In.
Qed.

Lemma sub_industry_of_primary_witness :
  exists r sinfo,
    Industry.classify_industry default_industry_data
      "We are an online retailer specializing in electronics and computer accessories."
      (Some ["e-commerce"; "online store"; "gadgets"]) = Ok r
    /\ Industry.id (Industry.sub_industry_result r) = "electronics"
    /\ Industry.entry_name (Industry.sub_industry_result r) = Industry.sub_name sinfo.
Proof.
  assert (H : exists r,
             Industry.classify_industry default_industry_data
               "We are an online retailer specializing in electronics and computer accessories."
               (Some ["e-commerce"; "online store"; "gadgets"]) = Ok r
             /\ Industry.id (Industry.sub_industry_result r) = "electronics").
  { eexists. split; [vm_compute; reflexivity | reflexivity]. }
  destruct H as (r & Hr & Hid).
  assert (Hsubs : forall industry_id info,
             In (industry_id, info) default_industry_data ->
             NoDup (keys (Industry.sub_industries info))).
  { intros industry_id info Hin.
    assert (Hall : Forall (fun e => NoDup (keys (Industry.sub_industries (snd e))))
                     default_industry_data).
    { repeat constructor; cbn; intuition discriminate. }
    rewrite Forall_forall in Hall. exact (Hall _ Hin). }
  destruct (sub_industry_of_primary default_industry_data
              "We are an online retailer specializing in electronics and computer accessories."
              (Some ["e-commerce"; "online store"; "gadgets"]) r
              default_industry_data_dict Hsubs Hr)
    as (info & _ & [[He _]|(sinfo & _ & Hn & _)]).
  - rewrite He in Hid. discriminate.
  - exists r, sinfo. auto.
Defined.

(** ** Size buckets *)

Section Buckets.

Local Open Scope Q_scope.

Lemma separated_above (th : Size.thresholds) (hi v : Q) (l : string)
      (r : Size.range_info) :
  Aux.well_separated (Some hi) th = true -> v <= hi -> In (l, r) th ->
  Reference.contains r v = false.
Proof.
  revert hi. induction th as [|[l0 r0] th IH]; intros hi Hs Hv Hin; [contradiction|].
  cbn [Aux.well_separated] in Hs.
  destruct (Size.min_val r0) as [lo|] eqn:Hmin; [|discriminate].
  apply andb_prop in Hs as [Hlo Hs]. apply Qltb_lt in Hlo.
  destruct Hin as [[= <- <-]|Hin].
  - unfold Reference.contains. rewrite Hmin.
    destruct (Qle_bool lo v) eqn:E; [|reflexivity].
    apply Qle_bool_iff in E. lra.
  - destruct (Size.max_val r0) as [hi0|].
    + apply andb_prop in Hs as [Hle Hs]. apply Qle_bool_iff in Hle.
      apply (IH hi0 Hs); [lra | exact Hin].
    + destruct th; [contradiction | discriminate].
Qed.

Lemma categorize_separated (th : Size.thresholds) (prev : option Q) (v : Q)
      (l : string) (r : Size.range_info) :
  Aux.well_separated prev th = true -> In (l, r) th ->
  Reference.contains r v = true -> Size._categorize_metric v th = l.
Proof.
  revert prev. induction th as [|[l0 r0] th IH]; intros prev Hs Hin Hc; [contradiction|].
  cbn [Aux.well_separated] in Hs. cbn [Size._categorize_metric].
  destruct (Size.min_val r0) as [lo|] eqn:Hmin; [|discriminate].
  apply andb_prop in Hs as [_ Hs].
  destruct (Size.max_val r0) as [hi|] eqn:Hmax.
  - apply andb_prop in Hs as [_ Hs].
    destruct (Qle_bool lo v && Qle_bool v hi) eqn:E.
    + destruct Hin as [[= <- _]|Hin]; [reflexivity|].
      apply andb_prop in E as [_ E]. apply Qle_bool_iff in E.
      rewrite (separated_above th hi v l r Hs E Hin) in Hc. discriminate.
    + destruct Hin as [[= _ <-]|Hin].
      * unfold Reference.contains in Hc. rewrite Hmin, Hmax in Hc. congruence.
      * exact (IH (Some hi) Hs Hin Hc).
  - destruct th; [|discriminate]. destruct Hin as [[= <- <-]|[]].
    unfold Reference.contains in Hc. rewrite Hmin, Hmax, andb_true_r in Hc.
    now rewrite Hc.
Qed.

Lemma categorize_none (th : Size.thresholds) (v : Q) :
  (forall l r, In (l, r) th -> Reference.contains r v = false) ->
  Size._categorize_metric v th = "medium".
Proof.
  induction th as [|[l0 r0] th IH]; intros H; [reflexivity|].
  cbn [Size._categorize_metric].
  pose proof (H l0 r0 (or_introl eq_refl)) as H0. unfold Reference.contains in H0.
  rewrite IH by (intros l r Hin; apply (H l r); now right).
  destruct (Size.min_val r0), (Size.max_val r0); cbn in H0;
    try rewrite andb_true_r in H0; try rewrite H0; try reflexivity; discriminate.
Qed.

(** The label is a key of the threshold set, or the fallback. *)
Lemma categorize_label (th : Size.thresholds) (v : Q) :
  Size._categorize_metric v th = "medium"
  \/ In (Size._categorize_metric v th) (keys th).
Proof.
  induction th as [|[l0 r0] th IH]; [now left|].
  cbn [Size._categorize_metric keys map fst].
  destruct (Size.min_val r0), (Size.max_val r0);
    repeat match goal with
           | |- context [if ?b then _ else _] => destruct b
           end;
    try (right; left; reflexivity);
    (destruct IH as [IH|IH]; [left; exact IH | right; right; exact IH]).
Qed.

End Buckets.

(** X8. On a threshold set whose ranges come in increasing order without
    touching (as all those of the default data do), a value lies in at most
    one range, [_categorize_metric] returns the label of the range that
    contains the value, and it returns "medium" when the value falls in a
    gap or outside every range. Its result is always a label of the
    threshold set or "medium". *)
Theorem categorize_unique_bucket (th : Size.thresholds) (v : Q) :
  Aux.well_separated None th = true ->
  (forall l r, In (l, r) th -> Reference.contains r v = true ->
               Size._categorize_metric v th = l)
  /\ ((forall l r, In (l, r) th -> Reference.contains r v = false) ->
      Size._categorize_metric v th = "medium")
  /\ (Size._categorize_metric v th = "medium"
      \/ In (Size._categorize_metric v th) (keys th)).
Proof.
  intros Hs. split; [|split].
  - intros l r. now apply categorize_separated with (prev := None).
  - apply categorize_none.
  - apply categorize_label.
Qed.

Lemma categorize_unique_bucket_witness :
  forallb (Aux.well_separated None) (Aux.threshold_sets default_size_data) = true
  /\ exists th,
       get "employees" (Size.general_thresholds default_size_data) = Some th
       /\ Size._categorize_metric 300%Q th = "large"
       /\ Size._categorize_metric 0%Q th = "medium"
       /\ Size._categorize_metric (21 # 2)%Q th = "medium".
Proof.
  split; [reflexivity|].
  eexists. split; [reflexivity|].
  match goal with
  | |- Size._categorize_metric _ ?th = _ /\ _ =>
      destruct (categorize_unique_bucket th 300%Q eq_refl) as (H1 & _);
      destruct (categorize_unique_bucket th 0%Q eq_refl) as (_ & H2 & _);
      destruct (categorize_unique_bucket th (21 # 2)%Q eq_refl) as (_ & H3 & _)
  end.
  split; [|split].
  - apply (H1 "large" (Size.range (Some 251%Q) (Some 1000%Q))); [|reflexivity].
    do 3 right. left. reflexivity.
  - apply H2. intros l r Hin. cbn in Hin.
    repeat (destruct Hin as [[= <- <-]|Hin]; [reflexivity|]). contradiction.
  - apply H3. intros l r Hin. cbn in Hin.
    repeat (destruct Hin as [[= <- <-]|Hin]; [reflexivity|]). contradiction.
Defined.

(** ** What [analyze_business_size] returns, and when it raises *)

Section Analyze.

Local Open Scope Q_scope.

Lemma truthy_medium_or_label (th : Size.thresholds) (v : Q) :
  forallb (fun kv => Str.truthy (fst kv)) th = true ->
  Str.truthy (Size._categorize_metric v th) = true.
Proof.
  intros H. destruct (categorize_label th v) as [->|Hin]; [reflexivity|].
  unfold keys in Hin. apply in_map_iff in Hin as (kv & <- & Hkv).
  rewrite forallb_forall in H. now apply H.
Qed.

(** The threshold sets that can be selected from ready data. *)
Lemma select_ready (data : Size.size_data) (industry : string) :
  Aux.size_data_ready data = true ->
  exists ths,
    Size.select_thresholds data industry = Ok ths
    /\ Aux.primary_ready ths = true.
Proof.
  unfold Aux.size_data_ready. intros H.
  apply andb_prop in H as [H Hspec]. apply andb_prop in H as [H Hgen].
  apply andb_prop in H as [H _]. apply andb_prop in H as [He Hr].
  unfold Size.select_thresholds. destruct (mem industry _) eqn:E.
  - apply mem_keys in E. destruct (lookup_keys _ _ E) as (ths & -> & Hg).
    exists ths. split; [reflexivity|]. rewrite forallb_forall in Hspec.
    exact (Hspec (industry, ths) (get_In _ _ _ Hg)).
  - apply mem_keys in He, Hr.
    destruct (lookup_keys _ _ He) as (e & -> & Hge).
    destruct (lookup_keys _ _ Hr) as (r & -> & Hgr). cbn [bind].
    eexists. split; [reflexivity|]. rewrite forallb_forall in Hgen.
    pose proof (Hgen ("employees", e) (get_In _ _ _ Hge)) as H1.
    pose proof (Hgen ("revenue", r) (get_In _ _ _ Hgr)) as H2.
    cbn [snd] in H1, H2. unfold Aux.primary_ready.
    cbn [forallb snd]. rewrite H1, H2. reflexivity.
Qed.

(** Evaluating a metric leaves [value] as it was and never empties the
    recorded scores; a metric with a non-empty label is recorded. *)
Lemma evaluate_loop_value (name : string) (w v : Q) (th : Size.thresholds)
      (st : Size.locals) :
  Size.loop_value (Size.evaluate name w v th st) = Size.loop_value st.
Proof. unfold Size.evaluate. now destruct (Str.truthy _). Qed.

Lemma set_not_nil {V : Type} (k : string) (v : V) (d : dict V) : set k v d <> [].
Proof. destruct d as [|[k' v'] d]; cbn; [|destruct (String.eqb k k')]; discriminate. Qed.

Lemma evaluate_keeps (name : string) (w v : Q) (th : Size.thresholds)
      (st : Size.locals) :
  Size.confidence_scores st <> [] ->
  Size.confidence_scores (Size.evaluate name w v th st) <> [].
Proof.
  unfold Size.evaluate. destruct (Str.truthy _); [|auto]. intros _. apply set_not_nil.
Qed.

Lemma evaluate_primary_value (name : string) (v : option Q)
      (ths : dict Size.thresholds) (st : Size.locals) :
  Size.loop_value (Size.evaluate_primary name v ths st) = Size.loop_value st.
Proof.
  unfold Size.evaluate_primary. destruct v; [|reflexivity].
  destruct (get name ths); [apply evaluate_loop_value | reflexivity].
Qed.

Lemma evaluate_primary_keeps (name : string) (v : option Q)
      (ths : dict Size.thresholds) (st : Size.locals) :
  Size.confidence_scores st <> [] ->
  Size.confidence_scores (Size.evaluate_primary name v ths st) <> [].
Proof.
  unfold Size.evaluate_primary. destruct v; [|auto].
  destruct (get name ths); [apply evaluate_keeps | auto].
Qed.

Lemma evaluate_primary_records (name : string) (x : Q)
      (ths : dict Size.thresholds) (st : Size.locals) :
  mem name ths = true ->
  forallb (fun m => forallb (fun kv => Str.truthy (fst kv)) (snd m)) ths = true ->
  Size.confidence_scores (Size.evaluate_primary name (Some x) ths st) <> [].
Proof.
  intros Hm Hl. unfold Size.evaluate_primary, mem in *.
  destruct (get name ths) as [th|] eqn:E; [|discriminate].
  unfold Size.evaluate. rewrite truthy_medium_or_label; [apply set_not_nil|].
  rewrite forallb_forall in Hl. exact (Hl (name, th) (get_In _ _ _ E)).
Qed.

(** With no additional metric the locals after the three blocks. *)
Lemma evaluate_metrics_no_additional (ths : dict Size.thresholds)
      (emp rev : option Q) (adds : option (dict Q)) :
  adds = None \/ adds = Some [] ->
  Size.evaluate_metrics ths emp rev adds
  = Size.evaluate_primary "revenue" rev ths
      (Size.evaluate_primary "employees" emp ths Size.initial).
Proof. intros [->| ->]; reflexivity. Qed.

(** With a primary metric recorded and no pass of the loop over the
    additional metrics, the comprehension of the result reads a name that
    was never bound. *)
Lemma analyze_raises (data : Size.size_data) (industry : string)
      (emp rev : option Q) (adds : option (dict Q)) :
  Aux.size_data_ready data = true ->
  adds = None \/ adds = Some [] -> emp <> None \/ rev <> None ->
  Size.analyze_business_size data industry emp rev adds = Raise (NameError "value").
Proof.
  intros Hready Hadds Hsome.
  destruct (select_ready data (Str.lower industry) Hready) as (ths & Hths & Hp).
  assert (Hmed : In "medium" (keys (Size.size_characteristics data))).
  { unfold Aux.size_data_ready in Hready.
    apply andb_prop in Hready as [H _]. apply andb_prop in H as [H _].
    apply andb_prop in H as [_ H]. now apply mem_keys. }
  destruct (lookup_keys _ _ Hmed) as (med & Hl & _).
  unfold Aux.primary_ready in Hp. apply andb_prop in Hp as [Hp Hlabels].
  apply andb_prop in Hp as [Hemp Hrev].
  unfold Size.analyze_business_size. rewrite Hths. cbn [bind].
  rewrite (evaluate_metrics_no_additional ths emp rev adds Hadds).
  set (st := Size.evaluate_primary "revenue" rev ths _).
  destruct (decide_total st) as (w & c & ->). cbn [bind]. rewrite Hl. cbn [bind].
  assert (Hv : Size.loop_value st = None).
  { unfold st. now rewrite !evaluate_primary_value. }
  assert (Hne : Size.confidence_scores st <> []).
  { unfold st. destruct rev as [y|].
    - now apply evaluate_primary_records.
    - destruct emp as [x|]; [|destruct Hsome; congruence].
      cbn [Size.evaluate_primary]. now apply evaluate_primary_records. }
  unfold Size.analyse_metrics. destruct (Size.confidence_scores st); [congruence|].
  cbn [mapM]. rewrite Hv. reflexivity.
Qed.

(** With no metric at all the analysis is the default one. *)
Lemma analyze_no_metric (data : Size.size_data) (industry : string)
      (adds : option (dict Q)) :
  Aux.size_data_ready data = true ->
  adds = None \/ adds = Some [] ->
  exists r,
    Size.analyze_business_size data industry None None adds = Ok r
    /\ Size.size_category r = "medium"
    /\ (Size.confidence r == 0)%Q
    /\ Size.metrics_analysis r = [].
Proof.
  intros Hready Hadds.
  destruct (select_ready data (Str.lower industry) Hready) as (ths & Hths & Hp).
  assert (Hmed : In "medium" (keys (Size.size_characteristics data))).
  { unfold Aux.size_data_ready in Hready.
    apply andb_prop in Hready as [H _]. apply andb_prop in H as [H _].
    apply andb_prop in H as [_ H]. now apply mem_keys. }
  destruct (lookup_keys _ _ Hmed) as (med & Hl & _).
  unfold Size.analyze_business_size. rewrite Hths. cbn [bind].
  rewrite (evaluate_metrics_no_additional ths None None adds Hadds).
  cbn. rewrite Hl. cbn. eexists. split; [reflexivity|]. cbn.
  repeat split; reflexivity.
Qed.

End Analyze.

(** X9. On size data that has thresholds for employees and revenue in every
    selectable set, no empty label and a "medium" entry (the default data is
    such), [analyze_business_size] raises [NameError] for [value] whenever
    an employee count or a revenue is supplied and the additional metrics
    are absent or empty. With no metric at all it returns "medium" with
    confidence 0 and an empty metrics analysis; with at least one additional
    metric it returns. *)
Theorem analyze_raises_without_additional_metrics (data : Size.size_data)
        (industry : string) (emp rev : option Q) (adds : option (dict Q)) :
  Aux.size_data_ready data = true ->
  ((adds = None \/ adds = Some []) -> (emp <> None \/ rev <> None) ->
   Size.analyze_business_size data industry emp rev adds = Raise (NameError "value"))
  /\ ((adds = None \/ adds = Some []) -> emp = None -> rev = None ->
      exists r,
        Size.analyze_business_size data industry emp rev adds = Ok r
        /\ Size.size_category r = "medium"
        /\ (Size.confidence r == 0)%Q
        /\ Size.metrics_analysis r = [])
  /\ (forall m ms, adds = Some (m :: ms) ->
        exists r, Size.analyze_business_size data industry emp rev adds = Ok r).
Proof.
  intros Hready. split; [|split].
  - intros Hadds Hsome. now apply analyze_raises.
  - intros Hadds -> ->. now apply analyze_no_metric.
  - intros m ms ->.
    destruct (select_ready data (Str.lower industry) Hready) as (ths & Hths & _).
    assert (Hmed : In "medium" (keys (Size.size_characteristics data))).
    { unfold Aux.size_data_ready in Hready.
      apply andb_prop in Hready as [H _]. apply andb_prop in H as [H _].
      apply andb_prop in H as [_ H]. now apply mem_keys. }
    destruct (lookup_keys _ _ Hmed) as (med & Hl & _).
    unfold Size.analyze_business_size. rewrite Hths. cbn [bind].
    destruct (decide_total (Size.evaluate_metrics ths emp rev (Some (m :: ms))))
      as (w & c & ->).
    cbn [bind]. rewrite Hl. cbn [bind]. unfold Size.evaluate_metrics.
    destruct (evaluate_additional_value m ms ths
                (Size.evaluate_primary "revenue" rev ths
                   (Size.evaluate_primary "employees" emp ths Size.initial)))
      as [v Hv].
    destruct (analyse_metrics_bound _ _ Hv) as [ma ->]. cbn [bind]. eauto.
Qed.

Lemma analyze_raises_without_additional_metrics_witness :
  Aux.size_data_ready default_size_data = true
  /\ Size.analyze_business_size default_size_data "Retail" (Some 75%Q) None (Some [])
     = Raise (NameError "value").
Proof.
  split; [reflexivity|].
  apply (proj1 (analyze_raises_without_additional_metrics default_size_data
                  "Retail" (Some 75%Q) None (Some []) eq_refl)).
  - right. reflexivity.
  - left. discriminate.
Defined.

(** ** The metrics analysis and the confidence of a size analysis *)

Section MetricsAnalysis.

Local Open Scope Q_scope.

(** The steps of [analyze_business_size], read back from a result. *)
Lemma analyze_inv (data : Size.size_data) (industry : string)
      (emp rev : option Q) (adds : option (dict Q)) (r : Size.analysis) :
  Size.analyze_business_size data industry emp rev adds = Ok r ->
  exists ths c,
    Size.select_thresholds data (Str.lower industry) = Ok ths
    /\ Size.decide (Size.evaluate_metrics ths emp rev adds) = Ok (Size.size_category r, c)
    /\ Size.confidence r = Num.round2 c
    /\ Size.analyse_metrics (Size.evaluate_metrics ths emp rev adds)
       = Ok (Size.metrics_analysis r).
Proof.
  unfold Size.analyze_business_size.
  destruct (Size.select_thresholds _ _) as [ths|] eqn:Hths; cbn [bind]; [|discriminate].
  destruct (Size.decide _) as [[w c]|] eqn:Hd; cbn [bind]; [|discriminate].
  destruct (lookup "medium" _); cbn [bind]; [|discriminate].
  destruct (Size.analyse_metrics _) as [ma|] eqn:Hma; cbn [bind]; [|discriminate].
  intros [= <-]. cbn. exists ths, c. repeat split; assumption || reflexivity.
Qed.

Lemma last_cons_default {A : Type} (l : list A) (a d : A) :
  last (a :: l) d = last l a.
Proof.
  revert a d. induction l as [|b l IH]; intros a d; [reflexivity|].
  change (last (a :: b :: l) d) with (last (b :: l) d).
  now rewrite (IH b d), (IH b a).
Qed.

Lemma evaluate_additional_last (ms : dict Q) (m : string * Q)
      (ths : dict Size.thresholds) (st : Size.locals) :
  Size.loop_value (Size.evaluate_additional (Some (m :: ms)) ths st)
  = Some (snd (last ms m)).
Proof.
  revert m st. induction ms as [|m' ms IH]; intros m st.
  - cbn. destruct (get (fst m) ths); [|reflexivity]. now rewrite evaluate_loop_value.
  - rewrite last_cons_default. cbn [Size.evaluate_additional fold_left] in *. apply IH.
Qed.

(** An invariant of the three metric blocks. *)
Lemma evaluate_metrics_ind (P : Size.locals -> Prop) :
  P Size.initial ->
  (forall name w v th st,
      0 < w -> P st -> P (Size.evaluate name w v th st)) ->
  (forall st v,
      P st ->
      P {| Size.size_categories := Size.size_categories st;
           Size.confidence_scores := Size.confidence_scores st;
           Size.loop_value := v |}) ->
  forall ths emp rev adds, P (Size.evaluate_metrics ths emp rev adds).
Proof.
  intros H0 Hev Hval ths emp rev adds.
  assert (Hprim : forall name v st, P st -> P (Size.evaluate_primary name v ths st)).
  { intros name v st Hst. unfold Size.evaluate_primary.
    destruct v; [|exact Hst]. destruct (get name ths); [|exact Hst].
    apply Hev; [reflexivity | exact Hst]. }
  unfold Size.evaluate_metrics.
  set (st0 := Size.evaluate_primary "revenue" rev ths _).
  assert (Hst0 : P st0) by (apply Hprim, Hprim, H0).
  clearbody st0. destruct adds as [metrics|]; cbn [Size.evaluate_additional]; [|exact Hst0].
  revert st0 Hst0. induction metrics as [|m metrics IH]; intros st Hst; [exact Hst|].
  cbn [fold_left]. apply IH. destruct (get (fst m) ths).
  - apply Hev; [reflexivity | now apply Hval].
  - now apply Hval.
Qed.

Lemma recorded_have_category (ths : dict Size.thresholds) (emp rev : option Q)
      (adds : option (dict Q)) :
  let st := Size.evaluate_metrics ths emp rev adds in
  (Size.size_categories st = [] -> Size.confidence_scores st = [])
  /\ Forall (fun kv => 0 < Size.weight (snd kv)) (Size.confidence_scores st).
Proof.
  apply (evaluate_metrics_ind
           (fun st => (Size.size_categories st = [] -> Size.confidence_scores st = [])
                      /\ Forall (fun kv => 0 < Size.weight (snd kv))
                           (Size.confidence_scores st))).
  - split; [reflexivity | constructor].
  - intros name w v th st Hw [H1 H2]. unfold Size.evaluate.
    destruct (Str.truthy _); [|now split]. cbn. split.
    + intros E. now apply app_eq_nil in E as [_ E].
    + now apply (Forall_values_set (fun m => 0 < Size.weight m)).
  - intros st v H. exact H.
Qed.

Lemma round2_eq (x y : Q) : x == y -> Num.round2 x == Num.round2 y.
Proof.
  intros H. unfold Num.round2.
  assert (Hr : Num.round_half_even (x * 100) = Num.round_half_even (y * 100)).
  { unfold Num.round_half_even.
    assert (Hxy : x * 100 == y * 100) by now rewrite H.
    assert (Hf : Qfloor (x * 100) = Qfloor (y * 100)) by now apply Qfloor_comp.
    rewrite Hf.
    assert (Hc : Qcompare (x * 100 - inject_Z (Qfloor (y * 100))) (1 # 2)
                 = Qcompare (y * 100 - inject_Z (Qfloor (y * 100))) (1 # 2)).
    { apply Qcompare_comp; [now rewrite Hxy | reflexivity]. }
    now rewrite Hc. }
  now rewrite Hr.
Qed.

Lemma unanimous_confidence (w : string) (scores : dict Size.metric_score) :
  scores <> [] ->
  Forall (fun kv => 0 < Size.weight (snd kv)) scores ->
  Forall (fun kv => Size.size (snd kv) = w) scores ->
  Size.weighted_confidence w scores == 100.
Proof.
  intros Hne Hpos Hall. unfold Size.weighted_confidence.
  set (step := fun (acc : Q * Q) (kv : string * Size.metric_score) => _).
  assert (Hinv : forall l acc,
             Forall (fun kv => 0 < Size.weight (snd kv)) l ->
             Forall (fun kv => Size.size (snd kv) = w) l ->
             fst acc == snd acc -> 0 <= snd acc ->
             fst (fold_left step l acc) == snd (fold_left step l acc)
             /\ snd acc <= snd (fold_left step l acc)
             /\ (l <> [] -> 0 < snd (fold_left step l acc))).
  { induction l as [|kv l IH]; intros acc Hp Ha He H0; cbn [fold_left].
    - repeat split; [exact He | lra | congruence].
    - apply Forall_cons_iff in Hp as [Hp1 Hp2]. apply Forall_cons_iff in Ha as [Ha1 Ha2].
      destruct (IH (step acc kv) Hp2 Ha2) as (I1 & I2 & _).
      + unfold step. cbn [fst snd]. rewrite Ha1, String.eqb_refl. lra.
      + unfold step. cbn [fst snd]. lra.
      + split; [exact I1|]. unfold step in I2 |- *. cbn [fst snd] in I2 |- *.
        split; [lra|]. intros _. lra. }
  destruct (Hinv scores (0, 0) Hpos Hall) as (I1 & _ & I3); cbn [fst snd]; try lra.
  specialize (I3 Hne). destruct (fold_left step scores (0, 0)) as [wc tw].
  cbn [fst snd] in *. now apply percentage_all.
Qed.

End MetricsAnalysis.

(** X10. Every entry of [metrics_analysis] reports, as its value, the value
    of the last additional metric of the call, whatever metric the entry
    stands for: the comprehension reads the variable left by the loop over
    the additional metrics. The category and the weight are those recorded
    for the metric. *)
Theorem metrics_analysis_value_is_last (data : Size.size_data) (industry : string)
        (emp rev : option Q) (m : string * Q) (ms : dict Q) (r : Size.analysis) :
  Size.analyze_business_size data industry emp rev (Some (m :: ms)) = Ok r ->
  forall name a,
    In (name, a) (Size.metrics_analysis r) ->
    Size.value a = snd (last ms m)
    /\ exists ths score,
         Size.select_thresholds data (Str.lower industry) = Ok ths
         /\ In (name, score)
              (Size.confidence_scores
                 (Size.evaluate_metrics ths emp rev (Some (m :: ms))))
         /\ Size.category a = Size.size score
         /\ Size.analysis_weight a = Size.weight score.
Proof.
  intros Hr name a Hin.
  destruct (analyze_inv _ _ _ _ _ _ Hr) as (ths & c & Hths & _ & _ & Hma).
  unfold Size.analyse_metrics in Hma. apply mapM_Forall2 in Hma.
  destruct (Forall2_In_r _ _ _ _ Hma Hin) as ([k score] & Hk & Hf).
  unfold Size.evaluate_metrics in Hf. rewrite evaluate_additional_last in Hf.
  cbn [fst snd] in Hf. injection Hf as <- <-. cbn.
  split; [reflexivity|]. exists ths, score. auto.
Qed.

Lemma metrics_analysis_value_is_last_witness :
  exists r a,
    Size.analyze_business_size default_size_data "retail" (Some 75%Q)
      (Some 8000000%Q) (Some [("locations", 5%Q)]) = Ok r
    /\ In ("employees", a) (Size.metrics_analysis r)
    /\ Size.value a = 5%Q.
Proof.
  assert (H : exists r a,
             Size.analyze_business_size default_size_data "retail" (Some 75%Q)
               (Some 8000000%Q) (Some [("locations", 5%Q)]) = Ok r
             /\ In ("employees", a) (Size.metrics_analysis r)).
  { eexists. eexists. split; [vm_compute; reflexivity|]. left. reflexivity. }
  destruct H as (r & a & Hr & Hin). exists r, a. split; [exact Hr|]. split; [exact Hin|].
  exact (proj1 (metrics_analysis_value_is_last default_size_data "retail" (Some 75%Q)
                  (Some 8000000%Q) ("locations", 5%Q) [] r Hr "employees" a Hin)).
Defined.

(** X11. When [analyze_business_size] returns a result whose
    [metrics_analysis] records at least one metric, and every recorded
    metric has the final size category, the confidence is 100. *)
Theorem unanimous_metrics_full_confidence (data : Size.size_data) (industry : string)
        (emp rev : option Q) (adds : option (dict Q)) (r : Size.analysis) :
  Size.analyze_business_size data industry emp rev adds = Ok r ->
  Size.metrics_analysis r <> [] ->
  (forall name a, In (name, a) (Size.metrics_analysis r) ->
                  Size.category a = Size.size_category r) ->
  (Size.confidence r == 100)%Q.
Proof.
  intros Hr Hne Hall.
  destruct (analyze_inv _ _ _ _ _ _ Hr) as (ths & c & _ & Hd & Hc & Hma).
  set (st := Size.evaluate_metrics ths emp rev adds) in *.
  destruct (recorded_have_category ths emp rev adds) as [Hcat Hpos]. fold st in Hcat, Hpos.
  unfold Size.analyse_metrics in Hma. apply mapM_Forall2 in Hma.
  assert (Hsc : Size.confidence_scores st <> []).
  { intros E. rewrite E in Hma. inversion Hma. congruence. }
  assert (Hsizes : Forall (fun kv => Size.size (snd kv) = Size.size_category r)
                     (Size.confidence_scores st)).
  { clear - Hma Hall. induction Hma as [|kv b l l' Hf _ IH]; constructor.
    - destruct (Size.loop_value st); [|discriminate]. injection Hf as <-.
      exact (Hall (fst kv) _ (or_introl eq_refl)).
    - apply IH. intros name a Hin. apply (Hall name a). now right. }
  unfold Size.decide in Hd.
  destruct (Size.size_categories st) eqn:Ecat; [now specialize (Hcat eq_refl)|].
  destruct (Num.max_key _) as [w|]; cbn [bind] in Hd; [|discriminate].
  destruct (Size.confidence_scores st) eqn:Esc; [congruence|].
  injection Hd as -> <-. rewrite Hc.
  rewrite (round2_eq _ 100); [reflexivity|].
  rewrite <- Esc in *. now apply unanimous_confidence.
Qed.

Lemma unanimous_metrics_full_confidence_witness :
  exists r,
    Size.analyze_business_size default_size_data "retail" (Some 75%Q)
      (Some 8000000%Q) (Some [("locations", 5%Q)]) = Ok r
    /\ (Size.confidence r == 100)%Q.
Proof.
  assert (H : exists r,
             Size.analyze_business_size default_size_data "retail" (Some 75%Q)
               (Some 8000000%Q) (Some [("locations", 5%Q)]) = Ok r
             /\ Size.metrics_analysis r <> []
             /\ forallb (fun kv => String.eqb (Size.category (snd kv)) (Size.size_category r))
                  (Size.metrics_analysis r) = true).
  { eexists. split; [vm_compute; reflexivity|]. split; [discriminate | reflexivity]. }
  destruct H as (r & Hr & Hne & Hall). exists r. split; [exact Hr|].
  apply (unanimous_metrics_full_confidence default_size_data "retail" (Some 75%Q)
           (Some 8000000%Q) (Some [("locations", 5%Q)]) r Hr Hne).
  intros name a Hin. rewrite forallb_forall in Hall.
  apply String.eqb_eq. exact (Hall (name, a) Hin).
Defined.

(** ** What [recognize_role] reports *)

Section RoleParts.

Local Open Scope Q_scope.

Variable text : string.



End RoleParts.

(** The steps of [recognize_role], read back from a result. *)
Lemma recognize_role_inv (data : Role.role_data) (job_title : string)
      (additional_info industry : option string) (r : Role.recognition) :
  Role.recognize_role data job_title additional_info industry = Ok r ->
  let text := Aux.role_corpus job_title additional_info in
  Role._get_highest_scoring_role
    (Role.score_roles text (Role.organizational_roles data))
    (Role.organizational_roles data) (Some "manager")
  = Ok (Role.organizational_role r)
  /\ Role._get_highest_scoring_role
       (Role.score_roles text (Role.functional_roles data))
       (Role.functional_roles data) (Some "technology")
     = Ok (Role.functional_role r)
  /\ Role.role_matches (Role.organizational_roles data)
       (Role.score_roles text (Role.organizational_roles data))
     = Ok (Role.all_organizational_roles r)
  /\ Role.role_matches (Role.functional_roles data)
       (Role.score_roles text (Role.functional_roles data))
     = Ok (Role.all_functional_roles r)
  /\ (exists manager,
         get "manager" (Role.communication_strategies data) = Some manager
         /\ Role.communication_strategy r
            = match get (Role.id (Role.organizational_role r))
                        (Role.communication_strategies data) with
              | Some s => s
              | None => manager
              end)
  /\ match Role.industry_roles data industry with
     | Some roles =>
         match Role.score_roles text roles with
         | [] => Role.industry_specific_role r = None
                 /\ Role.all_industry_specific_roles r = None
         | _ :: _ =>
             exists ir m,
               Role.industry_specific_role r = Some ir
               /\ Role.all_industry_specific_roles r = Some m
               /\ Role._get_highest_scoring_role (Role.score_roles text roles) roles None
                  = Ok ir
               /\ Role.role_matches roles (Role.score_roles text roles) = Ok m
         end
     | None => Role.industry_specific_role r = None
               /\ Role.all_industry_specific_roles r = None
     end.
Proof.
  unfold Role.recognize_role. fold (Aux.role_corpus job_title additional_info).
  set (text := Aux.role_corpus job_title additional_info). cbv zeta.
  destruct (Role._get_highest_scoring_role _ _ (Some "manager")) as [ro|];
    cbn [bind]; [|discriminate].
  destruct (Role._get_highest_scoring_role _ _ (Some "technology")) as [rf|];
    cbn [bind]; [|discriminate].
  destruct (Role.industry_roles data industry) as [roles|].
  - destruct (Role.score_roles text roles) as [|kv d] eqn:Es.
    + cbn [bind]. destruct (lookup "manager" _) as [man|] eqn:Hman; cbn [bind]; [|discriminate].
      destruct (Role.role_matches (Role.organizational_roles data) _) as [mo|];
        cbn [bind]; [|discriminate].
      destruct (Role.role_matches (Role.functional_roles data) _) as [mf|];
        cbn [bind]; [|discriminate].
      intros [= <-]. cbn. apply lookup_Ok in Hman.
      repeat split; try reflexivity. exists man. split; [exact Hman | reflexivity].
    + destruct (Role._get_highest_scoring_role (kv :: d) roles None) as [ri|];
        cbn [bind]; [|discriminate].
      destruct (lookup "manager" _) as [man|] eqn:Hman; cbn [bind]; [|discriminate].
      destruct (Role.role_matches (Role.organizational_roles data) _) as [mo|];
        cbn [bind]; [|discriminate].
      destruct (Role.role_matches (Role.functional_roles data) _) as [mf|];
        cbn [bind]; [|discriminate].
      destruct (Role.role_matches roles (kv :: d)) as [mi|]; cbn [bind]; [|discriminate].
      intros [= <-]. cbn. apply lookup_Ok in Hman.
      repeat split; try reflexivity.
      * exists man. split; [exact Hman | reflexivity].
      * exists ri, mi. repeat split; reflexivity.
  - cbn [bind]. destruct (lookup "manager" _) as [man|] eqn:Hman; cbn [bind]; [|discriminate].
    destruct (Role.role_matches (Role.organizational_roles data) _) as [mo|];
      cbn [bind]; [|discriminate].
    destruct (Role.role_matches (Role.functional_roles data) _) as [mf|];
      cbn [bind]; [|discriminate].
    intros [= <-]. cbn. apply lookup_Ok in Hman.
    repeat split; try reflexivity. exists man. split; [exact Hman | reflexivity].
Qed.

Section RoleWinner.

Local Open Scope Q_scope.

Variable text : string.











(** When no keyword of a taxonomy occurs in the text, no role of it
    scores. *)
Lemma no_keyword_no_score (roles : dict Role.role) :
  (forall k info kw, In (k, info) roles -> In kw (Role.keywords info) ->
                     Regex.count (Str.lower kw) text = 0%nat) ->
  Role.score_roles text roles = [].
Proof.
  intros Hno. unfold Role.score_roles.
  assert (H : forall rs, (forall e, In e rs -> In e roles) ->
             fold_left
               (fun (scores : dict Q) (entry : string * Role.role) =>
                  if Num.Qltb 0 (Role._calculate_role_score text (Role.keywords (snd entry)))
                  then set (fst entry)
                         (Role._calculate_role_score text (Role.keywords (snd entry))) scores
                  else scores) rs [] = []).
  { induction rs as [|[k info] rs IH]; intros Hsub; [reflexivity|].
    cbn [fold_left fst snd].
    assert (Hz : Role._calculate_role_score text (Role.keywords info) = 0).
    { unfold Role._calculate_role_score.
      assert (Hk : forall kws a, (forall kw, In kw kws ->
                                  Regex.count (Str.lower kw) text = 0%nat) ->
                fold_left
                  (fun score keyword =>
                     if (0 <? Regex.count (Str.lower keyword) text)%nat
                     then score + Num.of_nat (Regex.count (Str.lower keyword) text)
                                  * Role.keyword_weight keyword
                     else score) kws a = a).
      { induction kws as [|kw kws IHk]; intros a Hz; [reflexivity|].
        cbn [fold_left]. rewrite (Hz kw (or_introl eq_refl)). cbn [Nat.ltb Nat.leb].
        apply IHk. intros kw' Hkw'. apply Hz. now right. }
      apply Hk. intros kw Hkw. apply (Hno k info kw); [|exact Hkw].
      apply Hsub. now left. }
    rewrite Hz. cbn. apply IH. intros e He. apply Hsub. now right. }
  apply H. auto.
Qed.

End RoleWinner.





(** X14. A job title in which no keyword of any organizational role
    occurs is reported as the registered ["manager"] role with confidence
    0 and no organizational match, and gets the manager communication
    strategy; with no functional keyword either, the functional role is
    the registered ["technology"] role with confidence 0. *)
Theorem unrecognised_title_defaults (data : Role.role_data) (job_title : string)
        (additional_info industry : option string) (r : Role.recognition)
        (manager : Role.role) :
  (forall k info kw,
      In (k, info) (Role.organizational_roles data) -> In kw (Role.keywords info) ->
      Regex.count (Str.lower kw) (Aux.role_corpus job_title additional_info) = 0%nat) ->
  get "manager" (Role.organizational_roles data) = Some manager ->
  Role.recognize_role data job_title additional_info industry = Ok r ->
  Role.organizational_role r
  = {| Role.id := "manager";
       Role.result_name := Role.name manager;
       Role.result_description := Role.description manager;
       Role.confidence := 0 |}
  /\ Role.all_organizational_roles r = []
  /\ get "manager" (Role.communication_strategies data)
     = Some (Role.communication_strategy r)
  /\ forall technology,
       (forall k info kw,
           In (k, info) (Role.functional_roles data) -> In kw (Role.keywords info) ->
           Regex.count (Str.lower kw) (Aux.role_corpus job_title additional_info) = 0%nat) ->
       get "technology" (Role.functional_roles data) = Some technology ->
       Role.functional_role r
       = {| Role.id := "technology";
            Role.result_name := Role.name technology;
            Role.result_description := Role.description technology;
            Role.confidence := 0 |}
       /\ Role.all_functional_roles r = [].
Proof.
  intros Hno Hman Hr.
  destruct (recognize_role_inv _ _ _ _ _ Hr)
    as (Hpo & Hpf & Hmo & Hmf & (man & Hs & Hc) & _).
  rewrite (no_keyword_no_score _ _ Hno) in Hpo, Hmo.
  cbn in Hmo. injection Hmo as Hmo.
  unfold Role._get_highest_scoring_role in Hpo.
  assert (Hmem : mem "manager" (Role.organizational_roles data) = true).
  { apply mem_keys. now apply get_keys in Hman. }
  rewrite Hmem in Hpo. cbn [Str.truthy andb] in Hpo.
  apply lookup_Ok in Hman. rewrite Hman in Hpo. cbn [bind] in Hpo.
  injection Hpo as Hpo.
  split; [now symmetry|]. split; [now symmetry|]. split.
  - rewrite Hc, <- Hpo. cbn [Role.id]. now rewrite Hs.
  - intros tech Hnof Htech.
    rewrite (no_keyword_no_score _ _ Hnof) in Hpf, Hmf.
    cbn in Hmf. injection Hmf as Hmf.
    unfold Role._get_highest_scoring_role in Hpf.
    assert (Hmemt : mem "technology" (Role.functional_roles data) = true).
    { apply mem_keys. now apply get_keys in Htech. }
    rewrite Hmemt in Hpf. cbn [Str.truthy andb] in Hpf.
    apply lookup_Ok in Htech. rewrite Htech in Hpf. cbn [bind] in Hpf.
    injection Hpf as Hpf. split; now symmetry.
Qed.

Lemma unrecognised_title_defaults_witness :
  exists r manager,
    Role.recognize_role default_role_data "Gardener" None (Some "healthcare") = Ok r
    /\ get "manager" (Role.organizational_roles default_role_data) = Some manager
    /\ Role.organizational_role r
       = {| Role.id := "manager";
            Role.result_name := Role.name manager;
            Role.result_description := Role.description manager;
            Role.confidence := 0 |}
    /\ Role.all_organizational_roles r = []
    /\ get "manager" (Role.communication_strategies default_role_data)
       = Some (Role.communication_strategy r).
Proof.
  eexists. eexists. split; [vm_compute; reflexivity|]. split; [vm_compute; reflexivity|].
  refine ((fun H => conj (proj1 H) (conj (proj1 (proj2 H)) (proj1 (proj2 (proj2 H)))))
            (unrecognised_title_defaults default_role_data "Gardener" None
               (Some "healthcare") _ _ _ _ _)).
  - intros k info kw Hin Hkw.
    assert (H : forallb
                  (fun e : string * Role.role =>
                     forallb
                       (fun kw => Nat.eqb (Regex.count (Str.lower kw)
                                             (Aux.role_corpus "Gardener" None)) 0)
                       (Role.keywords (snd e)))
                  (Role.organizational_roles default_role_data) = true)
      by (vm_compute; reflexivity).
    rewrite forallb_forall in H. specialize (H _ Hin). rewrite forallb_forall in H.
    apply Nat.eqb_eq. exact (H kw Hkw).
  - vm_compute. reflexivity.
  - vm_compute. reflexivity.
Defined.

Section IndustryRole.

Local Open Scope Q_scope.


End IndustryRole.



(** ** The adapter: [analyze_business_context] *)

Section ContextParts.

Local Open Scope Q_scope.

Lemma ready_keys (data : Size.size_data) :
  Aux.size_data_ready data = true ->
  In "employees" (keys (Size.general_thresholds data))
  /\ In "revenue" (keys (Size.general_thresholds data))
  /\ In "medium" (keys (Size.size_characteristics data)).
Proof.
  unfold Aux.size_data_ready. intros H.
  apply andb_prop in H as [H _]. apply andb_prop in H as [H _].
  apply andb_prop in H as [H Hm]. apply andb_prop in H as [He Hr].
  repeat split; now apply mem_keys.
Qed.


End ContextParts.

(** X16. On an adapter whose industry taxonomy has a ["technology"] entry,
    whose size data is ready and whose communication strategies have a
    ["manager"] entry (the default adapter is such),
    [analyze_business_context] raises [NameError] for [value] whenever an
    employee count or an annual revenue is supplied and [additional_info]
    brings no industry metric; in every other case it returns a context. *)
Theorem context_raises_without_industry_metrics (self : Context.adapter)
        (business_description job_title : string) (emp rev : option Q)
        (info : option Context.additional_info) :
  NoDup (keys (Context.industry_classifier self)) ->
  In "technology" (keys (Context.industry_classifier self)) ->
  Aux.size_data_ready (Context.business_size_analyzer self) = true ->
  In "manager" (keys (Role.communication_strategies (Context.role_recognizer self))) ->
  (Context.get_or [] Context.industry_metrics info = [] ->
   emp <> None \/ rev <> None ->
   Context.analyze_business_context self business_description job_title emp rev info
   = Raise (NameError "value"))
  /\ (Context.get_or [] Context.industry_metrics info <> []
      \/ (emp = None /\ rev = None) ->
      exists ctx,
        Context.analyze_business_context self business_description job_title emp rev info
        = Ok ctx).
Proof.
  intros Hnd Htech Hready Hman.
  destruct (classify_industry_spec (Context.industry_classifier self)
              business_description (Some (Context.get_or [] Context.keywords info))
              Hnd Htech) as (ic & Hic & _).
  destruct (recognize_role_spec (Context.role_recognizer self) job_title
              (Some (Context.get_or ""%string Context.role_info info))
              (Some (Industry.id (Industry.primary_industry ic))) Hman)
    as (rr & Hrr & _).
  unfold Context.analyze_business_context. cbv zeta. rewrite Hic. cbn [bind].
  split.
  - intros Hm Hsome. rewrite Hm.
    rewrite (analyze_raises (Context.business_size_analyzer self) _ emp rev (Some [])
               Hready (or_intror eq_refl) Hsome).
    reflexivity.
  - intros Hcase.
    assert (Hsa : exists sa,
               Size.analyze_business_size (Context.business_size_analyzer self)
                 (Industry.id (Industry.primary_industry ic)) emp rev
                 (Some (Context.get_or [] Context.industry_metrics info)) = Ok sa).
    { destruct (Context.get_or [] Context.industry_metrics info) as [|m ms] eqn:Em.
      - destruct Hcase as [Hc|[-> ->]]; [congruence|].
        destruct (analyze_no_metric (Context.business_size_analyzer self)
                    (Industry.id (Industry.primary_industry ic)) (Some [])
                    Hready (or_intror eq_refl)) as (sa & Hsa & _).
        now exists sa.
      - destruct (ready_keys _ Hready) as (He & Hr & Hmed).
        exact (proj2 (analyze_outcome (Context.business_size_analyzer self)
                        (Industry.id (Industry.primary_industry ic)) emp rev
                        (Some (m :: ms)) He Hr Hmed) m ms eq_refl). }
    destruct Hsa as [sa ->]. cbn [bind]. rewrite Hrr. cbn [bind]. eauto.
Qed.

Lemma context_raises_without_industry_metrics_witness :
  NoDup (keys (Context.industry_classifier Context.default_adapter))
  /\ Context.analyze_business_context Context.default_adapter
       "We sell clothing online" "Marketing Director" (Some 75%Q) None None
     = Raise (NameError "value").
Proof.
  assert (Hnd : NoDup (keys (Context.industry_classifier Context.default_adapter))).
  { vm_compute. repeat constructor; cbn; intuition discriminate. }
  split; [exact Hnd|].
  refine (proj1 (context_raises_without_industry_metrics Context.default_adapter
                   "We sell clothing online" "Marketing Director" (Some 75%Q) None None
                   Hnd _ _ _) _ _).
  - vm_compute. tauto.
  - reflexivity.
  - vm_compute. tauto.
  - reflexivity.
  - left. discriminate.
Defined.



(** ** What the update operations keep *)

Section UpdateFrames.

Lemma foldM_invariant {A B : Type} (P : A -> Prop) (f : A -> B -> py_result A)
      (l : list B) (a a' : A) :
  P a ->
  (forall x b y, In b l -> P x -> f x b = Ok y -> P y) ->
  Json.foldM f l a = Ok a' -> P a'.
Proof.
  revert a. induction l as [|b l IH]; cbn; intros a Ha Hstep H.
  - injection H as <-. exact Ha.
  - destruct (f a b) as [a1|] eqn:E; cbn [bind] in H; [|discriminate].
    apply (IH a1); [| |exact H].
    + apply (Hstep a b a1); [now left | exact Ha | exact E].
    + intros x b' y Hb. apply Hstep. now right.
Qed.

Lemma update_keys {V : Type} (d other : dict V) (k : string) :
  In k (keys d) -> In k (keys (update d other)).
Proof.
  unfold update. revert d. induction other as [|[k0 v0] other IH]; intros d Hin; cbn.
  - exact Hin.
  - apply IH. apply In_keys_set. now right.
Qed.

(** Merging a supplied category into an existing dictionary category keeps
    every entry, and leaves the entries that are not supplied as they
    were. *)
Lemma merge_category_dict (fields entries : Json.document) (merged : Json.json) :
  Json.merge_category (Json.JDict fields) (Json.JDict entries) = Ok merged ->
  exists fields',
    merged = Json.JDict fields'
    /\ (forall key, In key (keys fields) -> In key (keys fields'))
    /\ (forall key, ~ In key (keys entries) -> get key fields' = get key fields).
Proof.
  cbn [Json.merge_category].
  apply (foldM_invariant
           (fun cat => exists fields',
                cat = Json.JDict fields'
                /\ (forall key, In key (keys fields) -> In key (keys fields'))
                /\ (forall key, ~ In key (keys entries) ->
                                get key fields' = get key fields))).
  - exists fields. auto.
  - intros x [key value] y Hin (fx & -> & Hk & Hf). cbn [Json.as_dict bind].
    intros Hstep.
    assert (Hy : y = Json.JDict (set key value fx)
                 \/ exists old new, y = Json.JDict (set key (Json.JDict (update old new)) fx)).
    { revert Hstep.
      destruct (get key fx) as [[| | | |old]|]; destruct value as [| | | |new];
        intros [= <-]; eauto. }
    clear Hstep. rename Hy into Hstep.
    assert (Hne : forall k, ~ In k (keys entries) -> k <> key).
    { intros k Hk' ->. apply Hk'. apply (in_map fst) in Hin. exact Hin. }
    destruct Hstep as [->|(old & new & ->)]; eexists; (split; [reflexivity|]); split.
    + intros k Hk'. apply In_keys_set. right. now apply Hk.
    + intros k Hk'. rewrite get_set_other by now apply Hne. now apply Hf.
    + intros k Hk'. apply In_keys_set. right. now apply Hk.
    + intros k Hk'. rewrite get_set_other by now apply Hne. now apply Hf.
Qed.

(** One step of the loop of the update operations on size and role data. *)
Lemma update_data_step (x : Json.document) (category : string)
      (category_data : Json.json) (y : Json.document) :
  match get category x with
  | Some existing =>
      merged <- Json.merge_category existing category_data ;;
      Ok (set category merged x)
  | None => Ok (set category category_data x)
  end = Ok y ->
  exists v, y = set category v x
            /\ match get category x with
               | Some existing => Json.merge_category existing category_data = Ok v
               | None => v = category_data
               end.
Proof.
  destruct (get category x) as [existing|].
  - destruct (Json.merge_category existing category_data) as [m|]; cbn [bind];
      [|discriminate].
    intros [= <-]. now exists m.
  - intros [= <-]. now exists category_data.
Qed.

Lemma update_data_keeps (data new_data d : Json.document) :
  Json.update_data data new_data = Ok d ->
  (forall c, In c (keys data) -> In c (keys d))
  /\ (forall c, ~ In c (keys new_data) -> get c d = get c data)
  /\ (forall c fields,
        get c data = Some (Json.JDict fields) ->
        exists fields',
          get c d = Some (Json.JDict fields')
          /\ (forall key, In key (keys fields) -> In key (keys fields'))
          /\ (forall key,
                (forall entries, In (c, Json.JDict entries) new_data ->
                                 ~ In key (keys entries)) ->
                get key fields' = get key fields))
  /\ (forall c items,
        get c data = Some (Json.JList items) ->
        exists more, get c d = Some (Json.JList (items ++ more))).
Proof.
  unfold Json.update_data. intros H. repeat split.
  - intros c Hc. revert H.
    apply (foldM_invariant (fun cur => In c (keys cur))); [exact Hc|].
    intros x [cat cd] y _ Hx Hy. apply update_data_step in Hy as (v & -> & _).
    apply In_keys_set. now right.
  - intros c Hc. revert H.
    apply (foldM_invariant (fun cur => get c cur = get c data)); [reflexivity|].
    intros x [cat cd] y Hin Hx Hy. apply update_data_step in Hy as (v & -> & _).
    rewrite get_set_other; [exact Hx|].
    intros ->. apply Hc. apply (in_map fst) in Hin. exact Hin.
  - intros c fields Hc. revert H.
    apply (foldM_invariant
             (fun cur => exists fields',
                  get c cur = Some (Json.JDict fields')
                  /\ (forall key, In key (keys fields) -> In key (keys fields'))
                  /\ (forall key,
                        (forall entries, In (c, Json.JDict entries) new_data ->
                                         ~ In key (keys entries)) ->
                        get key fields' = get key fields))).
    + exists fields. auto.
    + intros x [cat cd] y Hin (fx & Hg & Hk & Hf) Hy.
      apply update_data_step in Hy as (v & -> & Hv).
      destruct (String.eqb_spec c cat) as [<-|Hne].
      * rewrite get_set_same. rewrite Hg in Hv.
        destruct cd as [| | |items|entries].
        -- cbn in Hv. injection Hv as <-. exists fx. auto.
        -- cbn in Hv. injection Hv as <-. exists fx. auto.
        -- cbn in Hv. injection Hv as <-. exists fx. auto.
        -- cbn in Hv. discriminate.
        -- apply merge_category_dict in Hv as (f' & -> & Hk' & Hf').
           exists f'. split; [reflexivity|]. split.
           ++ intros key Hkey. apply Hk'. now apply Hk.
           ++ intros key Hkey. rewrite Hf' by exact (Hkey entries Hin). now apply Hf.
      * rewrite get_set_other by exact Hne. exists fx. auto.
  - intros c items Hc. revert H.
    apply (foldM_invariant
             (fun cur => exists more, get c cur = Some (Json.JList (items ++ more)))).
    + exists []. now rewrite app_nil_r.
    + intros x [cat cd] y Hin (more & Hg) Hy.
      apply update_data_step in Hy as (v & -> & Hv).
      destruct (String.eqb_spec c cat) as [<-|Hne].
      * rewrite get_set_same. rewrite Hg in Hv.
        destruct cd as [| | |its|entries].
        -- cbn in Hv. injection Hv as <-. now exists more.
        -- cbn in Hv. injection Hv as <-. now exists more.
        -- cbn in Hv. injection Hv as <-. now exists more.
        -- cbn in Hv. injection Hv as <-. exists (more ++ its). now rewrite app_assoc.
        -- destruct entries as [|[k0 v0] entries].
           ++ cbn in Hv. injection Hv as <-. now exists more.
           ++ cbn in Hv. discriminate.
      * rewrite get_set_other by exact Hne. now exists more.
Qed.

End UpdateFrames.

(** X18. An update of the size data or of the role data never removes
    anything: every category stays, a category that the update does not
    name is left as it was, a dictionary category keeps all its entries and
    those the update does not name are unchanged, and a list category keeps
    its items in front of whatever is appended. *)
Theorem updates_never_remove
        (update_op : Json.document -> Json.document -> py_result Json.document)
        (data new_data d : Json.document) :
  update_op = Json.update_size_data \/ update_op = Json.update_role_data ->
  update_op data new_data = Ok d ->
  (forall c, In c (keys data) -> In c (keys d))
  /\ (forall c, ~ In c (keys new_data) -> get c d = get c data)
  /\ (forall c fields,
        get c data = Some (Json.JDict fields) ->
        exists fields',
          get c d = Some (Json.JDict fields')
          /\ (forall key, In key (keys fields) -> In key (keys fields'))
          /\ (forall key,
                (forall entries, In (c, Json.JDict entries) new_data ->
                                 ~ In key (keys entries)) ->
                get key fields' = get key fields))
  /\ (forall c items,
        get c data = Some (Json.JList items) ->
        exists more, get c d = Some (Json.JList (items ++ more))).
Proof.
  intros [-> | ->]; apply update_data_keeps.
Qed.

Lemma updates_never_remove_witness :
  exists d,
    Json.update_size_data (Json.of_size_data default_size_data)
      [("size_characteristics",
        Json.JDict [("giant", Json.JDict [("description", Json.JStr "Very large")])])]
    = Ok d
    /\ (forall c, In c (keys (Json.of_size_data default_size_data)) -> In c (keys d))
    /\ get "general_thresholds" d
       = get "general_thresholds" (Json.of_size_data default_size_data).
Proof.
  eexists. split; [vm_compute; reflexivity|].
  refine ((fun H => conj (proj1 H) (proj1 (proj2 H) "general_thresholds" _))
            (updates_never_remove Json.update_size_data
               (Json.of_size_data default_size_data)
               [("size_characteristics",
                 Json.JDict [("giant",
                              Json.JDict [("description", Json.JStr "Very large")])])]
               _ (or_introl eq_refl) _)).
  - cbn. intuition discriminate.
  - vm_compute. reflexivity.
Defined.

Section IndustryUpdate.

Lemma industry_kept_refl (ex : Json.document) : Aux.industry_kept ex ex.
Proof.
  repeat split.
  - auto.
  - intros old H. exists []. now rewrite app_nil_r.
  - intros subs H. exists subs. auto.
Qed.

Lemma industry_kept_trans (a b c : Json.document) :
  Aux.industry_kept a b -> Aux.industry_kept b c -> Aux.industry_kept a c.
Proof.
  intros (K1 & W1 & S1) (K2 & W2 & S2). repeat split.
  - auto.
  - intros old H. destruct (W1 old H) as (m1 & H1). destruct (W2 _ H1) as (m2 & H2).
    exists (m1 ++ m2). now rewrite app_assoc.
  - intros subs H. destruct (S1 subs H) as (s1 & H1 & I1).
    destruct (S2 s1 H1) as (s2 & H2 & I2). exists s2. auto.
Qed.

Lemma merge_sub_industries_keys (subs new_subs merged : Json.document) (sid : string) :
  Json.merge_sub_industries subs new_subs = Ok merged ->
  In sid (keys subs) -> In sid (keys merged).
Proof.
  unfold Json.merge_sub_industries. intros H Hin. revert H.
  apply (foldM_invariant (fun cur => In sid (keys cur))); [exact Hin|].
  intros x [sub_id sub_info] y _ Hx.
  destruct (get sub_id x) as [old|].
  - destruct (Json.as_dict old) as [o|]; cbn [bind]; [|discriminate].
    destruct (Json.as_dict sub_info) as [n|]; cbn [bind]; [|discriminate].
    intros [= <-]. apply In_keys_set. now right.
  - intros [= <-]. apply In_keys_set. now right.
Qed.

Lemma mem_get {V : Type} (d : dict V) (k : string) (v : V) :
  get k d = Some v -> mem k d = true.
Proof. unfold mem. now intros ->. Qed.

(** Merging the supplied fields into an existing industry keeps what the
    industry had. *)
Lemma merge_industry_kept (ex info merged : Json.document) :
  Json.merge_industry ex info = Ok merged -> Aux.industry_kept ex merged.
Proof.
  unfold Json.merge_industry.
  apply (foldM_invariant (fun cur => Aux.industry_kept ex cur)).
  - apply industry_kept_refl.
  - intros x [key value] y _ Hx Hy.
    apply (industry_kept_trans ex x y Hx). clear Hx.
    destruct (String.eqb key "sub_industries" && mem "sub_industries" x) eqn:E1.
    + destruct (lookup "sub_industries" x) as [sj|] eqn:Hl; cbn [bind] in Hy;
        [|discriminate].
      destruct sj as [| | | |sx]; cbn [Json.as_dict bind] in Hy; try discriminate.
      destruct (Json.as_dict value) as [nv|]; cbn [bind] in Hy; [|discriminate].
      destruct (Json.merge_sub_industries sx nv) as [m|] eqn:Hm; cbn [bind] in Hy;
        [|discriminate].
      injection Hy as <-. apply lookup_Ok in Hl. repeat split.
      * intros k Hk. apply In_keys_set. now right.
      * intros old Ho. exists []. rewrite app_nil_r.
        rewrite get_set_other by discriminate. exact Ho.
      * intros subs Hs. rewrite Hl in Hs. injection Hs as <-.
        exists m. split; [apply get_set_same|].
        intros sid. exact (merge_sub_industries_keys sx nv m sid Hm).
    + destruct (String.eqb key "keywords" && mem "keywords" x) eqn:E2.
      * destruct (lookup "keywords" x) as [oj|] eqn:Hl; cbn [bind] in Hy;
          [|discriminate].
        destruct oj as [| | |ol|]; cbn [Json.as_list bind] in Hy; try discriminate.
        destruct (Json.as_list value) as [nl|]; cbn [bind] in Hy; [|discriminate].
        injection Hy as <-. apply lookup_Ok in Hl. repeat split.
        -- intros k Hk. apply In_keys_set. now right.
        -- intros old Ho. rewrite Hl in Ho. injection Ho as <-.
           eexists. apply get_set_same.
        -- intros subs Hs. exists subs. split; [|auto].
           rewrite get_set_other by discriminate. exact Hs.
      * injection Hy as <-. repeat split.
        -- intros k Hk. apply In_keys_set. now right.
        -- intros old Ho. exists []. rewrite app_nil_r.
           rewrite get_set_other; [exact Ho|].
           intros <-. rewrite String.eqb_refl, (mem_get _ _ _ Ho) in E2. discriminate.
        -- intros subs Hs. exists subs. split; [|auto].
           rewrite get_set_other; [exact Hs|].
           intros <-. rewrite String.eqb_refl, (mem_get _ _ _ Hs) in E1. discriminate.
Qed.

(** One step of the loop of [update_industry_data]. *)
Lemma update_industry_step (x : Json.document) (industry_id : string)
      (industry_info : Json.json) (y : Json.document) :
  (industries_j <- lookup "industries" x ;;
   industries <- Json.as_dict industries_j ;;
   match get industry_id industries with
   | Some existing =>
       existing <- Json.as_dict existing ;;
       info <- Json.as_dict industry_info ;;
       merged <- Json.merge_industry existing info ;;
       Ok (set "industries"
               (Json.JDict (set industry_id (Json.JDict merged) industries)) x)
   | None =>
       Ok (set "industries"
               (Json.JDict (set industry_id industry_info industries)) x)
   end) = Ok y ->
  exists industries v,
    get "industries" x = Some (Json.JDict industries)
    /\ y = set "industries" (Json.JDict (set industry_id v industries)) x
    /\ (forall ex, get industry_id industries = Some (Json.JDict ex) ->
                   exists ex', v = Json.JDict ex' /\ Aux.industry_kept ex ex').
Proof.
  destruct (lookup "industries" x) as [ij|] eqn:Hl; cbn [bind]; [|discriminate].
  apply lookup_Ok in Hl.
  destruct ij as [| | | |ind]; cbn [Json.as_dict bind]; try discriminate.
  destruct (get industry_id ind) as [existing|] eqn:Hg.
  - destruct existing as [| | | |ex]; cbn [Json.as_dict bind]; try discriminate.
    destruct (Json.as_dict industry_info) as [info|]; cbn [bind]; [|discriminate].
    destruct (Json.merge_industry ex info) as [m|] eqn:Hm; cbn [bind]; [|discriminate].
    intros [= <-]. exists ind, (Json.JDict m). split; [exact Hl|].
    split; [reflexivity|]. intros ex0 Hex. rewrite Hg in Hex. injection Hex as <-.
    exists m. split; [reflexivity|]. now apply (merge_industry_kept ex info).
  - intros [= <-]. exists ind, industry_info. split; [exact Hl|].
    split; [reflexivity|]. intros ex0 Hex. rewrite Hg in Hex. discriminate.
Qed.

End IndustryUpdate.

(** X19. [update_industry_data] never removes anything: every top-level
    key other than ["industries"] is left as it was, every industry stays,
    and an existing industry keeps all its fields, its keyword list as a
    prefix of the new keyword list, and all its sub-industries. *)
Theorem industry_update_never_removes (data new_data d : Json.document) :
  Json.update_industry_data data new_data = Ok d ->
  (forall k, k <> "industries"%string -> get k d = get k data)
  /\ (forall industries,
        get "industries" data = Some (Json.JDict industries) ->
        exists industries',
          get "industries" d = Some (Json.JDict industries')
          /\ (forall industry_id,
                In industry_id (keys industries) -> In industry_id (keys industries'))
          /\ (forall industry_id ex,
                get industry_id industries = Some (Json.JDict ex) ->
                exists ex',
                  get industry_id industries' = Some (Json.JDict ex')
                  /\ Aux.industry_kept ex ex')).
Proof.
  unfold Json.update_industry_data.
  destruct (get "industries" new_data) as [nj|].
  2:{ intros [= <-]. split; [reflexivity|].
      intros industries Hi. exists industries. split; [exact Hi|]. split; [auto|].
      intros industry_id ex He. exists ex. split; [exact He|]. apply industry_kept_refl. }
  destruct (Json.as_dict nj) as [new_industries|]; cbn [bind]; [|discriminate].
  intros H. split.
  - intros k Hk. revert H.
    apply (foldM_invariant (fun cur => get k cur = get k data)); [reflexivity|].
    intros x [industry_id industry_info] y _ Hx Hy.
    apply update_industry_step in Hy as (ind & v & _ & -> & _).
    rewrite get_set_other by exact Hk. exact Hx.
  - intros industries Hi. revert H.
    apply (foldM_invariant
             (fun cur => exists industries',
                  get "industries" cur = Some (Json.JDict industries')
                  /\ (forall industry_id,
                        In industry_id (keys industries) ->
                        In industry_id (keys industries'))
                  /\ (forall industry_id ex,
                        get industry_id industries = Some (Json.JDict ex) ->
                        exists ex',
                          get industry_id industries' = Some (Json.JDict ex')
                          /\ Aux.industry_kept ex ex'))).
    + exists industries. split; [exact Hi|]. split; [auto|].
      intros industry_id ex He. exists ex. split; [exact He|]. apply industry_kept_refl.
    + intros x [industry_id industry_info] y _ (ind' & Hx & Hk & He) Hy.
      apply update_industry_step in Hy as (ind & v & Hg & -> & Hv).
      rewrite Hx in Hg. injection Hg as <-.
      eexists. split; [apply get_set_same|]. split.
      * intros i Hin. apply In_keys_set. right. now apply Hk.
      * intros i ex Hex. destruct (He i ex Hex) as (ex1 & H1 & K1).
        destruct (String.eqb_spec i industry_id) as [->|Hne].
        -- destruct (Hv ex1 H1) as (ex2 & -> & K2).
           exists ex2. split; [apply get_set_same|].
           now apply (industry_kept_trans ex ex1 ex2).
        -- exists ex1. split; [|exact K1]. now rewrite get_set_other.
Qed.

Lemma industry_update_never_removes_witness :
  exists d,
    Json.update_industry_data (Json.of_industry_data default_industry_data)
      [("industries",
        Json.JDict [("retail",
                     Json.JDict [("keywords", Json.of_strings ["store"; "outlet"]);
                                 ("name", Json.JStr "Retail and Commerce")])])]
    = Ok d
    /\ forall k, k <> "industries"%string ->
                 get k d = get k (Json.of_industry_data default_industry_data).
Proof.
  eexists. split; [vm_compute; reflexivity|].
  refine (proj1 (industry_update_never_removes
                   (Json.of_industry_data default_industry_data)
                   [("industries",
                     Json.JDict [("retail",
                                  Json.JDict [("keywords",
                                               Json.of_strings ["store"; "outlet"]);
                                              ("name", Json.JStr "Retail and Commerce")])])]
                   _ _)).
  vm_compute. reflexivity.
Defined.

Section KeywordUpdate.

(** An update that brings only keywords for one existing industry. *)
Lemma keyword_update (data industries ex : Json.document) (industry_id : string)
      (old new : list Json.json) :
  get "industries" data = Some (Json.JDict industries) ->
  get industry_id industries = Some (Json.JDict ex) ->
  get "keywords" ex = Some (Json.JList old) ->
  Json.update_industry_data data
    [("industries", Json.JDict [(industry_id, Json.JDict [("keywords", Json.JList new)])])]
  = Ok (set "industries"
          (Json.JDict
             (set industry_id
                (Json.JDict
                   (set "keywords"
                      (Json.JList
                         (old ++ filter (fun kw => negb (Json.contains old kw)) new))
                      ex))
                industries))
          data).
Proof.
  intros Hd Hi Hk.
  unfold Json.update_industry_data. cbn [get String.eqb Ascii.eqb Bool.eqb].
  cbn [Json.as_dict bind Json.foldM]. unfold lookup. rewrite Hd.
  cbn [bind Json.as_dict]. rewrite Hi. cbn [bind Json.as_dict].
  unfold Json.merge_industry. cbn [Json.foldM bind].
  change (String.eqb "keywords" "sub_industries") with false. cbn [andb].
  rewrite String.eqb_refl. unfold mem, lookup. rewrite Hk.
  cbn [andb bind Json.as_list]. reflexivity.
Qed.

(** Every supplied keyword is in the merged list, so a second merge adds
    nothing. *)
Lemma merged_keywords_complete (old : list Json.json) (kws : list string) :
  filter
    (fun kw =>
       negb (Json.contains
               (old ++ filter (fun kw => negb (Json.contains old kw)) (map Json.JStr kws))
               kw))
    (map Json.JStr kws) = [].
Proof.
  set (merged := old ++ _).
  assert (H : forall s, In s kws -> Json.contains merged (Json.JStr s) = true).
  { intros s Hs. destruct (Json.contains old (Json.JStr s)) eqn:E.
    - unfold Json.contains, merged in *. rewrite existsb_app, E. reflexivity.
    - apply contains_JStr. unfold merged. apply in_or_app. right.
      apply filter_In. split; [now apply in_map | now rewrite E]. }
  clearbody merged. induction kws as [|s kws IH]; [reflexivity|].
  cbn [map filter]. rewrite (H s (or_introl eq_refl)). cbn [negb].
  apply IH. intros s' Hs'. apply H. now right.
Qed.

(** A keyword that the industry did not have is added as often as it is
    supplied. *)
Lemma merged_keywords_new (old : list Json.json) (new : list Json.json) (s : string) :
  ~ In (Json.JStr s) old ->
  Json.occurrences s (old ++ filter (fun kw => negb (Json.contains old kw)) new)
  = Json.occurrences s new.
Proof.
  intros Hnot. unfold Json.occurrences. rewrite filter_app, length_app.
  assert (Hold : filter (fun j => Json.eqb j (Json.JStr s)) old = []).
  { induction old as [|j old IH]; [reflexivity|]. cbn [filter].
    destruct (Json.eqb j (Json.JStr s)) eqn:E.
    - apply eqb_JStr in E. subst j. exfalso. apply Hnot. now left.
    - apply IH. intros Hin. apply Hnot. now right. }
  rewrite Hold. cbn [List.length Nat.add]. f_equal.
  induction new as [|j new IH]; [reflexivity|]. cbn [filter].
  destruct (Json.eqb j (Json.JStr s)) eqn:E.
  - apply eqb_JStr in E. subst j.
    assert (Hc : Json.contains old (Json.JStr s) = false).
    { unfold Json.contains. apply not_true_is_false. intros Hex.
      apply existsb_exists in Hex as (y & Hy & Hey). apply eqb_JStr in Hey.
      subst y. contradiction. }
    rewrite Hc. cbn [negb filter]. cbn [Json.eqb]. rewrite String.eqb_refl.
    now rewrite IH.
  - destruct (negb (Json.contains old j)); [|exact IH].
    cbn [filter]. now rewrite E.
Qed.

End KeywordUpdate.

(** X20. A keyword update of an existing industry is idempotent: applying
    the same update to its own result changes nothing more. Within one
    update, however, only the keywords the industry already had are
    filtered out: a keyword the industry did not have is added as many
    times as the update lists it. *)
Theorem keyword_update_idempotent (data industries ex d : Json.document)
        (industry_id : string) (old : list Json.json) (kws : list string) :
  get "industries" data = Some (Json.JDict industries) ->
  get industry_id industries = Some (Json.JDict ex) ->
  get "keywords" ex = Some (Json.JList old) ->
  Json.update_industry_data data
    [("industries",
      Json.JDict [(industry_id, Json.JDict [("keywords", Json.of_strings kws)])])]
  = Ok d ->
  Json.update_industry_data d
    [("industries",
      Json.JDict [(industry_id, Json.JDict [("keywords", Json.of_strings kws)])])]
  = Ok d
  /\ exists l,
      Json.list_at d "industries" industry_id "keywords" = Some l
      /\ forall s, ~ In (Json.JStr s) old ->
                   Json.occurrences s l = List.length (filter (String.eqb s) kws).
Proof.
  intros Hd Hi Hk. unfold Json.of_strings.
  rewrite (keyword_update data industries ex industry_id old _ Hd Hi Hk).
  intros [= <-]. split.
  - rewrite (keyword_update _ _ _ industry_id _ (map Json.JStr kws)
               (get_set_same _ _ _) (get_set_same _ _ _) (get_set_same _ _ _)).
    rewrite merged_keywords_complete, app_nil_r, !set_set. reflexivity.
  - eexists. split.
    + unfold Json.list_at. rewrite get_set_same, get_set_same, get_set_same. reflexivity.
    + intros s Hs. rewrite (merged_keywords_new old _ s Hs).
      unfold Json.occurrences. clear. induction kws as [|k kws IH]; [reflexivity|].
      cbn [map filter Json.eqb]. rewrite (String.eqb_sym k s).
      destruct (String.eqb s k); cbn [List.length]; now rewrite IH.
Qed.

Lemma keyword_update_idempotent_witness :
  exists d l,
    Json.update_industry_data
      [("industries",
        Json.JDict [("retail",
                     Json.JDict [("name", Json.JStr "Retail");
                                 ("keywords", Json.of_strings ["retail"; "store"])])])]
      [("industries",
        Json.JDict [("retail",
                     Json.JDict [("keywords",
                                  Json.of_strings ["store"; "outlet"; "outlet"])])])]
    = Ok d
    /\ Json.update_industry_data d
         [("industries",
           Json.JDict [("retail",
                        Json.JDict [("keywords",
                                     Json.of_strings ["store"; "outlet"; "outlet"])])])]
       = Ok d
    /\ Json.list_at d "industries" "retail" "keywords" = Some l
    /\ Json.occurrences "outlet" l = 2%nat
    /\ Json.occurrences "store" l = 1%nat.
Proof.
  eexists. eexists. split; [vm_compute; reflexivity|].
  split.
  - refine (proj1 (keyword_update_idempotent
                     [("industries",
                       Json.JDict
                         [("retail",
                           Json.JDict [("name", Json.JStr "Retail");
                                       ("keywords",
                                        Json.of_strings ["retail"; "store"])])])]
                     [("retail",
                       Json.JDict [("name", Json.JStr "Retail");
                                   ("keywords", Json.of_strings ["retail"; "store"])])]
                     [("name", Json.JStr "Retail");
                      ("keywords", Json.of_strings ["retail"; "store"])]
                     _ "retail" [Json.JStr "retail"; Json.JStr "store"]
                     ["store"; "outlet"; "outlet"] eq_refl eq_refl eq_refl _)).
    vm_compute. reflexivity.
  - split; [vm_compute; reflexivity|]. split; vm_compute; reflexivity.
Defined.

(** ** Results and the lookups made on them *)

Section Lookups.

Local Open Scope Q_scope.

Lemma lower_id (s : string) : Aux.has_upper s = false -> Str.lower s = s.
Proof.
  induction s as [|c s IH]; [reflexivity|]. cbn [Aux.has_upper Str.lower].
  intros H. apply orb_false_elim in H as [Hc Hs].
  unfold Str.lower_char. rewrite Hc, (IH Hs). reflexivity.
Qed.

(** What [_get_highest_scoring_role] returns, when it is not the empty
    result, is a role of the taxonomy, with its name. *)
Lemma highest_scoring_role_registered (scores : dict Q) (roles : dict Role.role)
      (dflt : option string) (res : Role.role_result) :
  Role._get_highest_scoring_role scores roles dflt = Ok res ->
  Role.id res <> ""%string ->
  exists info,
    get (Role.id res) roles = Some info
    /\ Role.result_name res = Role.name info
    /\ Role.result_description res = Role.description info.
Proof.
  unfold Role._get_highest_scoring_role. destruct scores as [|kv d].
  - destruct dflt as [dr|].
    + destruct (Str.truthy dr && mem dr roles).
      * destruct (lookup dr roles) as [info|] eqn:Hl; cbn [bind]; [|discriminate].
        intros [= <-] _. cbn. exists info. apply lookup_Ok in Hl. auto.
      * intros [= <-]. cbn. congruence.
    + intros [= <-]. cbn. congruence.
  - destruct (Num.max_key (kv :: d)) as [w|]; cbn [bind]; [|discriminate].
    destruct (lookup w roles) as [info|] eqn:Hl; cbn [bind]; [|discriminate].
    intros [= <-] _. cbn. exists info. apply lookup_Ok in Hl. auto.
Qed.

(** The thresholds that [analyze_business_size] selects are threshold sets
    of the taxonomy. *)
Lemma selected_thresholds (data : Size.size_data) (industry : string)
      (ths : dict Size.thresholds) (metric : string) (th : Size.thresholds) :
  Size.select_thresholds data industry = Ok ths ->
  get metric ths = Some th ->
  In th (Aux.threshold_sets data).
Proof.
  unfold Size.select_thresholds, Aux.threshold_sets. intros Hs Hg.
  apply in_or_app. destruct (mem industry _).
  - right. apply lookup_Ok in Hs. apply in_flat_map.
    exists (industry, ths). split; [now apply get_In|].
    cbn [snd]. apply In_values. exists metric. now apply get_In.
  - left. destruct (lookup "employees" _) as [e|] eqn:He; cbn [bind] in Hs;
      [|discriminate].
    destruct (lookup "revenue" _) as [r|] eqn:Hr; cbn [bind] in Hs; [|discriminate].
    injection Hs as <-. apply lookup_Ok in He, Hr.
    apply In_values. cbn [get] in Hg.
    destruct (String.eqb metric "employees").
    + injection Hg as <-. exists "employees"%string. now apply get_In.
    + destruct (String.eqb metric "revenue"); [|discriminate].
      injection Hg as <-. exists "revenue"%string. now apply get_In.
Qed.

(** A label that a metric receives is "medium" or a label of one of the
    selected threshold sets. *)
Lemma label_of_source (metric : string) (v : Q) (ths : dict Size.thresholds)
      (l : string) :
  In l (Reference.label_of metric v ths) ->
  l = "medium"%string \/ exists th, get metric ths = Some th /\ In l (keys th).
Proof.
  unfold Reference.label_of. destruct (get metric ths) as [th|]; [|contradiction].
  destruct (Str.truthy _); [|contradiction]. intros [<-|[]].
  destruct (categorize_label th v) as [H|H]; [now left|]. right. now exists th.
Qed.

Lemma final_size_source (ths : dict Size.thresholds) (emp rev : option Q)
      (adds : option (dict Q)) (w : string) (c : Q) :
  Size.decide (Size.evaluate_metrics ths emp rev adds) = Ok (w, c) ->
  w = "medium"%string \/ exists metric th, get metric ths = Some th /\ In w (keys th).
Proof.
  intros Hd.
  destruct (Size.size_categories (Size.evaluate_metrics ths emp rev adds)) eqn:E.
  - unfold Size.decide in Hd. rewrite E in Hd. injection Hd as <- _. now left.
  - destruct (decide_majority (Size.evaluate_metrics ths emp rev adds))
      as (w' & c' & Hd' & _ & l1 & l2 & Hl & _); [congruence|].
    rewrite Hd in Hd'. injection Hd' as <- _.
    assert (Hin : In w (Reference.evaluated_labels ths emp rev adds)).
    { rewrite <- evaluate_metrics_categories, Hl. apply in_or_app. right. now left. }
    unfold Reference.evaluated_labels in Hin.
    apply in_app_or in Hin as [Hin|Hin]; [|apply in_app_or in Hin as [Hin|Hin]].
    + destruct emp as [x|]; [|contradiction].
      apply label_of_source in Hin as [->|(th & Hg & Hk)]; [now left|].
      right. now exists "employees"%string, th.
    + destruct rev as [x|]; [|contradiction].
      apply label_of_source in Hin as [->|(th & Hg & Hk)]; [now left|].
      right. now exists "revenue"%string, th.
    + destruct adds as [metrics|]; [|contradiction].
      apply in_flat_map in Hin as ([m v] & _ & Hin). cbn [fst snd] in Hin.
      apply label_of_source in Hin as [->|(th & Hg & Hk)]; [now left|].
      right. now exists m, th.
Qed.

End Lookups.

(** X21. The identifiers in a result are registered, so the lookups made
    on them find the very records the result was built from:
    [get_industry_information] on the primary industry id returns the
    industry whose name the classification carries, without falling back;
    [get_communication_strategy] on the organizational role id returns the
    strategy of the recognition; and [get_role_information] on a role id
    that is not empty returns the role whose name and description the
    recognition carries. *)
Theorem results_look_up_their_records :
  (forall data description additional r,
      NoDup (keys data) ->
      Industry.classify_industry data description additional = Ok r ->
      exists info,
        Industry.get_industry_information data (Industry.id (Industry.primary_industry r))
        = Ok info
        /\ mem (Industry.id (Industry.primary_industry r)) data = true
        /\ Industry.name info = Industry.entry_name (Industry.primary_industry r))
  /\ (forall data job_title additional_info industry r,
         Role.recognize_role data job_title additional_info industry = Ok r ->
         Role.get_communication_strategy data (Role.id (Role.organizational_role r))
         = Ok (Role.communication_strategy r)
         /\ (Role.id (Role.organizational_role r) <> ""%string ->
             exists info,
               Role.get_role_information data "organizational"
                 (Role.id (Role.organizational_role r)) None = Role.Found info
               /\ Role.name info = Role.result_name (Role.organizational_role r)
               /\ Role.description info
                  = Role.result_description (Role.organizational_role r))
         /\ (Role.id (Role.functional_role r) <> ""%string ->
             exists info,
               Role.get_role_information data "functional"
                 (Role.id (Role.functional_role r)) None = Role.Found info
               /\ Role.name info = Role.result_name (Role.functional_role r)
               /\ Role.description info
                  = Role.result_description (Role.functional_role r))).
Proof.
  split.
  - intros data description additional r Hnd Hr.
    destruct (classify_industry_inv data description additional r Hnd Hr)
      as (info & Hg & Hn & _).
    exists info. unfold Industry.get_industry_information.
    rewrite (mem_get _ _ _ Hg). apply lookup_Ok in Hg. auto.
  - intros data job_title additional_info industry r Hr.
    destruct (recognize_role_inv _ _ _ _ _ Hr)
      as (Hpo & Hpf & _ & _ & (man & Hman & Hc) & _).
    split; [|split].
    + unfold Role.get_communication_strategy, mem, lookup. rewrite Hc.
      destruct (get (Role.id (Role.organizational_role r)) _); [reflexivity|].
      now rewrite Hman.
    + intros Hne.
      destruct (highest_scoring_role_registered _ _ _ _ Hpo Hne) as (info & Hg & Hn & Hd).
      exists info. unfold Role.get_role_information. cbn [String.eqb Ascii.eqb Bool.eqb].
      rewrite Hg. auto.
    + intros Hne.
      destruct (highest_scoring_role_registered _ _ _ _ Hpf Hne) as (info & Hg & Hn & Hd).
      exists info. unfold Role.get_role_information. cbn [String.eqb Ascii.eqb Bool.eqb].
      rewrite Hg. auto.
Qed.

(** X22. On size data whose labels have no upper-case letter (the default
    data is such), [get_size_information] on the size category of an
    analysis returns the description, challenges and opportunities that
    the analysis itself reports. *)
Theorem size_information_matches_analysis (data : Size.size_data) (industry : string)
        (emp rev : option Q) (adds : option (dict Q)) (r : Size.analysis) :
  Aux.labels_lower data = true ->
  Size.analyze_business_size data industry emp rev adds = Ok r ->
  exists c,
    Size.get_size_information data (Size.size_category r) = Ok c
    /\ Size.description c = Size.result_description r
    /\ Size.challenges c = Size.result_challenges r
    /\ Size.opportunities c = Size.result_opportunities r.
Proof.
  intros Hlow. unfold Size.analyze_business_size.
  destruct (Size.select_thresholds _ _) as [ths|] eqn:Hths; cbn [bind]; [|discriminate].
  destruct (Size.decide _) as [[w c]|] eqn:Hd; cbn [bind]; [|discriminate].
  destruct (lookup "medium" _) as [medium|] eqn:Hmed; cbn [bind]; [|discriminate].
  destruct (Size.analyse_metrics _) as [ma|]; cbn [bind]; [|discriminate].
  intros [= <-]. cbn.
  assert (Hw : Str.lower w = w).
  { apply lower_id.
    destruct (final_size_source _ _ _ _ _ _ Hd) as [->|(metric & th & Hg & Hin)];
      [reflexivity|].
    pose proof (selected_thresholds _ _ _ _ _ Hths Hg) as Hth.
    unfold Aux.labels_lower in Hlow. rewrite forallb_forall in Hlow.
    specialize (Hlow th Hth). rewrite forallb_forall in Hlow.
    unfold keys in Hin. apply in_map_iff in Hin as (kv & <- & Hkv).
    specialize (Hlow kv Hkv). now apply negb_true_iff in Hlow. }
  unfold Size.get_size_information. rewrite Hw. unfold mem, lookup.
  destruct (get w (Size.size_characteristics data)) as [ch|].
  - exists ch. auto.
  - unfold lookup in Hmed. destruct (get "medium" _) as [m|]; [|discriminate].
    injection Hmed as <-. exists m. auto.
Qed.

Lemma size_information_matches_analysis_witness :
  exists r c,
    Size.analyze_business_size default_size_data "Retail" (Some 75%Q) (Some 2000000%Q)
      (Some [("locations", 3%Q)]) = Ok r
    /\ Size.get_size_information default_size_data (Size.size_category r) = Ok c
    /\ Size.description c = Size.result_description r.
Proof.
  eexists.
  refine ((fun (E : _ = Ok _) =>
             match size_information_matches_analysis default_size_data "Retail"
                     (Some 75%Q) (Some 2000000%Q) (Some [("locations", 3%Q)]) _
                     eq_refl E with
             | ex_intro _ c (conj H1 (conj H2 _)) => ex_intro _ c (conj E (conj H1 H2))
             end) _).
  vm_compute. reflexivity.
Defined.
